(** * Deterministic sharded index assignment of [DistributedSamplingDataset]

    A shallow embedding of [DistributedSamplingDataset] from
    [src/text_data.py]: the construction of the global index array, its
    persistence as a flat [uint32] file, and the per-rank and per-worker
    slicing done by [__iter__].

    Conventions.
    - Python integers are [Z]; [//] and [%] are [Z.div] and [Z.modulo], which
      have Python's floor semantics for every sign of the divisor; a zero
      divisor raises [ZeroDivisionError].
    - numpy arrays are lists; a [uint32] element is a [Z] with the
      wrap-around modulo [2^32] written where the array is created.
    - Exceptions are the [Raise] outcomes of a small error monad; the only
      loop of the code runs on fuel and reports [Diverge] when it would not
      terminate.
    - [math.ceil(a / b)] in [__init__] is the ceiling of the exact quotient
      ([Py.ceil_truediv]): the float quotient is idealised as a rational.
      The quotient as Python computes it, through the nearest double, is
      [Double.ceil_truediv]; the two are proved to agree for operands
      below [2^53] in magnitude, and they differ beyond. The theorems that
      depend on the value of the ceiling are stated for lengths and world
      sizes below [2^53].
    - The numpy generator is a parameter: a function from the seed and the
      array to the shuffled array, assumed to return a permutation where
      that matters.
    - The files of the working directory are a finite map from paths to
      byte sequences.

    The development also covers the code around the class: the builder
    [build_no_streaming_dataset], the sample processing of
    [StreamingTextDataset] and [NoStreamingDataset], the collator
    [ConcatenatedSequenceCollatorWrapper], and the checkpoint upload
    callback [HuggingFaceSync] of [src/callbacks/hf_sync.py]. *)

From Stdlib Require Import ZArith QArith Qround Lia.
From Stdlib Require Import Strings.Byte.
From stdpp Require Import base numbers list gmap strings sorting.

Local Open Scope Z_scope.

(** ** Outcomes of Python code *)

Inductive exn : Set :=
| AssertionError
| ZeroDivisionError
| ValueError
| FileNotFoundError.

Inductive result (A : Type) : Type :=
| Ok (a : A)
| Raise (e : exn)
| Diverge.

Arguments Ok {A} a.
Arguments Raise {A} e.
Arguments Diverge {A}.

#[global] Instance result_bind : MBind result := λ A B k m,
  match m with
  | Ok a => k a
  | Raise e => Raise e
  | Diverge => Diverge
  end.

#[global] Instance result_ret : MRet result := λ A a, Ok a.

(** [assert c] *)
Definition py_assert (c : bool) : result unit :=
  if c then Ok tt else Raise AssertionError.

Definition is_Ok {A : Type} (m : result A) : Prop := ∃ a, m = Ok a.

(** ** Python and numpy primitives used by the class *)

Module Py.

(** [len(l)] *)
Definition len {A : Type} (l : list A) : Z := Z.of_nat (length l).

(** [a // b] *)
Definition floordiv (a b : Z) : result Z :=
  if b =? 0 then Raise ZeroDivisionError else Ok (a `div` b).

(** [a % b] *)
Definition modulo (a b : Z) : result Z :=
  if b =? 0 then Raise ZeroDivisionError else Ok (a `mod` b).

(** [math.ceil(a / b)], with the true division taken exactly. *)
Definition ceil_truediv (a b : Z) : result Z :=
  if b =? 0 then Raise ZeroDivisionError
  else Ok (Qceiling (inject_Z a / inject_Z b)).

(** The clamping of one bound of a slice (CPython's
    [PySlice_AdjustIndices]). *)
Definition adjust_index (n step i : Z) : Z :=
  if i <? 0 then
    (if i + n <? 0 then (if step <? 0 then -1 else 0) else i + n)
  else if n <=? i then (if step <? 0 then n - 1 else n)
  else i.

(** The positions selected by [start:stop:step] in a sequence of length
    [n]; [None] is an omitted bound. *)
Definition slice_indices (n : Z) (start stop : option Z) (step : Z) : list Z :=
  let lo := match start with
            | Some s => adjust_index n step s
            | None => if step <? 0 then n - 1 else 0
            end in
  let hi := match stop with
            | Some s => adjust_index n step s
            | None => if step <? 0 then -1 else n
            end in
  let count :=
    if step <? 0 then (if hi <? lo then (lo - hi - 1) `div` (- step) + 1 else 0)
    else (if lo <? hi then (hi - lo - 1) `div` step + 1 else 0) in
  (λ i, lo + i * step) <$> seqZ 0 count.

(** [l[start:stop:step]] *)
Definition slice {A : Type} (l : list A) (start stop : option Z) (step : Z)
  : result (list A) :=
  if step =? 0 then Raise ValueError
  else Ok (omap (λ i, l !! Z.to_nat i) (slice_indices (len l) start stop step)).

End Py.

Module Np.

Definition uint32_max : Z := 4294967295.

(** [np.arange(n, dtype=np.uint32)] *)
Definition arange_uint32 (n : Z) : list Z :=
  (λ i, i `mod` 2 ^ 32) <$> seqZ 0 n.

(** Row [r] of a flat array cut into rows of [d] elements; the last row is
    short when [d] does not divide the length. *)
Definition rows {A : Type} (d : nat) (l : list A) : list (list A) :=
  (λ r, take d (drop (r * d) l)) <$> seq 0 (Nat.div (length l + d - 1) d).

(** [a.reshape((-1, d))] for a one-dimensional [a]. *)
Definition reshape_rows {A : Type} (l : list A) (d : Z) : result (list (list A)) :=
  if d <=? 0 then Raise ValueError
  else if Py.len l `mod` d =? 0 then Ok (rows (Z.to_nat d) l)
  else Raise ValueError.

(** [a.reshape((-1,))] for a two-dimensional [a]. *)
Definition reshape_flat {A : Type} (rs : list (list A)) : list A := concat rs.

(** [np.concatenate(arrays)] *)
Definition concatenate {A : Type} (arrays : list (list A)) : list A := concat arrays.

(** *** Files of [uint32] elements *)

Definition byte_of_Z (z : Z) : byte :=
  default x00 (Byte.of_N (Z.to_N (z `mod` 256))).

Definition Z_of_byte (b : byte) : Z := Z.of_N (Byte.to_N b).

(** The four bytes of one element, least significant first. *)
Definition uint32_bytes (v : Z) : list byte :=
  [ byte_of_Z (Z.land v 255);
    byte_of_Z (Z.land (Z.shiftr v 8) 255);
    byte_of_Z (Z.land (Z.shiftr v 16) 255);
    byte_of_Z (Z.land (Z.shiftr v 24) 255) ].

Definition uint32_of_bytes (bs : list byte) : Z :=
  foldr (λ b acc, Z.lor (Z_of_byte b) (Z.shiftl acc 8)) 0 bs.

Definition to_bytes (a : list Z) : list byte := concat (uint32_bytes <$> a).

Definition of_bytes (bs : list byte) : list Z := uint32_of_bytes <$> rows 4 bs.

(** [m = np.memmap(file, dtype=np.uint32, mode="w+", shape=(len(a),));
    m[:] = a; m.flush()]: the file is created or truncated, sized to four
    bytes per element and filled with the elements of [a]. Mapping zero
    bytes is refused ([ValueError], "cannot mmap an empty file"). The files
    left behind by a call that raises are not tracked. *)
Definition memmap_write (fs : gmap string (list byte)) (file : string)
    (a : list Z) : result (gmap string (list byte)) :=
  if Py.len a =? 0 then Raise ValueError
  else Ok (<[file := to_bytes a]> fs).

(** [np.memmap(file, mode="r", dtype=np.uint32)]: the shape is taken from
    the size of the file, which must be a positive multiple of the element
    size. *)
Definition memmap_read (fs : gmap string (list byte)) (file : string)
  : result (list Z) :=
  match fs !! file with
  | None => Raise FileNotFoundError
  | Some bs =>
      if Py.len bs `mod` 4 =? 0 then
        (if Py.len bs =? 0 then Raise ValueError else Ok (of_bytes bs))
      else Raise ValueError
  end.

End Np.

(** ** The execution environment and the dataset *)

(** What [composer.utils.dist] reports for the running process. *)
Record dist_env : Set := {
  get_global_rank : Z;
  get_local_rank : Z;
  get_world_size : Z
}.

(** [torch.utils.data.get_worker_info()], when not [None]. *)
Record worker_info : Set := {
  id : Z;
  num_workers : Z
}.

(** The wrapped dataset, a sequence used through [len] and indexing only. *)
Record dataset (Sample : Type) : Type := {
  ds_len : Z;
  ds_getitem : Z → Sample
}.
Arguments ds_len {Sample} d.
Arguments ds_getitem {Sample} d i.

(** The keyword arguments of [__init__], with their defaults. *)
Record init_args : Set := {
  arg_seed : Z;
  arg_epoch : Z;
  arg_start_index : Z;
  arg_shuffle : bool;
  arg_drop_last : bool;
  arg_world_size : option Z;
  arg_rank : option Z;
  arg_local_rank : option Z;
  arg_work_dir : option string
}.

Definition default_args : init_args := {|
  arg_seed := 0;
  arg_epoch := 0;
  arg_start_index := 0;
  arg_shuffle := true;
  arg_drop_last := false;
  arg_world_size := None;
  arg_rank := None;
  arg_local_rank := None;
  arg_work_dir := None
|}.

(** The attributes of a [DistributedSamplingDataset]. *)
Record DistributedSamplingDataset (Sample : Type) : Type := {
  self_dataset : dataset Sample;
  seed : Z;
  epoch : Z;
  start_index : Z;
  shuffle : bool;
  drop_last : bool;
  rank : Z;
  local_rank : Z;
  world_size : Z;
  total_size : Z;
  device_batch_size : Z;
  global_indices_file : option string;
  work_dir : option string
}.
Arguments self_dataset {Sample} d.
Arguments seed {Sample} d.
Arguments epoch {Sample} d.
Arguments start_index {Sample} d.
Arguments shuffle {Sample} d.
Arguments drop_last {Sample} d.
Arguments rank {Sample} d.
Arguments local_rank {Sample} d.
Arguments world_size {Sample} d.
Arguments total_size {Sample} d.
Arguments device_batch_size {Sample} d.
Arguments global_indices_file {Sample} d.
Arguments work_dir {Sample} d.

Definition set_global_indices_file {Sample} (self : DistributedSamplingDataset Sample)
    (f : option string) : DistributedSamplingDataset Sample :=
  {| self_dataset := self_dataset self; seed := seed self; epoch := epoch self;
     start_index := start_index self; shuffle := shuffle self;
     drop_last := drop_last self; rank := rank self; local_rank := local_rank self;
     world_size := world_size self; total_size := total_size self;
     device_batch_size := device_batch_size self;
     global_indices_file := f; work_dir := work_dir self |}.

Definition set_epoch {Sample} (self : DistributedSamplingDataset Sample)
    (e : Z) : DistributedSamplingDataset Sample :=
  {| self_dataset := self_dataset self; seed := seed self; epoch := e;
     start_index := start_index self; shuffle := shuffle self;
     drop_last := drop_last self; rank := rank self; local_rank := local_rank self;
     world_size := world_size self; total_size := total_size self;
     device_batch_size := device_batch_size self;
     global_indices_file := global_indices_file self; work_dir := work_dir self |}.

(** [Path(work_dir) / "global_indices.npy"], for a directory written without
    a trailing separator. *)
Definition indices_path (dir : string) : string :=
  (dir +:+ "/global_indices.npy")%string.

(** ** The class *)

Section DistributedSampling.

Context {Sample : Type}.

(** [np.random.Generator(np.random.PCG64(seed=s)).shuffle(a)], for a
    non-negative [s]: a function of the seed and the array only. *)
Variable rng_shuffle : Z → list Z → list Z.

Abbreviation Self := (DistributedSamplingDataset Sample).
Abbreviation Files := (gmap string (list byte)).

(** The [while padding_size > 0] loop of [_build_global_indices]. *)
Fixpoint pad_loop (fuel : nat) (indices : list Z) (padding_size : Z)
    (arrays_to_concatenate : list (list Z)) : result (list (list Z)) :=
  if 0 <? padding_size then
    match fuel with
    | O => Diverge
    | S fuel' =>
        array_to_concatenate ←
          Py.slice indices None (Some (Z.min padding_size (Py.len indices))) 1;
        pad_loop fuel' indices (padding_size - Py.len array_to_concatenate)
          (arrays_to_concatenate ++ [array_to_concatenate])
    end
  else Ok arrays_to_concatenate.

(** [_build_global_indices]. A negative seed is refused by [PCG64]. The
    loop is given one unit of fuel per missing element: an iteration that
    leaves [padding_size] unchanged repeats forever. *)
Definition build_global_indices (self : Self) : result (list Z) :=
  let n := ds_len (self_dataset self) in
  _ ← py_assert (n <? Np.uint32_max);
  let indices := Np.arange_uint32 n in
  indices ←
    (if shuffle self then
       (if seed self + epoch self <? 0 then Raise ValueError
        else Ok (rng_shuffle (seed self + epoch self) indices))
     else Ok indices);
  indices ←
    (if negb (drop_last self) then
       let padding_size := total_size self - Py.len indices in
       arrays ← pad_loop (Z.to_nat padding_size) indices padding_size [indices];
       Ok (Np.concatenate arrays)
     else Py.slice indices None (Some (total_size self)) 1);
  _ ← py_assert (Py.len indices =? total_size self);
  Ok indices.

(** [_build_and_save_global_indices], after its assertion that [work_dir]
    is set; [dir] is that directory. *)
Definition build_and_save_global_indices (self : Self) (dir : string) (fs : Files)
  : result (Self * Files) :=
  let self := set_global_indices_file self (Some (indices_path dir)) in
  if local_rank self =? 0 then
    global_indices ← build_global_indices self;
    fs ← Np.memmap_write fs (indices_path dir) global_indices;
    Ok (self, fs)
  else Ok (self, fs).

(** [__init__] *)
Definition init (env : dist_env) (ds : dataset Sample) (global_batch_size : Z)
    (args : init_args) (fs : Files) : result (Self * Files) :=
  let rank := default (get_global_rank env) (arg_rank args) in
  let local_rank := default (get_local_rank env) (arg_local_rank args) in
  let world_size := default (get_world_size env) (arg_world_size args) in
  uneven ←
    (if arg_drop_last args then
       r ← Py.modulo (ds_len ds) world_size; Ok (negb (r =? 0))
     else Ok false);
  num_samples ←
    (if uneven : bool then Py.ceil_truediv (ds_len ds - world_size) world_size
     else Py.ceil_truediv (ds_len ds) world_size);
  let total_size := num_samples * world_size in
  r ← Py.modulo global_batch_size world_size;
  _ ← py_assert (r =? 0);
  device_batch_size ← Py.floordiv global_batch_size world_size;
  let self :=
    {| self_dataset := ds; seed := arg_seed args; epoch := arg_epoch args;
       start_index := arg_start_index args; shuffle := arg_shuffle args;
       drop_last := arg_drop_last args; rank := rank; local_rank := local_rank;
       world_size := world_size; total_size := total_size;
       device_batch_size := device_batch_size;
       global_indices_file := None; work_dir := arg_work_dir args |} in
  match arg_work_dir args with
  | Some dir => build_and_save_global_indices self dir fs
  | None => Ok (self, fs)
  end.

(** [get_global_indices] *)
Definition get_global_indices (self : Self) (fs : Files) : result (list Z) :=
  match global_indices_file self with
  | Some file => Np.memmap_read fs file
  | None => build_global_indices self
  end.

(** [reshuffle] *)
Definition reshuffle (self : Self) (e : Z) (fs : Files) : result (Self * Files) :=
  let self := set_epoch self e in
  match work_dir self with
  | Some dir => build_and_save_global_indices self dir fs
  | None => Ok (self, fs)
  end.

(** The slicing of [__iter__] by data loader worker. *)
Definition worker_slice (self : Self) (indices : list Z) (w : worker_info)
  : result (list Z) :=
  q ← Py.floordiv (Py.len indices) (device_batch_size self);
  let truncated_size := device_batch_size self * q in
  left_overs ← Py.slice indices (Some (truncated_size + id w)) None (num_workers w);
  head ← Py.slice indices None (Some truncated_size) 1;
  batches ← Np.reshape_rows head (device_batch_size self);
  mine ← Py.slice batches (Some (id w)) None (num_workers w);
  Ok (Np.concatenate [Np.reshape_flat mine; left_overs]).

(** The slicing of [__iter__], applied to the array [indices] that
    [get_global_indices] returned. *)
Definition partition (self : Self) (indices : list Z) (w : option worker_info)
  : result (list Z) :=
  indices ←
    (if 0 <? start_index self then Py.slice indices (Some (start_index self)) None 1
     else Ok indices);
  indices ←
    Py.slice indices (Some (rank self)) (Some (total_size self)) (world_size self);
  match w with
  | Some w => worker_slice self indices w
  | None => Ok indices
  end.

(** The indices whose items [__iter__] yields, in order. *)
Definition iter_indices (self : Self) (fs : Files) (w : option worker_info)
  : result (list Z) :=
  indices ← get_global_indices self fs;
  partition self indices w.

(** [_get_dataset_item] *)
Definition get_dataset_item (self : Self) (idx : Z) : Sample :=
  ds_getitem (self_dataset self) idx.

(** [__iter__] *)
Definition iter (self : Self) (fs : Files) (w : option worker_info)
  : result (list Sample) :=
  indices ← iter_indices self fs w;
  Ok (fmap (M:=list) (get_dataset_item self) indices).

End DistributedSampling.

(** ** The consumers of the index sequences *)

Module Loader.

(** Round [k] takes item [k] of every source that still has one, in the
    order of the sources. *)
Fixpoint round_robin {A : Type} (rounds : nat) (qs : list (list A)) : list A :=
  match rounds with
  | O => []
  | S r => omap head qs ++ round_robin r (tail <$> qs)
  end.

Definition interleave {A : Type} (qs : list (list A)) : list A :=
  round_robin (max_list (length <$> qs)) qs.

(** What a [DataLoader] with [batch_size = d] does with the streams of its
    workers: every worker cuts its own stream into batches of [d] items
    (the last one short), and the batches are collected from the workers
    in round-robin order. *)
Definition regroup {A : Type} (d : nat) (streams : list (list A)) : list A :=
  concat (interleave (Np.rows d <$> streams)).

End Loader.

Definition set_rank {Sample} (self : DistributedSamplingDataset Sample)
    (r : Z) : DistributedSamplingDataset Sample :=
  {| self_dataset := self_dataset self; seed := seed self; epoch := epoch self;
     start_index := start_index self; shuffle := shuffle self;
     drop_last := drop_last self; rank := r; local_rank := local_rank self;
     world_size := world_size self; total_size := total_size self;
     device_batch_size := device_batch_size self;
     global_indices_file := global_indices_file self; work_dir := work_dir self |}.

Section Fleet.

Context {Sample : Type}.

(** [mapM] for outcomes. *)
Fixpoint for_each {A B : Type} (f : A → result B) (l : list A) : result (list B) :=
  match l with
  | [] => Ok []
  | x :: l => y ← f x; ys ← for_each f l; Ok (y :: ys)
  end.

(** The positions of an array of [n] elements that [__iter__] hands to a
    rank. *)
Definition rank_positions (self : DistributedSamplingDataset Sample) (n : Z)
  : list Z :=
  Py.slice_indices n (Some (rank self)) (Some (total_size self)) (world_size self).

(** The array after the resume offset of [__iter__]. *)
Definition resumed (self : DistributedSamplingDataset Sample) (g : list Z)
  : list Z :=
  if 0 <? start_index self then drop (Z.to_nat (start_index self)) g else g.

(** What the workers [0 .. nw-1] of one process yield from its rank-local
    array. *)
Definition worker_slices (self : DistributedSamplingDataset Sample)
    (indices : list Z) (nw : Z) : result (list (list Z)) :=
  for_each (λ j, worker_slice self indices {| id := j; num_workers := nw |})
    (seqZ 0 nw).

(** What the processes of ranks [0 .. world_size-1] yield without data
    loader workers. *)
Definition rank_slices (self : DistributedSamplingDataset Sample)
    (indices : list Z) : result (list (list Z)) :=
  for_each (λ r, partition (set_rank self r) indices None)
    (seqZ 0 (world_size self)).

(** The order in which the fleet consumes the array: every rank regroups
    the streams of its [nw] workers, and the ranks are interleaved. *)
Definition fleet_order (self : DistributedSamplingDataset Sample)
    (indices : list Z) (nw : Z) : result (list Z) :=
  per_rank ←
    for_each
      (λ r,
         streams ←
           for_each
             (λ j, partition (set_rank self r) indices
                     (Some {| id := j; num_workers := nw |}))
             (seqZ 0 nw);
         Ok (Loader.regroup (Z.to_nat (device_batch_size self)) streams))
      (seqZ 0 (world_size self));
  Ok (Loader.interleave per_rank).

End Fleet.

(** The positions of the dataset in the order of the epoch: shuffled by the
    generator seeded with [seed + epoch], or ascending. *)
Definition epoch_order {Sample} (rng_shuffle : Z → list Z → list Z)
    (self : DistributedSamplingDataset Sample) : list Z :=
  let indices := seqZ 0 (ds_len (self_dataset self)) in
  if shuffle self then rng_shuffle (seed self + epoch self) indices else indices.

(** The seed handed to the generator, when one is made, is accepted by it. *)
Definition seed_ok {Sample} (self : DistributedSamplingDataset Sample) : Prop :=
  shuffle self = false ∨ 0 ≤ seed self + epoch self.

(** [k] is the ceiling of the quotient of [a] by a positive [b]. *)
Definition is_ceil (k a b : Z) : Prop := b * (k - 1) < a ≤ b * k.

(** The attributes that [__init__] copies from its arguments and from the
    environment. *)
Definition attributes_from {Sample} (env : dist_env) (ds : dataset Sample)
    (global_batch_size : Z) (args : init_args)
    (self : DistributedSamplingDataset Sample) : Prop :=
  self_dataset self = ds ∧
  seed self = arg_seed args ∧
  epoch self = arg_epoch args ∧
  start_index self = arg_start_index args ∧
  shuffle self = arg_shuffle args ∧
  drop_last self = arg_drop_last args ∧
  rank self = default (get_global_rank env) (arg_rank args) ∧
  local_rank self = default (get_local_rank env) (arg_local_rank args) ∧
  world_size self = default (get_world_size env) (arg_world_size args) ∧
  device_batch_size self = global_batch_size `div` world_size self ∧
  work_dir self = arg_work_dir args ∧
  global_indices_file self = indices_path <$> arg_work_dir args.

(** Element [i] of a file of [uint32] elements. *)
Definition file_element (bs : list byte) (i : nat) : Z :=
  Np.uint32_of_bytes (take 4 (drop (4 * i) bs)).

(** ** Concrete instances *)

(** A stand-in for the generator: the array rotated by the seed. *)
Definition rotate_shuffle (s : Z) (a : list Z) : list Z := rotate (Z.to_nat s) a.

Definition unit_dataset (n : Z) : dataset unit :=
  {| ds_len := n; ds_getitem := λ _, tt |}.

Definition single_process : dist_env :=
  {| get_global_rank := 0; get_local_rank := 0; get_world_size := 1 |}.

Definition make_args (sd ep start : Z) (sh dl : bool) (ws rk lrk : Z)
    (dir : option string) : init_args :=
  {| arg_seed := sd; arg_epoch := ep; arg_start_index := start;
     arg_shuffle := sh; arg_drop_last := dl; arg_world_size := Some ws;
     arg_rank := Some rk; arg_local_rank := Some lrk; arg_work_dir := dir |}.

(** An object with the given attributes, on a dataset of [n] items. *)
Definition make_self (n start rk ws total d : Z) (dl : bool)
    : DistributedSamplingDataset unit :=
  {| self_dataset := unit_dataset n; seed := 0; epoch := 0; start_index := start;
     shuffle := false; drop_last := dl; rank := rk; local_rank := 0;
     world_size := ws; total_size := total; device_batch_size := d;
     global_indices_file := None; work_dir := None |}.

(** ** The checkpoint upload callback, [HuggingFaceSync]

    From [src/callbacks/hf_sync.py]. The Hugging Face API is outside the
    model: whether [repo_info] raises and what [list_repo_files] returns
    are arguments of [__init__], and whether a call of [upload_file]
    raises is decided by a parameter from the uploads made so far and the
    file. The folder of checkpoints is given by the relative paths of the
    regular files below it, with [/] as separator. A method returns the
    object and the log of uploads as it leaves them, also when it
    raises. *)

Module Hf.

Inductive error : Set :=
| ValueError
| ApiError.

Inductive status : Set :=
| Returned
| Raised (e : error).

(** [s.endswith(suffix)] *)
Definition endswith (s suffix : string) : bool :=
  bool_decide (String.list_ascii_of_string suffix `suffix_of` String.list_ascii_of_string s).

(** The separator [/]. *)
Definition slash : Ascii.ascii := Ascii.ascii_of_nat 47.

(** ["/" in s] *)
Definition has_slash (s : string) : bool :=
  bool_decide (slash ∈ String.list_ascii_of_string s).

Fixpoint name_from (cur s : string) : string :=
  match s with
  | EmptyString => cur
  | String c s =>
      if Ascii.eqb c slash then name_from EmptyString s
      else name_from (cur +:+ String c EmptyString) s
  end.

(** [path.name], the last component of a relative path. *)
Definition path_name (rel : string) : string := name_from EmptyString rel.

Record HuggingFaceSync : Type := {
  repo_id : string;
  model_save_folder : string;
  token : string;
  last_checkpoint : option Z;
  uploaded_files : gset string
}.

Definition set_uploaded_files (self : HuggingFaceSync) (u : gset string)
    : HuggingFaceSync :=
  {| repo_id := repo_id self; model_save_folder := model_save_folder self;
     token := token self; last_checkpoint := last_checkpoint self;
     uploaded_files := u |}.

Definition set_last_checkpoint (self : HuggingFaceSync) (c : option Z)
    : HuggingFaceSync :=
  {| repo_id := repo_id self; model_save_folder := model_save_folder self;
     token := token self; last_checkpoint := c;
     uploaded_files := uploaded_files self |}.

(** [token or os.environ.get("HF_TOKEN")] *)
Definition token_or_env (token env_token : option string) : option string :=
  match token with
  | Some t => if String.eqb t EmptyString then env_token else Some t
  | None => env_token
  end.

(** [__init__]; [list_repo_files] is [None] when the call raises. *)
Definition init (repo : string) (folder : string) (token : option string)
    (repo_can_exist : bool) (env_token : option string)
    (repo_info_raises : bool) (list_repo_files : option (list string))
    : HuggingFaceSync + error :=
  match token_or_env token env_token with
  | None => inr ValueError
  | Some t =>
      if String.eqb t EmptyString then inr ValueError
      else if repo_info_raises && negb repo_can_exist then inr ValueError
      else match list_repo_files with
           | None => inr ApiError
           | Some files =>
               inl {| repo_id := repo; model_save_folder := folder; token := t;
                      last_checkpoint := None;
                      uploaded_files := list_to_set files |}
           end
  end.

(** The test of [_get_new_checkpoint_files] on the relative path of a
    file. *)
Definition is_checkpoint (rel : string) : bool :=
  endswith (path_name rel) "-rank0.pt" && negb (has_slash rel).

(** [_get_new_checkpoint_files] *)
Definition get_new_checkpoint_files (self : HuggingFaceSync)
    (folder : list string) : gset string :=
  list_to_set (filter (λ rel, is_checkpoint rel) folder) ∖ uploaded_files self.

Section api.

Variable upload_raises : list string → string → bool.

(** The loop of [_sync_to_hub] over the sorted new files. *)
Fixpoint upload_each (files : list string) (uploaded : gset string)
    (log : list string) : gset string * list string * status :=
  match files with
  | [] => (uploaded, log, Returned)
  | file :: files =>
      if upload_raises log file then (uploaded, log, Raised ApiError)
      else upload_each files ({[ file ]} ∪ uploaded) (log ++ [file])
  end.

(** [_sync_to_hub] *)
Definition sync_to_hub (self : HuggingFaceSync) (global_rank : Z)
    (folder : list string) (log : list string)
    : HuggingFaceSync * list string * status :=
  if negb (global_rank =? 0) then (self, log, Returned)
  else
    let new_files := get_new_checkpoint_files self folder in
    if decide (new_files = ∅) then (self, log, Returned)
    else
      let '(uploaded, log, st) :=
        upload_each (merge_sort String.le (elements new_files))
          (uploaded_files self) log in
      (set_uploaded_files self uploaded, log, st).

(** The common body of the three checkpoint handlers; [current] is
    [state.timestamp.batch.value]. *)
Definition on_checkpoint (self : HuggingFaceSync) (global_rank : Z)
    (folder : list string) (log : list string) (current : Z)
    : HuggingFaceSync * list string * status :=
  if decide (Some current = last_checkpoint self) then (self, log, Returned)
  else
    let '(self, log, st) := sync_to_hub self global_rank folder log in
    match st with
    | Returned => (set_last_checkpoint self (Some current), log, Returned)
    | Raised e => (self, log, Raised e)
    end.

(** [batch_checkpoint] *)
Definition batch_checkpoint := on_checkpoint.

(** [iteration_checkpoint] *)
Definition iteration_checkpoint := on_checkpoint.

(** [epoch_checkpoint] *)
Definition epoch_checkpoint := on_checkpoint.

(** One checkpoint event of a training run: the handler called, the batch
    count and the files in the folder at that moment. *)
Inductive handler : Set := Batch | Iteration | Epoch.

Record occurrence : Type := {
  occ_handler : handler;
  occ_batch : Z;
  occ_folder : list string
}.

Definition handle (o : occurrence) (self : HuggingFaceSync) (global_rank : Z)
    (log : list string) : HuggingFaceSync * list string * status :=
  match occ_handler o with
  | Batch => batch_checkpoint self global_rank (occ_folder o) log (occ_batch o)
  | Iteration => iteration_checkpoint self global_rank (occ_folder o) log (occ_batch o)
  | Epoch => epoch_checkpoint self global_rank (occ_folder o) log (occ_batch o)
  end.

(** The events of a run in order; a handler that raises ends the run. *)
Fixpoint run (events : list occurrence) (self : HuggingFaceSync)
    (global_rank : Z) (log : list string)
    : HuggingFaceSync * list string * status :=
  match events with
  | [] => (self, log, Returned)
  | o :: events =>
      let '(self, log, st) := handle o self global_rank log in
      match st with
      | Returned => run events self global_rank log
      | Raised e => (self, log, Raised e)
      end
  end.

End api.

End Hf.

(** An object with a given state, for evaluation. *)
Definition hf_object (last : option Z) (uploaded : list string) : Hf.HuggingFaceSync :=
  {| Hf.repo_id := "org/model"; Hf.model_save_folder := "ckpt"; Hf.token := "secret";
     Hf.last_checkpoint := last; Hf.uploaded_files := list_to_set uploaded |}.

Definition checkpoint_folder : list string :=
  [ "ep0-ba10-rank0.pt"; "ep0-ba20-rank0.pt"; "old/ep0-ba5-rank0.pt";
    "latest-rank0.pt"; "notes.txt"; "ep0-ba20-rank1.pt" ]%string.

(** An API on which every upload succeeds, and one that refuses a file. *)
Definition uploads_succeed : list string → string → bool := λ _ _, false.

Definition upload_refused (file : string) : list string → string → bool :=
  λ _ f, String.eqb f file.

(** ** The sequence-id collator, [ConcatenatedSequenceCollatorWrapper]

    From [src/text_data.py]. A two-dimensional tensor is its dtype and the
    list of its rows. [input_ids] holds token ids in one of the integer
    dtypes; a cast to such a dtype keeps the low bits of a value. *)

(** [l[start:stop:step]] for a step written in the code and not zero: the
    slice that [Py.slice] returns. *)
Definition slice_of {A : Type} (l : list A) (start stop : option Z) (step : Z)
    : list A :=
  omap (λ i, l !! Z.to_nat i) (Py.slice_indices (Py.len l) start stop step).

Module Collator.

Inductive error : Set :=
| ValueError
| KeyError.

Inductive dtype : Set :=
| uint8
| int8
| int16
| int32
| int64.

Definition bits (dt : dtype) : Z :=
  match dt with
  | uint8 | int8 => 8
  | int16 => 16
  | int32 => 32
  | int64 => 64
  end.

Definition signed (dt : dtype) : bool :=
  match dt with
  | uint8 => false
  | _ => true
  end.

(** [torch.iinfo(dt).max] *)
Definition iinfo_max (dt : dtype) : Z :=
  if signed dt then 2 ^ (bits dt - 1) - 1 else 2 ^ bits dt - 1.

(** The cast of one integer to [dt]: the value modulo [2 ^ bits], taken in
    the range of [dt]. *)
Definition to_dtype (dt : dtype) (x : Z) : Z :=
  let m := x `mod` 2 ^ bits dt in
  if signed dt && (2 ^ (bits dt - 1) <=? m) then m - 2 ^ bits dt else m.

Record tensor : Set := {
  tensor_dtype : dtype;
  tensor_rows : list (list Z)
}.

Record ConcatenatedSequenceCollatorWrapper : Set := {
  split_token_id : Z;
  bos_mode : bool
}.

(** [__init__], without the base collator it stores. *)
Definition init (eos_token_id bos_token_id : option Z)
    : ConcatenatedSequenceCollatorWrapper + error :=
  match eos_token_id, bos_token_id with
  | None, None => inr ValueError
  | Some _, Some _ => inr ValueError
  | None, Some bos => inl {| split_token_id := bos; bos_mode := true |}
  | Some eos, _ => inl {| split_token_id := eos; bos_mode := false |}
  end.

(** [torch.eq(t, v)], a tensor of booleans. *)
Definition eq_scalar (t : tensor) (v : Z) : list (list bool) :=
  fmap (M:=list) (fmap (M:=list) (λ x, bool_decide (x = v))) (tensor_rows t).

Fixpoint cumsum_from (acc : Z) (row : list bool) : list Z :=
  match row with
  | [] => []
  | b :: row =>
      let acc := acc + (if b then 1 else 0) in
      acc :: cumsum_from acc row
  end.

(** [torch.cumsum(t, dim=1)] of a tensor of booleans: the sums are
    [int64]. *)
Definition cumsum_rows (t : list (list bool)) : tensor :=
  {| tensor_dtype := int64;
     tensor_rows :=
       fmap (M:=list) (λ row, to_dtype int64 <$> cumsum_from 0 row) t |}.

(** [t.to(dt)] *)
Definition to (t : tensor) (dt : dtype) : tensor :=
  {| tensor_dtype := dt;
     tensor_rows := fmap (M:=list) (fmap (M:=list) (to_dtype dt)) (tensor_rows t) |}.

(** [torch.cat([t.new_zeros((t.shape[0], 1)), t[:, :-1]], dim=1)] *)
Definition shift_right (t : tensor) : tensor :=
  {| tensor_dtype := tensor_dtype t;
     tensor_rows :=
       fmap (M:=list) (λ row, [0] ++ slice_of row None (Some (-1)) 1)
         (tensor_rows t) |}.

(** [get_sequence_id_from_batch] *)
Definition get_sequence_id_from_batch (self : ConcatenatedSequenceCollatorWrapper)
    (batch : gmap string tensor) : tensor + error :=
  match batch !! "input_ids"%string with
  | None => inr KeyError
  | Some input_ids =>
      let is_separator := eq_scalar input_ids (split_token_id self) in
      let cumulative_sep :=
        to (cumsum_rows is_separator) (tensor_dtype input_ids) in
      if bos_mode self then inl cumulative_sep
      else inl (shift_right cumulative_sep)
  end.

(** [__call__]; [base_collator] is the collator given to [__init__]. *)
Definition call {Example : Type}
    (base_collator : list Example → gmap string tensor)
    (self : ConcatenatedSequenceCollatorWrapper) (examples : list Example)
    : gmap string tensor + error :=
  let batch := base_collator examples in
  match get_sequence_id_from_batch self batch with
  | inl ids => inl (<["sequence_id"%string := ids]> batch)
  | inr e => inr e
  end.

End Collator.

(** The number of occurrences of [v] in [l]. *)
Definition occurrences (v : Z) (l : list Z) : Z :=
  Z.of_nat (length (filter (λ x, x = v) l)).

(** A collator in EOS mode with separator [2], and a batch of two rows. *)
Definition eos_collator : Collator.ConcatenatedSequenceCollatorWrapper :=
  {| Collator.split_token_id := 2; Collator.bos_mode := false |}.

Definition two_rows : Collator.tensor :=
  {| Collator.tensor_dtype := Collator.int64;
     Collator.tensor_rows := [[5; 2; 7; 2]; [2; 2; 9; 4]] |}.

Definition two_row_batch : gmap string Collator.tensor :=
  {[ "input_ids"%string := two_rows ]}.

(** A row of 130 separators held as [int8]. *)
Definition separators_int8 : Collator.tensor :=
  {| Collator.tensor_dtype := Collator.int8;
     Collator.tensor_rows := [replicate 130 2] |}.

(** ** Reading a tokenized sample, [StreamingTextDataset]

    From [src/text_data.py]. The sample read from a shard is a dictionary;
    [_read_binary_tokenized_sample] reads the three entries below. The
    columns [input_ids] and [attention_mask] hold bytes, which the function
    decodes as 64-bit integers. *)

Module Streaming.

Record sample : Set := {
  input_ids : list byte;
  len : option Z;
  attention_mask : option (list byte)
}.

(** The data of the [BatchEncoding] returned. *)
Record encoding : Set := {
  enc_input_ids : list Z;
  enc_attention_mask : list Z;
  enc_token_type_ids : list Z
}.

(** One [int64] element from its eight bytes, least significant first. *)
Definition int64_of_bytes (bs : list byte) : Z :=
  let u := foldr (λ b acc, Z.lor (Np.Z_of_byte b) (Z.shiftl acc 8)) 0 bs in
  if u <? 2 ^ 63 then u else u - 2 ^ 64.

(** [np.frombuffer(buffer, dtype=np.int64).copy()] *)
Definition frombuffer_int64 (buffer : list byte) : result (list Z) :=
  if Py.len buffer `mod` 8 =? 0 then Ok (int64_of_bytes <$> Np.rows 8 buffer)
  else Raise ValueError.

(** [np.ones_like(a)] *)
Definition ones_like (a : list Z) : list Z := replicate (length a) 1.

(** [np.pad(a, (0, after), constant_values=c)] for [0 < after]. *)
Definition pad (a : list Z) (after : Z) (c : Z) : list Z :=
  a ++ replicate (Z.to_nat after) c.

(** [np.zeros(n, dtype=np.int64)] *)
Definition zeros (n : Z) : result (list Z) :=
  if n <? 0 then Raise ValueError else Ok (replicate (Z.to_nat n) 0).

(** [_read_binary_tokenized_sample]; [pad_token_id] is the one of the
    tokenizer, an integer that fits the element type. *)
Definition read_binary_tokenized_sample (max_seq_len pad_token_id : Z)
    (s : sample) : result encoding :=
  let seq_len :=
    match len s with
    | Some n => n
    | None => Py.len (input_ids s)
    end in
  ids ← frombuffer_int64 (input_ids s);
  mask ← match attention_mask s with
         | Some buffer => frombuffer_int64 buffer
         | None => Ok (ones_like ids)
         end;
  let pad_len := max_seq_len - seq_len in
  let '(ids, mask) :=
    if 0 <? pad_len then (pad ids pad_len pad_token_id, pad mask pad_len 0)
    else if pad_len <? 0 then
      (slice_of ids None (Some max_seq_len) 1,
       slice_of mask None (Some max_seq_len) 1)
    else (ids, mask) in
  token_type_ids ← zeros max_seq_len;
  Ok {| enc_input_ids := ids;
        enc_attention_mask := mask;
        enc_token_type_ids := token_type_ids |}.

End Streaming.

(** A sample of two tokens, [5] and [7], with and without its [len]
    entry. *)
Definition two_token_bytes : list byte :=
  Np.uint32_bytes 5 ++ Np.uint32_bytes 0 ++ Np.uint32_bytes 7 ++ Np.uint32_bytes 0.

Definition two_token_sample (len : option Z) : Streaming.sample :=
  {| Streaming.input_ids := two_token_bytes;
     Streaming.len := len;
     Streaming.attention_mask := None |}.

(** ** Reading a sample, [NoStreamingDataset]

    From [src/text_data.py]. [__getitem__] looks the sample up in its shard
    and then processes it; the processing is modelled, on the dictionary
    read from the shard. The values of a sample are arrays of one dimension,
    strings, or values of another type; the order in which [list(sample.keys())]
    gives the keys is the one of [map_to_list]. *)

Module NoStreaming.

Inductive value : Set :=
| NdArray (a : list Z)
| Str (s : string)
| Other.

Inductive error : Set :=
| AssertionError
| RuntimeError
| KeyError.

(** What [__getitem__] returns: the processed sample, the output of the
    tokenizer, or [None]. *)
Inductive returned (T : Type) : Type :=
| Sample (sample : gmap string value)
| Tokens (t : T)
| NoneValue.

Arguments Sample {T} sample.
Arguments Tokens {T} t.
Arguments NoneValue {T}.

Record tokenizer (T : Type) : Type := {
  has_pad_token : bool;
  encode : value → Z → T
}.

Arguments has_pad_token {T} _.
Arguments encode {T} _ _ _.

Section getitem.

Context {T : Type}.
Variable max_seq_len : Z.
Variable self_tokenizer : option (tokenizer T).

(** [_tokenize] *)
Definition tokenize (text_sample : gmap string value) : returned T + error :=
  match self_tokenizer with
  | None => inr AssertionError
  | Some t =>
      if negb (has_pad_token t) then inr RuntimeError
      else
        match text_sample !! "text"%string with
        | None => inr KeyError
        | Some text => inl (Tokens (encode t text max_seq_len))
        end
  end.

(** The body of the loop over the keys. *)
Definition truncate_key (sample : gmap string value) (k : string)
    : gmap string value + error :=
  match sample !! k with
  | None => inr KeyError
  | Some (NdArray a) =>
      inl (<[k := NdArray (slice_of a None (Some max_seq_len) 1)]> sample)
  | Some _ => inl (delete k sample)
  end.

Fixpoint truncate_keys (keys : list string) (sample : gmap string value)
    : gmap string value + error :=
  match keys with
  | [] => inl sample
  | k :: keys =>
      match truncate_key sample k with
      | inl sample => truncate_keys keys sample
      | inr e => inr e
      end
  end.

(** [np.ones_like(v)]; the value for [v] not an array is not used. *)
Definition ones_like (v : value) : value :=
  match v with
  | NdArray a => NdArray (replicate (length a) 1)
  | _ => Other
  end.

(** [__getitem__], from the sample read from the shard on. *)
Definition getitem (sample : gmap string value) : returned T + error :=
  match sample !! "input_ids"%string with
  | Some _ =>
      match truncate_keys (map_to_list sample).*1 sample with
      | inr e => inr e
      | inl sample =>
          match sample !! "attention_mask"%string with
          | Some _ => inl (Sample sample)
          | None =>
              match sample !! "input_ids"%string with
              | None => inr KeyError
              | Some v =>
                  inl (Sample (<["attention_mask"%string := ones_like v]> sample))
              end
          end
      end
  | None =>
      match sample !! "text"%string with
      | Some _ => tokenize sample
      | None => inl NoneValue
      end
  end.

End getitem.

(** What the loop leaves of a value: an array is cut to [max_seq_len], any
    other value is dropped. *)
Definition kept (max_seq_len : Z) (v : value) : option value :=
  match v with
  | NdArray a => Some (NdArray (slice_of a None (Some max_seq_len) 1))
  | _ => None
  end.

End NoStreaming.

(** A sample with three tokens and an identifier. *)
Definition three_token_sample : gmap string NoStreaming.value :=
  <["input_ids"%string := NoStreaming.NdArray [11; 12; 13]]>
    (<["id"%string := NoStreaming.Str "a"]> ∅).

(** ** Building the dataset without streaming

    [build_no_streaming_dataset] of [src/text_data.py]. The entries of the
    configuration that reach [DistributedSamplingDataset] are kept; an
    optional entry is [None] when the configuration does not have it. The
    [NoStreamingDataset], built from files, is given. *)

Record no_streaming_cfg : Set := {
  cfg_shuffle_seed : option Z;
  cfg_shuffle : option bool;
  cfg_drop_last : bool;
  cfg_work_dir : option string
}.

Section builders.

Context {Sample : Type}.
Variable rng_shuffle : Z → list Z → list Z.

Definition build_no_streaming_dataset (env : dist_env)
    (no_streaming : dataset Sample) (cfg : no_streaming_cfg)
    (device_batch_size : Z) (training : bool) (fs : gmap string (list byte))
    : result ((DistributedSamplingDataset Sample + dataset Sample)
              * gmap string (list byte)) :=
  if training then
    r ← init rng_shuffle env no_streaming
          (device_batch_size * get_world_size env)
          {| arg_seed := default 9176 (cfg_shuffle_seed cfg);
             arg_epoch := 0;
             arg_start_index := 0;
             arg_shuffle := default false (cfg_shuffle cfg);
             arg_drop_last := cfg_drop_last cfg;
             arg_world_size := None;
             arg_rank := None;
             arg_local_rank := None;
             arg_work_dir := cfg_work_dir cfg |} fs;
    Ok (inl r.1, r.2)
  else Ok (inr no_streaming, fs).

End builders.

Definition no_cfg : no_streaming_cfg :=
  {| cfg_shuffle_seed := None; cfg_shuffle := None; cfg_drop_last := false;
     cfg_work_dir := None |}.

(** ** The float quotient

    [math.ceil(a / b)] as Python computes it for integers [a] and [b]: the
    quotient is the double nearest to the exact quotient, ties going to the
    even significand, and the ceiling of that double is taken exactly. A
    finite double is given by an integer significand and an exponent. *)

Module Double.

Inductive error : Set :=
| ZeroDivisionError
| OverflowError.

(** The number [mantissa * 2 ^ exponent]. *)
Record double : Set := {
  mantissa : Z;
  exponent : Z
}.

(** The integer nearest to [n / d], the even one of two that are equally
    near; for [0 ≤ n] and [0 < d]. *)
Definition nearest_even (n d : Z) : Z :=
  let q := n `div` d in
  let r := n `mod` d in
  if 2 * r <? d then q
  else if d <? 2 * r then q + 1
  else if Z.even q then q else q + 1.

(** The integer part of the binary logarithm of [n / d], for [0 < n] and
    [0 < d]. *)
Definition log2_quot (n d : Z) : Z :=
  let k := Z.log2 n - Z.log2 d in
  if (if 0 <=? k then d * 2 ^ k <=? n else d <=? n * 2 ^ (- k)) then k
  else k - 1.

(** [a / b] on integers: a significand of 53 bits, exponents from [-1074],
    a quotient too small becoming zero and one too large
    [OverflowError]. *)
Definition truediv (a b : Z) : double + error :=
  if b =? 0 then inr ZeroDivisionError
  else if a =? 0 then inl {| mantissa := 0; exponent := 0 |}
  else
    let n := Z.abs a in
    let d := Z.abs b in
    let e := Z.max (log2_quot n d - 52) (-1074) in
    let m := if 0 <=? e then nearest_even n (d * 2 ^ e)
             else nearest_even (n * 2 ^ (- e)) d in
    if (0 <=? e) && (2 ^ 1024 <=? m * 2 ^ e) then inr OverflowError
    else inl {| mantissa := Z.sgn a * Z.sgn b * m; exponent := e |}.

(** [math.ceil(x)] *)
Definition ceil (x : double) : Z :=
  if 0 <=? exponent x then mantissa x * 2 ^ exponent x
  else - ((- mantissa x) `div` 2 ^ (- exponent x)).

(** [math.ceil(a / b)] *)
Definition ceil_truediv (a b : Z) : Z + error :=
  match truediv a b with
  | inl x => inl (ceil x)
  | inr e => inr e
  end.

End Double.

(** * Properties *)

(** ** Outcomes *)

Lemma for_each_Ok_ex {A B : Type} (f : A → result B) (l : list A) :
  (∀ x, x ∈ l → is_Ok (f x)) →
  ∃ ys, for_each f l = Ok ys ∧ length ys = length l ∧
        ∀ i x y, l !! i = Some x → ys !! i = Some y → f x = Ok y.
Proof.
  induction l as [|x l IH]; intros Hf.
  - exists []. by repeat split.
  - destruct (Hf x) as [y Hy]; [by left|].
    destruct IH as (ys & Hys & Hlen & Hall).
    { intros z Hz. apply Hf. by right. }
    exists (y :: ys). cbn [for_each]. rewrite Hy. cbn. rewrite Hys. cbn.
    split; [done|]. split; [by rewrite Hlen|].
    intros [|i] x' y' Hx' Hy'; cbn in *; simplify_eq; [done|]. by eapply Hall.
Qed.

Lemma for_each_ext {A B : Type} (f g : A → result B) (l : list A) :
  (∀ x, x ∈ l → f x = g x) → for_each f l = for_each g l.
Proof.
  induction l as [|x l IH]; intros Hfg; [done|].
  cbn [for_each]. rewrite (Hfg x) by left.
  rewrite IH; [done|]. intros y Hy. apply Hfg. by right.
Qed.

(** ** Slices *)

Section slices.

Context {A : Type}.
Implicit Types l : list A.

Lemma omap_lookup_total {B : Type} (f : B → option A) (xs : list B) (i : nat) :
  (∀ x, x ∈ xs → is_Some (f x)) → omap f xs !! i = xs !! i ≫= f.
Proof.
  revert i. induction xs as [|x xs IH]; intros i Hf; [done|].
  destruct (Hf x) as [y Hy]; [by left|].
  cbn [omap list_omap]. rewrite Hy.
  destruct i as [|i]; cbn; [done|].
  apply IH. intros z Hz. apply Hf. by right.
Qed.

Lemma len_nonneg l : 0 ≤ Py.len l.
Proof. unfold Py.len. lia. Qed.

(** The positions of a forward slice from a non-negative start. *)
Lemma slice_indices_forward (n a : Z) (stop : option Z) (w : Z) (i : nat) :
  0 ≤ n → 0 ≤ a → 0 < w →
  let hi := match stop with Some t => Py.adjust_index n w t | None => n end in
  Py.slice_indices n (Some a) stop w !! i =
    if decide (a + Z.of_nat i * w < hi) then Some (a + Z.of_nat i * w) else None.
Proof.
  intros Hn Ha Hw hi. unfold Py.slice_indices.
  assert (Hhi : hi ≤ n).
  { subst hi. destruct stop as [t|]; [|lia]. unfold Py.adjust_index.
    repeat case_match; lia. }
  replace (w <? 0) with false by lia.
  replace (match stop with Some s => Py.adjust_index n w s | None => n end)
    with hi by done.
  set (lo := Py.adjust_index n w a).
  assert (Hlo : lo = Z.min a n).
  { subst lo. unfold Py.adjust_index. repeat case_match; lia. }
  rewrite list_lookup_fmap.
  destruct (decide (a + Z.of_nat i * w < hi)) as [Hlt|Hge].
  - assert (lo = a) as -> by lia.
    replace (a <? hi) with true by lia.
    rewrite lookup_seqZ_lt; [cbn; f_equal; lia|].
    assert (Z.of_nat i * w ≤ hi - a - 1) by lia.
    assert (Z.of_nat i ≤ (hi - a - 1) `div` w); [|lia].
    apply Z.div_le_lower_bound; lia.
  - rewrite lookup_seqZ_ge; [done|].
    destruct (lo <? hi) eqn:E; [|lia].
    assert (lo = a) as -> by lia.
    assert ((hi - a - 1) `div` w < Z.of_nat i); [|lia].
    apply Z.div_lt_upper_bound; lia.
Qed.

Lemma slice_forward_lookup l (a : Z) (stop : option Z) (w : Z) :
  0 ≤ a → 0 < w →
  let hi := match stop with
            | Some t => Py.adjust_index (Py.len l) w t
            | None => Py.len l
            end in
  ∃ s, Py.slice l (Some a) stop w = Ok s ∧
       ∀ i : nat, s !! i =
         if decide (a + Z.of_nat i * w < hi) then l !! Z.to_nat (a + Z.of_nat i * w) else None.
Proof.
  intros Ha Hw hi. unfold Py.slice.
  replace (w =? 0) with false by lia.
  eexists; split; [done|]. intros i.
  assert (Hhi : hi ≤ Py.len l).
  { subst hi. destruct stop as [t|]; [|lia]. unfold Py.adjust_index.
    pose proof (len_nonneg l). repeat case_match; lia. }
  rewrite omap_lookup_total.
  - rewrite (slice_indices_forward _ _ stop) by (auto using len_nonneg).
    fold hi. by case_decide.
  - intros x [j Hj]%list_elem_of_lookup.
    rewrite (slice_indices_forward _ _ stop) in Hj by (auto using len_nonneg).
    fold hi in Hj. case_decide; [|done]. simplify_eq.
    apply lookup_lt_is_Some. unfold Py.len in Hhi. lia.
Qed.

(** An omitted start is position [0] for a forward slice. *)
Lemma slice_None_start l (stop : option Z) (w : Z) :
  0 < w → Py.slice l None stop w = Py.slice l (Some 0) stop w.
Proof.
  intros Hw. unfold Py.slice, Py.slice_indices.
  replace (w <? 0) with false by lia.
  replace (Py.adjust_index (Py.len l) w 0) with 0; [done|].
  unfold Py.adjust_index. pose proof (len_nonneg l). repeat case_match; lia.
Qed.

(** [l[:k]] *)
Lemma slice_take l (k : Z) :
  0 ≤ k → Py.slice l None (Some k) 1 = Ok (take (Z.to_nat k) l).
Proof.
  intros Hk. rewrite slice_None_start by lia.
  destruct (slice_forward_lookup l 0 (Some k) 1) as (s & -> & Hs); [lia..|].
  f_equal. apply list_eq. intros i. rewrite Hs.
  assert (Py.adjust_index (Py.len l) 1 k = Z.min k (Py.len l)) as ->.
  { unfold Py.adjust_index. pose proof (len_nonneg l). repeat case_match; lia. }
  replace (Z.to_nat (0 + Z.of_nat i * 1)) with i by lia.
  case_decide.
  - rewrite lookup_take_lt; [done|lia].
  - destruct (decide (i < Z.to_nat k)%nat).
    + rewrite lookup_take_lt by done. symmetry. apply lookup_ge_None.
      unfold Py.len in *. lia.
    + rewrite lookup_take_ge; [done|lia].
Qed.

(** [l[a:]] *)
Lemma slice_drop l (a : Z) :
  0 ≤ a → Py.slice l (Some a) None 1 = Ok (drop (Z.to_nat a) l).
Proof.
  intros Ha.
  destruct (slice_forward_lookup l a None 1) as (s & -> & Hs); [lia..|].
  f_equal. apply list_eq. intros i. rewrite Hs, lookup_drop.
  replace (Z.to_nat (a + Z.of_nat i * 1)) with (Z.to_nat a + i)%nat by lia.
  case_decide; [done|]. symmetry. apply lookup_ge_None.
  unfold Py.len in *. lia.
Qed.

(** [l[a::w]] *)
Lemma slice_stride l (a w : Z) :
  0 ≤ a → 0 < w →
  ∃ s, Py.slice l (Some a) None w = Ok s ∧
       ∀ i : nat, s !! i = l !! (Z.to_nat a + i * Z.to_nat w)%nat.
Proof.
  intros Ha Hw.
  destruct (slice_forward_lookup l a None w) as (s & -> & Hs); [lia..|].
  eexists; split; [done|]. intros i. rewrite Hs.
  replace (Z.to_nat (a + Z.of_nat i * w)) with (Z.to_nat a + i * Z.to_nat w)%nat by lia.
  case_decide; [done|]. symmetry. apply lookup_ge_None.
  unfold Py.len in *. lia.
Qed.

(** [l[r:t:w]] when [t] is not below the length. *)
Lemma slice_stride_stop l (a t w : Z) :
  0 ≤ a → 0 < w → Py.len l ≤ t →
  Py.slice l (Some a) (Some t) w = Py.slice l (Some a) None w.
Proof.
  intros Ha Hw Ht. unfold Py.slice, Py.slice_indices.
  replace (w <? 0) with false by lia.
  replace (Py.adjust_index (Py.len l) w t) with (Py.len l); [done|].
  unfold Py.adjust_index. pose proof (len_nonneg l). repeat case_match; lia.
Qed.

End slices.

(** ** Rows and round-robin collection *)

Section rows.

Context {A : Type}.
Implicit Types l : list A.

Lemma concat_rows_from (d : nat) l (n k : nat) :
  concat ((λ r, take d (drop (r * d) l)) <$> seq k n) = take (n * d) (drop (k * d) l).
Proof.
  revert k. induction n as [|n IH]; intros k; [done|].
  cbn [seq fmap list_fmap concat]. rewrite IH.
  replace (S k * d)%nat with (k * d + d)%nat by lia.
  rewrite <- drop_drop, take_take_drop. f_equal; lia.
Qed.

(** [a.reshape((-1, d)).reshape((-1,))] is [a]. *)
Lemma concat_rows (d : nat) l : (0 < d)%nat → concat (Np.rows d l) = l.
Proof.
  intros Hd. unfold Np.rows. rewrite concat_rows_from, drop_0.
  apply take_ge.
  pose proof (Nat.div_mod_eq (length l + d - 1) d) as E.
  pose proof (Nat.mod_upper_bound (length l + d - 1) d). nia.
Qed.

Lemma length_rows_exact (d : nat) l (q : nat) :
  (0 < d)%nat → length l = (q * d)%nat → length (Np.rows d l) = q.
Proof.
  intros Hd Hl. unfold Np.rows. rewrite length_fmap, length_seq, Hl.
  replace (q * d + d - 1)%nat with (d - 1 + q * d)%nat by lia.
  rewrite Nat.div_add by lia. rewrite Nat.div_small; lia.
Qed.

Lemma lookup_rows (d : nat) l (r : nat) :
  (r < length (Np.rows d l))%nat →
  Np.rows d l !! r = Some (take d (drop (r * d) l)).
Proof.
  unfold Np.rows. rewrite length_fmap, length_seq. intros Hr.
  rewrite list_lookup_fmap, lookup_seq_lt; done.
Qed.

(** Cutting the concatenation of rows of [d] items gives the rows back. *)
Lemma rows_concat (d : nat) (rs : list (list A)) :
  (0 < d)%nat → Forall (λ r, length r = d) rs → Np.rows d (concat rs) = rs.
Proof.
  intros Hd Hrs.
  assert (Hlen : length (concat rs) = (length rs * d)%nat).
  { induction Hrs as [|r rs Hr _ IH]; [done|].
    cbn. rewrite length_app, IH, Hr. lia. }
  apply list_eq. intros i.
  destruct (decide (i < length rs)%nat) as [Hi|Hi].
  - rewrite lookup_rows by (by rewrite (length_rows_exact d _ (length rs))).
    clear Hlen. revert i Hi. induction Hrs as [|r rs Hr _ IH]; intros i Hi.
    + cbn in Hi. lia.
    + change (concat (r :: rs)) with (r ++ concat rs).
      destruct i as [|i].
      * rewrite Nat.mul_0_l, drop_0, take_app_length'; done.
      * rewrite drop_app_ge by lia.
        replace (S i * d - length r)%nat with (i * d)%nat by lia.
        apply IH. cbn in Hi. lia.
  - rewrite !lookup_ge_None_2; [done|lia|].
    rewrite (length_rows_exact d _ (length rs)); [lia|done..].
Qed.

Lemma Forall_length_rows (d : nat) l (q : nat) :
  (0 < d)%nat → length l = (q * d)%nat →
  Forall (λ r, length r = d) (Np.rows d l).
Proof.
  intros Hd Hl. apply Forall_lookup. intros i r Hr.
  assert (Hi : (i < length (Np.rows d l))%nat) by (by eapply lookup_lt_Some).
  rewrite lookup_rows in Hr by done. simplify_eq.
  rewrite (length_rows_exact d l q) in Hi by done.
  rewrite length_take, length_drop. nia.
Qed.

(** The first items of the sources form a prefix of the sequence they
    were dealt from. *)
Lemma omap_head_dealt (qs : list (list A)) l :
  (∀ j q, qs !! j = Some q → head q = l !! j) →
  omap head qs = take (length qs) l.
Proof.
  revert l. induction qs as [|q qs IH]; intros l Hq; [done|].
  cbn [omap list_omap length].
  pose proof (Hq 0%nat q eq_refl) as H0. rewrite H0.
  destruct l as [|x l]; cbn.
  - rewrite (IH []); [by rewrite take_nil|].
    intros j q' Hj. by rewrite (Hq (S j) q' Hj).
  - f_equal. apply IH. intros j q' Hj. by rewrite (Hq (S j) q' Hj).
Qed.

(** Sources dealt from [l] with stride [w] are collected back in the
    order of [l]. *)
Lemma round_robin_dealt (w : nat) (n : nat) (qs : list (list A)) l :
  length qs = w →
  (∀ j q i, qs !! j = Some q → q !! i = l !! (j + i * w)%nat) →
  Loader.round_robin n qs = take (n * w) l.
Proof.
  intros Hw. revert qs l Hw. induction n as [|n IH]; intros qs l Hw Hq; [done|].
  cbn [Loader.round_robin].
  rewrite (omap_head_dealt qs l).
  - rewrite (IH _ (drop w l)).
    + rewrite Hw, take_take_drop. f_equal; lia.
    + by rewrite length_fmap.
    + intros j q i Hj. rewrite list_lookup_fmap in Hj.
      destruct (qs !! j) as [q'|] eqn:Hq'; [|done]. cbn in Hj. simplify_eq.
      rewrite lookup_tail, (Hq j q' (S i) Hq'), lookup_drop. f_equal. lia.
  - intros j q Hj. rewrite head_lookup, (Hq j q 0%nat Hj). f_equal. lia.
Qed.

Lemma interleave_dealt (w : nat) (qs : list (list A)) l :
  (0 < w)%nat → length qs = w →
  (∀ j q i, qs !! j = Some q → q !! i = l !! (j + i * w)%nat) →
  Loader.interleave qs = l.
Proof.
  intros Hw Hlen Hq. unfold Loader.interleave.
  rewrite (round_robin_dealt w _ qs l) by done.
  apply take_ge.
  destruct (decide (length l = 0%nat)) as [|Hne]; [lia|].
  set (p := (length l - 1)%nat).
  destruct (lookup_lt_is_Some_2 l p) as [x Hx]; [lia|].
  pose proof (Nat.div_mod_eq p w) as Hp.
  pose proof (Nat.mod_upper_bound p w ltac:(lia)) as Hm.
  destruct (lookup_lt_is_Some_2 qs (p `mod` w)%nat) as [q Hqj]; [lia|].
  pose proof (Hq _ q (p `div` w)%nat Hqj) as Hqi.
  replace (p `mod` w + p `div` w * w)%nat with p in Hqi by lia.
  rewrite Hx in Hqi. apply lookup_lt_Some in Hqi.
  assert (length q ≤ max_list (length <$> qs))%nat.
  { apply max_list_elem_of_le, list_elem_of_fmap. exists q. split; [done|].
    by eapply list_elem_of_lookup_2. }
  nia.
Qed.

End rows.

(** ** The slicing by data loader worker *)

Section worker.

Context {Sample : Type}.
Implicit Types self : DistributedSamplingDataset Sample.

Lemma take_drop_take {A : Type} (l : list A) (d k t : nat) :
  (k + d ≤ t)%nat → take d (drop k (take t l)) = take d (drop k l).
Proof.
  intros H. rewrite !take_drop_commute, take_take.
  by replace ((k + d) `min` t)%nat with (k + d)%nat by lia.
Qed.

(** The output of one worker: its batches in order, then its share of the
    left-over tail. *)
Lemma worker_slice_spec self (l : list Z) (j nw : Z) :
  let d := device_batch_size self in
  let q := Py.len l `div` d in
  0 < d → 0 < nw → 0 ≤ j →
  ∃ mine left,
    worker_slice self l {| id := j; num_workers := nw |} = Ok (concat mine ++ left) ∧
    (∀ i : nat, mine !! i =
       if decide (j + Z.of_nat i * nw < q)
       then Some (take (Z.to_nat d)
                    (drop (Z.to_nat (j + Z.of_nat i * nw) * Z.to_nat d) l))
       else None) ∧
    (∀ i : nat, left !! i = l !! Z.to_nat (d * q + j + Z.of_nat i * nw)).
Proof.
  intros d q Hd Hnw Hj. unfold worker_slice. cbn [id num_workers].
  fold d. unfold Py.floordiv. replace (d =? 0) with false by lia.
  cbn [mbind result_bind]. fold q.
  pose proof (len_nonneg l) as Hl.
  assert (Hq : 0 ≤ q) by (apply Z.div_pos; lia).
  assert (HT : d * q ≤ Py.len l) by (apply Z.mul_div_le; lia).
  destruct (slice_stride l (d * q + j) nw) as (left & -> & Hleft); [lia..|].
  rewrite slice_take by lia. cbn [mbind result_bind].
  set (head := take (Z.to_nat (d * q)) l).
  assert (Hhead : length head = (Z.to_nat q * Z.to_nat d)%nat).
  { subst head. rewrite length_take. unfold Py.len in *. lia. }
  unfold Np.reshape_rows. replace (d <=? 0) with false by lia.
  replace (Py.len head `mod` d =? 0) with true; cycle 1.
  { symmetry. apply Z.eqb_eq. unfold Py.len. rewrite Hhead.
    replace (Z.of_nat (Z.to_nat q * Z.to_nat d)) with (q * d) by lia.
    apply Z_mod_mult. }
  cbn [mbind result_bind].
  destruct (slice_stride (Np.rows (Z.to_nat d) head) j nw)
    as (mine & -> & Hmine); [lia..|].
  cbn [mbind result_bind].
  exists mine, left. split; [|split].
  - unfold Np.concatenate, Np.reshape_flat. cbn. by rewrite app_nil_r.
  - intros i. rewrite Hmine.
    assert (Hrows : length (Np.rows (Z.to_nat d) head) = Z.to_nat q).
    { apply length_rows_exact; [lia|done]. }
    case_decide.
    + rewrite lookup_rows by lia. f_equal.
      replace (Z.to_nat j + i * Z.to_nat nw)%nat
        with (Z.to_nat (j + Z.of_nat i * nw)) by lia.
      subst head. apply take_drop_take. nia.
    + apply lookup_ge_None. lia.
  - intros i. rewrite Hleft. f_equal. lia.
Qed.

Lemma worker_slice_even self (l : list Z) (j nw : Z) :
  let d := device_batch_size self in
  0 < d → 0 < nw → 0 ≤ j → Py.len l `mod` d = 0 →
  ∃ mine,
    worker_slice self l {| id := j; num_workers := nw |} = Ok (concat mine) ∧
    Forall (λ r, length r = Z.to_nat d) mine ∧
    ∀ i : nat, mine !! i = Np.rows (Z.to_nat d) l !! (Z.to_nat j + i * Z.to_nat nw)%nat.
Proof.
  intros d Hd Hnw Hj Hmod.
  destruct (worker_slice_spec self l j nw) as (mine & left & -> & Hmine & Hleft);
    [done..|].
  fold d in Hmine, Hleft.
  pose proof (len_nonneg l) as Hl.
  assert (Hq : 0 ≤ Py.len l `div` d) by (apply Z.div_pos; lia).
  assert (HT : d * (Py.len l `div` d) = Py.len l).
  { pose proof (Z_div_mod_eq_full (Py.len l) d). lia. }
  assert (Hlen : length l = (Z.to_nat (Py.len l `div` d) * Z.to_nat d)%nat).
  { unfold Py.len in *. nia. }
  assert (left = []) as ->.
  { apply list_eq. intros i. rewrite Hleft. cbn. apply lookup_ge_None.
    unfold Py.len in *. lia. }
  exists mine. rewrite app_nil_r. split; [done|].
  assert (Hrows : length (Np.rows (Z.to_nat d) l) = Z.to_nat (Py.len l `div` d)).
  { apply length_rows_exact; [lia|done]. }
  assert (Hlk : ∀ i : nat,
    mine !! i = Np.rows (Z.to_nat d) l !! (Z.to_nat j + i * Z.to_nat nw)%nat).
  { intros i. rewrite Hmine. case_decide.
    - rewrite lookup_rows by lia.
      by replace (Z.to_nat (j + Z.of_nat i * nw))
        with (Z.to_nat j + i * Z.to_nat nw)%nat by lia.
    - symmetry. apply lookup_ge_None. lia. }
  split; [|done].
  apply Forall_lookup. intros i r Hr. rewrite Hlk in Hr.
  pose proof (Forall_length_rows (Z.to_nat d) l _ ltac:(lia) Hlen) as Hall.
  by eapply Forall_lookup_1 in Hall.
Qed.

(** Without a left-over tail, collecting the workers' batches in
    round-robin order restores the rank-local order. *)
Lemma worker_slices_regroup self (l : list Z) (nw : Z) :
  let d := device_batch_size self in
  0 < d → 0 < nw → Py.len l `mod` d = 0 →
  ∃ outs, worker_slices self l nw = Ok outs ∧
          length outs = Z.to_nat nw ∧
          Loader.regroup (Z.to_nat d) outs = l.
Proof.
  intros d Hd Hnw Hmod. unfold worker_slices.
  destruct (for_each_Ok_ex
    (λ j, worker_slice self l {| id := j; num_workers := nw |}) (seqZ 0 nw))
    as (outs & Houts & Hlen & Hall).
  { intros j [Hj0 Hj1]%elem_of_seqZ.
    destruct (worker_slice_even self l j nw) as (mine & Hm & _); [done..|].
    by eexists. }
  rewrite length_seqZ in Hlen.
  exists outs. split; [done|]. split; [done|].
  unfold Loader.regroup.
  rewrite (interleave_dealt (Z.to_nat nw) _ (Np.rows (Z.to_nat d) l)).
  - apply concat_rows. lia.
  - lia.
  - by rewrite length_fmap.
  - intros j qj i Hqj. rewrite list_lookup_fmap in Hqj.
    destruct (outs !! j) as [out|] eqn:Hout; [|done]. cbn in Hqj. simplify_eq.
    assert (Hjlt : (j < Z.to_nat nw)%nat).
    { rewrite <- Hlen. by eapply lookup_lt_Some. }
    pose proof (Hall j (Z.of_nat j) out) as Hw.
    rewrite lookup_seqZ_lt in Hw by lia. specialize (Hw eq_refl Hout).
    destruct (worker_slice_even self l (Z.of_nat j) nw)
      as (mine & Hm & Hall' & Hlk); [done || lia..|].
    rewrite Hm in Hw. simplify_eq.
    rewrite rows_concat by (done || lia).
    rewrite Hlk. f_equal. lia.
Qed.

End worker.

(** ** The slicing by rank *)

Section ranks.

Context {Sample : Type}.
Implicit Types self : DistributedSamplingDataset Sample.

Lemma partition_positions self (g : list Z) :
  world_size self ≠ 0 →
  partition self g None =
    Ok (omap (λ p, resumed self g !! Z.to_nat p)
          (rank_positions self (Py.len (resumed self g)))).
Proof.
  intros Hws. unfold partition, resumed, rank_positions.
  destruct (0 <? start_index self) eqn:Hs.
  - rewrite slice_drop by lia. cbn [mbind result_bind].
    unfold Py.slice. replace (world_size self =? 0) with false by lia. done.
  - cbn [mbind result_bind].
    unfold Py.slice. replace (world_size self =? 0) with false by lia. done.
Qed.

Lemma partition_worker self (g : list Z) (w : worker_info) :
  partition self g (Some w) = partition self g None ≫= λ s, worker_slice self s w.
Proof.
  unfold partition.
  destruct (if 0 <? start_index self then _ else _) as [a| |];
    cbn [mbind result_bind]; [|done..].
  by destruct (Py.slice a _ _ _).
Qed.

Lemma elem_of_rank_positions self (n p : Z) :
  0 ≤ n → 0 < world_size self → 0 ≤ rank self < world_size self →
  n ≤ total_size self →
  p ∈ rank_positions self n ↔ (0 ≤ p < n ∧ p `mod` world_size self = rank self).
Proof.
  intros Hn Hws Hr Ht. unfold rank_positions.
  assert (Hhi : Py.adjust_index n (world_size self) (total_size self) = n).
  { unfold Py.adjust_index. repeat case_match; lia. }
  rewrite list_elem_of_lookup. split.
  - intros [i Hi].
    rewrite (slice_indices_forward n _ (Some (total_size self))) in Hi by lia.
    rewrite Hhi in Hi. case_decide; [|done]. simplify_eq.
    split; [lia|]. rewrite Z_mod_plus_full. apply Z.mod_small. lia.
  - intros [Hp Hm].
    exists (Z.to_nat (p `div` world_size self)).
    rewrite (slice_indices_forward n _ (Some (total_size self))) by lia.
    rewrite Hhi.
    pose proof (Z_div_mod_eq_full p (world_size self)) as E.
    assert (0 ≤ p `div` world_size self) by (apply Z.div_pos; lia).
    rewrite Z2Nat.id by done.
    case_decide; [f_equal; lia|lia].
Qed.

Lemma NoDup_rank_positions self (n : Z) :
  0 ≤ n → 0 < world_size self → 0 ≤ rank self → NoDup (rank_positions self n).
Proof.
  intros Hn Hws Hr. apply NoDup_alt. intros i j p Hi Hj.
  unfold rank_positions in *.
  rewrite (slice_indices_forward n _ (Some (total_size self))) in Hi, Hj by lia.
  repeat case_decide; simplify_eq. nia.
Qed.

(** The slice of a rank, element by element. *)
Lemma partition_rank_lookup self (g : list Z) :
  0 < world_size self → 0 ≤ rank self →
  Py.len (resumed self g) ≤ total_size self →
  ∃ s, partition self g None = Ok s ∧
       ∀ i : nat, s !! i =
         resumed self g !! (Z.to_nat (rank self) + i * Z.to_nat (world_size self))%nat.
Proof.
  intros Hws Hr Ht. unfold partition.
  assert ((if 0 <? start_index self
           then Py.slice g (Some (start_index self)) None 1
           else Ok g) = Ok (resumed self g)) as ->.
  { unfold resumed. case_match; [|done]. apply slice_drop. lia. }
  cbn [mbind result_bind].
  rewrite slice_stride_stop by lia.
  destruct (slice_stride (resumed self g) (rank self) (world_size self))
    as (s & -> & Hs); [lia..|].
  by exists s.
Qed.

Lemma length_dealt {A : Type} (s l : list A) (r w m : nat) :
  (r < w)%nat → length l = (m * w)%nat →
  (∀ i : nat, s !! i = l !! (r + i * w)%nat) →
  length s = m.
Proof.
  intros Hr Hl Hs.
  destruct (Nat.lt_trichotomy (length s) m) as [Hlt|[Heq|Hgt]]; [|done|].
  - pose proof (Hs (length s)) as H.
    rewrite (lookup_ge_None_2 s) in H by lia.
    symmetry in H. apply lookup_ge_None in H. nia.
  - destruct (lookup_lt_is_Some_2 s m Hgt) as [x Hx].
    rewrite Hs in Hx. apply lookup_lt_Some in Hx. nia.
Qed.

(** The slices of all ranks, and their interleaving. *)
Lemma rank_slices_spec self (g : list Z) :
  0 < world_size self →
  Py.len (resumed self g) ≤ total_size self →
  ∃ slices,
    rank_slices self g = Ok slices ∧
    length slices = Z.to_nat (world_size self) ∧
    (∀ (r : nat) s, slices !! r = Some s →
       partition (set_rank self (Z.of_nat r)) g None = Ok s ∧
       ∀ i : nat, s !! i = resumed self g !! (r + i * Z.to_nat (world_size self))%nat) ∧
    Loader.interleave slices = resumed self g.
Proof.
  intros Hws Ht. unfold rank_slices.
  destruct (for_each_Ok_ex (λ r, partition (set_rank self r) g None)
              (seqZ 0 (world_size self))) as (slices & -> & Hlen & Hall).
  { intros r [Hr0 Hr1]%elem_of_seqZ.
    destruct (partition_rank_lookup (set_rank self r) g) as (s & Hs & _);
      [done..|]. by eexists. }
  rewrite length_seqZ in Hlen.
  assert (Hspec : ∀ (r : nat) s, slices !! r = Some s →
    partition (set_rank self (Z.of_nat r)) g None = Ok s ∧
    ∀ i : nat, s !! i = resumed self g !! (r + i * Z.to_nat (world_size self))%nat).
  { intros r s Hrs.
    assert (Hr : (r < Z.to_nat (world_size self))%nat).
    { rewrite <- Hlen. by eapply lookup_lt_Some. }
    pose proof (Hall r (Z.of_nat r) s) as Hp.
    rewrite lookup_seqZ_lt in Hp by lia. specialize (Hp eq_refl Hrs).
    split; [done|].
    destruct (partition_rank_lookup (set_rank self (Z.of_nat r)) g)
      as (s' & Hs' & Hlk); [done || (cbn; lia)..|].
    rewrite Hp in Hs'. simplify_eq. intros i. rewrite Hlk. cbn.
    by rewrite Nat2Z.id. }
  exists slices. split; [done|]. split; [done|]. split; [done|].
  apply (interleave_dealt (Z.to_nat (world_size self))); [lia|done|].
  intros r s i Hrs. by apply Hspec.
Qed.

(** With batches that divide the rank-local arrays, the fleet consumes the
    resumed array in its order. *)
Lemma fleet_order_spec self (g : list Z) (nw m : Z) :
  0 < world_size self → 0 < device_batch_size self → 0 < nw →
  Py.len (resumed self g) ≤ total_size self →
  Py.len (resumed self g) = m * (device_batch_size self * world_size self) →
  fleet_order self g nw = Ok (resumed self g).
Proof.
  intros Hws Hd Hnw Ht Hm. unfold fleet_order.
  destruct (rank_slices_spec self g) as (slices & Hsl & Hlen & Hspec & Hint);
    [done..|].
  unfold rank_slices in Hsl.
  rewrite (for_each_ext _ (λ r, partition (set_rank self r) g None)).
  { rewrite Hsl. cbn [mbind result_bind]. by rewrite Hint. }
  intros r [Hr0 Hr1]%elem_of_seqZ.
  destruct (lookup_lt_is_Some_2 slices (Z.to_nat r)) as [s Hs]; [lia|].
  destruct (Hspec _ _ Hs) as [Hp Hlk]. rewrite Z2Nat.id in Hp by lia.
  rewrite Hp.
  rewrite (for_each_ext _
    (λ j, worker_slice (set_rank self r) s {| id := j; num_workers := nw |})).
  2:{ intros j _. by rewrite partition_worker, Hp. }
  assert (Hslen : length s = Z.to_nat (m * device_batch_size self)).
  { apply (length_dealt s (resumed self g) (Z.to_nat r) (Z.to_nat (world_size self)));
      [lia| |done].
    unfold Py.len in Hm. nia. }
  destruct (worker_slices_regroup (set_rank self r) s nw) as (outs & Ho & _ & Hre).
  { done. }
  { done. }
  { cbn. unfold Py.len. rewrite Hslen.
    assert (0 ≤ m).
    { pose proof (len_nonneg (resumed self g)). nia. }
    rewrite Z2Nat.id by nia. apply Z_mod_mult. }
  unfold worker_slices in Ho. rewrite Ho. cbn [mbind result_bind].
  cbn in Hre. by rewrite Hre.
Qed.

End ranks.

(** ** The size of the global index array *)

Lemma ceil_truediv_pos (a b : Z) :
  0 < b → Py.ceil_truediv a b = Ok (- ((- a) `div` b)).
Proof.
  intros Hb. unfold Py.ceil_truediv. replace (b =? 0) with false by lia.
  f_equal. destruct b as [|p|p]; [lia| |lia].
  unfold Qceiling, Qfloor, Qdiv, Qinv, Qmult, Qopp, inject_Z. cbn.
  by rewrite Z.mul_1_r, Pos.mul_1_l.
Qed.

Lemma ceil_div_bounds (a b : Z) :
  0 < b → b * (- ((- a) `div` b) - 1) < a ≤ b * - ((- a) `div` b).
Proof.
  intros Hb. pose proof (Z_div_mod_eq_full (- a) b).
  pose proof (Z.mod_pos_bound (- a) b Hb). lia.
Qed.

Lemma ceil_div_uneven (n w : Z) :
  0 < w → n `mod` w ≠ 0 → - ((- (n - w)) `div` w) = n `div` w.
Proof.
  intros Hw Hm.
  pose proof (ceil_div_bounds (n - w) w Hw).
  pose proof (Z_div_mod_eq_full n w). pose proof (Z.mod_pos_bound n w Hw).
  nia.
Qed.

Lemma ceil_div_even (n w : Z) :
  0 < w → n `mod` w = 0 → - ((- n) `div` w) = n `div` w.
Proof.
  intros Hw Hm.
  pose proof (ceil_div_bounds n w Hw).
  pose proof (Z_div_mod_eq_full n w). nia.
Qed.

(** ** The padding loop *)

Lemma pad_loop_done (fuel : nat) (indices : list Z) (p : Z) (acc : list (list Z)) :
  p ≤ 0 → pad_loop fuel indices p acc = Ok acc.
Proof. intros Hp. destruct fuel; cbn; by replace (0 <? p) with false by lia. Qed.

Lemma pad_loop_spec (indices : list Z) (fuel : nat) (p : Z) (acc : list (list Z)) :
  (0 < length indices)%nat → p ≤ Z.of_nat fuel →
  ∃ pads, pad_loop fuel indices p acc = Ok (acc ++ pads) ∧
          Py.len (concat pads) = Z.max 0 p ∧
          ∀ i : nat, Z.of_nat i < p →
            concat pads !! i = indices !! (i `mod` length indices)%nat.
Proof.
  intros HL. revert p acc. induction fuel as [|fuel IH]; intros p acc Hp.
  - exists []. rewrite pad_loop_done, app_nil_r by lia.
    split; [done|]. split; [change (Py.len (concat [])) with 0; lia|].
    intros i Hi. lia.
  - destruct (decide (p ≤ 0)) as [Hp0|Hp0].
    { exists []. rewrite pad_loop_done, app_nil_r by lia.
      split; [done|]. split; [change (Py.len (concat [])) with 0; lia|].
    intros i Hi. lia. }
    cbn [pad_loop]. replace (0 <? p) with true by lia.
    rewrite slice_take by (unfold Py.len; lia). cbn [mbind result_bind].
    set (a := take (Z.to_nat (p `min` Py.len indices)) indices).
    assert (Ha : Py.len a = p `min` Py.len indices).
    { subst a. unfold Py.len. rewrite length_take. lia. }
    destruct (IH (p - Py.len a) (acc ++ [a])) as (pads & -> & Hlen & Hlk).
    { unfold Py.len in *. lia. }
    exists (a :: pads). rewrite <- app_assoc. split; [done|].
    cbn [concat]. split.
    { unfold Py.len in *. rewrite length_app. lia. }
    intros i Hi.
    destruct (decide (i < length a)%nat) as [Hia|Hia].
    + rewrite lookup_app_l by done. subst a.
      rewrite lookup_take_lt by (unfold Py.len in *; lia).
      rewrite Nat.mod_small; [done|]. unfold Py.len in *. lia.
    + rewrite lookup_app_r by lia.
      assert (HaL : length a = length indices) by (unfold Py.len in *; lia).
      rewrite Hlk by (unfold Py.len in *; lia).
      f_equal. rewrite HaL.
      replace i with ((i - length indices) + 1 * length indices)%nat at 2 by lia.
      by rewrite Nat.Div0.mod_add.
Qed.

(** Without fuel the model would hide the one case in which the loop of the
    code does not end: an empty array with padding left to add. *)
Lemma pad_loop_diverges (fuel : nat) (p : Z) (acc : list (list Z)) :
  0 < p → pad_loop fuel [] p acc = Diverge.
Proof.
  revert acc. induction fuel as [|fuel IH]; intros acc Hp; cbn [pad_loop];
    replace (0 <? p) with true by lia; [done|].
  rewrite slice_take by (unfold Py.len; cbn; lia).
  cbn [mbind result_bind]. rewrite take_nil.
  replace (p - Py.len []) with p by (unfold Py.len; cbn; lia). by apply IH.
Qed.

(** ** The global index array *)

Lemma arange_uint32_small (n : Z) :
  n ≤ 2 ^ 32 → Np.arange_uint32 n = seqZ 0 n.
Proof.
  intros Hn. unfold Np.arange_uint32.
  rewrite <- (list_fmap_id (seqZ 0 n)) at 2.
  apply list_fmap_ext. intros i x Hx.
  apply lookup_seqZ in Hx as [-> Hi]. cbn. apply Z.mod_small. lia.
Qed.

Section generation.

Context {Sample : Type}.
Variable rng_shuffle : Z → list Z → list Z.
Hypothesis rng_shuffle_perm : ∀ s a, rng_shuffle s a ≡ₚ a.
Implicit Types self : DistributedSamplingDataset Sample.

Lemma epoch_order_perm self :
  epoch_order rng_shuffle self ≡ₚ seqZ 0 (ds_len (self_dataset self)).
Proof. unfold epoch_order. by case_match. Qed.

Lemma length_epoch_order self :
  length (epoch_order rng_shuffle self) = Z.to_nat (ds_len (self_dataset self)).
Proof. by rewrite epoch_order_perm, length_seqZ. Qed.

Lemma elem_of_epoch_order self (v : Z) :
  v ∈ epoch_order rng_shuffle self ↔ 0 ≤ v < ds_len (self_dataset self).
Proof. rewrite epoch_order_perm, elem_of_seqZ. lia. Qed.

Lemma NoDup_epoch_order self : NoDup (epoch_order rng_shuffle self).
Proof. rewrite epoch_order_perm. apply NoDup_seqZ. Qed.

(** The steps of [_build_global_indices] before the padding or the
    truncation. *)
Lemma build_global_indices_unfold self :
  ds_len (self_dataset self) < Np.uint32_max → seed_ok self →
  build_global_indices rng_shuffle self =
    (let indices := epoch_order rng_shuffle self in
     indices ←
       (if negb (drop_last self) then
          let padding_size := total_size self - Py.len indices in
          arrays ← pad_loop (Z.to_nat padding_size) indices padding_size [indices];
          Ok (Np.concatenate arrays)
        else Py.slice indices None (Some (total_size self)) 1);
     _ ← py_assert (Py.len indices =? total_size self);
     Ok indices).
Proof.
  intros Hn Hseed. unfold build_global_indices, epoch_order.
  replace (ds_len (self_dataset self) <? Np.uint32_max) with true by lia.
  cbn [py_assert mbind result_bind].
  rewrite arange_uint32_small by (unfold Np.uint32_max in Hn; lia).
  destruct (shuffle self) eqn:Hsh; [|done].
  destruct Hseed as [?|Hseed]; [congruence|].
  by replace (seed self + epoch self <? 0) with false by lia.
Qed.

(** With [drop_last] unset the array is the epoch order followed by as
    many further copies of it as the padding needs, the last one cut. *)
Lemma build_padded self :
  let n := ds_len (self_dataset self) in
  drop_last self = false → n < Np.uint32_max → seed_ok self →
  0 ≤ n ≤ total_size self → (n = 0 → total_size self = 0) →
  ∃ a, build_global_indices rng_shuffle self = Ok a ∧
       Py.len a = total_size self ∧
       take (Z.to_nat n) a = epoch_order rng_shuffle self ∧
       ∀ i : nat, Z.of_nat i < total_size self →
         a !! i = epoch_order rng_shuffle self !! (i `mod` Z.to_nat n)%nat.
Proof.
  intros n Hdl Hn Hseed Ht H0.
  rewrite build_global_indices_unfold by done. rewrite Hdl. cbn [negb].
  pose proof (length_epoch_order self) as HL. fold n in HL.
  set (indices := epoch_order rng_shuffle self) in *.
  cbv zeta.
  destruct (decide (n = 0)) as [Hn0|Hn0].
  - rewrite pad_loop_done by (unfold Py.len; lia).
    cbn [mbind result_bind Np.concatenate concat]. rewrite app_nil_r.
    replace (Py.len indices =? total_size self) with true
      by (unfold Py.len; lia).
    cbn [py_assert mbind result_bind].
    exists indices. split; [done|]. split; [unfold Py.len; lia|].
    split; [apply take_ge; lia|]. intros i Hi. lia.
  - destruct (pad_loop_spec indices (Z.to_nat (total_size self - Py.len indices))
                (total_size self - Py.len indices) [indices])
      as (pads & -> & Hlen & Hlk); [lia|lia|].
    cbn [mbind result_bind Np.concatenate concat app].
    assert (Hall : Py.len (indices ++ concat pads) = total_size self).
    { unfold Py.len in *. rewrite length_app. lia. }
    rewrite Hall, Z.eqb_refl. cbn [py_assert mbind result_bind].
    exists (indices ++ concat pads). split; [done|]. split; [done|].
    split; [rewrite take_app_length'; [done|lia]|].
    intros i Hi.
    destruct (decide (i < length indices)%nat) as [Hlt|Hge].
    + rewrite lookup_app_l by done. rewrite Nat.mod_small; [done|lia].
    + rewrite lookup_app_r by lia.
      rewrite Hlk by (unfold Py.len in *; lia).
      f_equal. rewrite <- HL.
      replace i with ((i - length indices) + 1 * length indices)%nat at 2 by lia.
      by rewrite Nat.Div0.mod_add.
Qed.

(** With [drop_last] set the array is a prefix of the epoch order. *)
Lemma build_dropped self :
  let n := ds_len (self_dataset self) in
  drop_last self = true → n < Np.uint32_max → seed_ok self →
  0 ≤ total_size self ≤ n →
  build_global_indices rng_shuffle self =
    Ok (take (Z.to_nat (total_size self)) (epoch_order rng_shuffle self)).
Proof.
  intros n Hdl Hn Hseed Ht.
  rewrite build_global_indices_unfold by done. rewrite Hdl. cbn [negb].
  pose proof (length_epoch_order self) as HL. fold n in HL.
  cbv zeta. rewrite slice_take by lia. cbn [mbind result_bind].
  replace (Py.len _ =? total_size self) with true; [done|].
  symmetry. apply Z.eqb_eq. unfold Py.len. rewrite length_take, HL. lia.
Qed.

(** Whatever [_build_global_indices] returns has passed its final
    assertion. *)
Lemma build_global_indices_len self (a : list Z) :
  build_global_indices rng_shuffle self = Ok a → Py.len a = total_size self.
Proof.
  unfold build_global_indices. intros H.
  destruct (py_assert _); cbn [mbind result_bind] in H; [|done..].
  destruct (if shuffle self then _ else _); cbn [mbind result_bind] in H; [|done..].
  destruct (if negb (drop_last self) then _ else _) as [b| |];
    cbn [mbind result_bind] in H; [|done..].
  destruct (Py.len b =? total_size self) eqn:E;
    cbn [py_assert mbind result_bind] in H; [|done].
  simplify_eq. lia.
Qed.

End generation.

(** ** Construction *)

Section setup.

Context {Sample : Type}.
Variable rng_shuffle : Z → list Z → list Z.
Implicit Types self : DistributedSamplingDataset Sample.
Implicit Types fs : gmap string (list byte).

Lemma build_and_save_Ok_inv self0 dir fs self fs' :
  build_and_save_global_indices rng_shuffle self0 dir fs = Ok (self, fs') →
  self = set_global_indices_file self0 (Some (indices_path dir)).
Proof.
  unfold build_and_save_global_indices. intros H.
  destruct (local_rank _ =? 0); [|by simplify_eq].
  destruct (build_global_indices _ _); cbn [mbind result_bind] in H; [|done..].
  destruct (Np.memmap_write _ _ _); cbn [mbind result_bind] in H; [|done..].
  by simplify_eq.
Qed.

(** What a successful [__init__] has established. *)
Lemma init_Ok_inv env (ds : dataset Sample) gbs args fs self fs' :
  init rng_shuffle env ds gbs args fs = Ok (self, fs') →
  attributes_from env ds gbs args self ∧
  world_size self ≠ 0 ∧
  gbs `mod` world_size self = 0 ∧
  ∃ num_samples,
    total_size self = num_samples * world_size self ∧
    Py.ceil_truediv
      (if arg_drop_last args && negb (ds_len ds `mod` world_size self =? 0)
       then ds_len ds - world_size self else ds_len ds)
      (world_size self) = Ok num_samples.
Proof.
  unfold init. set (ws := default (get_world_size env) (arg_world_size args)).
  intros H.
  destruct (decide (ws = 0)) as [Hz|Hz].
  { exfalso. unfold Py.modulo, Py.ceil_truediv in H. rewrite Hz in H.
    cbn in H. by destruct (arg_drop_last args). }
  assert (Hmod : ∀ a, Py.modulo a ws = Ok (a `mod` ws)).
  { intros a. unfold Py.modulo. by replace (ws =? 0) with false by lia. }
  rewrite !Hmod in H.
  assert ((if arg_drop_last args
           then Ok (ds_len ds `mod` ws) ≫= λ r, Ok (negb (r =? 0))
           else Ok false)
          = Ok (arg_drop_last args && negb (ds_len ds `mod` ws =? 0))) as Hu.
  { by destruct (arg_drop_last args). }
  rewrite Hu in H. cbn [mbind result_bind] in H.
  set (uneven := arg_drop_last args && negb (ds_len ds `mod` ws =? 0)) in *.
  assert ((if uneven then Py.ceil_truediv (ds_len ds - ws) ws
           else Py.ceil_truediv (ds_len ds) ws)
          = Py.ceil_truediv (if uneven then ds_len ds - ws else ds_len ds) ws)
    as Hc by (by destruct uneven).
  rewrite Hc in H.
  destruct (Py.ceil_truediv _ ws) as [num| |] eqn:Hnum;
    cbn [mbind result_bind] in H; [|done..].
  destruct (gbs `mod` ws =? 0) eqn:Hg; cbn [py_assert mbind result_bind] in H;
    [|done].
  unfold Py.floordiv in H. replace (ws =? 0) with false in H by lia.
  cbn [mbind result_bind] in H.
  assert (self = match arg_work_dir args with
                 | Some dir =>
                     set_global_indices_file
                       {| self_dataset := ds; seed := arg_seed args;
                          epoch := arg_epoch args;
                          start_index := arg_start_index args;
                          shuffle := arg_shuffle args;
                          drop_last := arg_drop_last args;
                          rank := default (get_global_rank env) (arg_rank args);
                          local_rank :=
                            default (get_local_rank env) (arg_local_rank args);
                          world_size := ws; total_size := num * ws;
                          device_batch_size := gbs `div` ws;
                          global_indices_file := None;
                          work_dir := arg_work_dir args |}
                       (Some (indices_path dir))
                 | None =>
                     {| self_dataset := ds; seed := arg_seed args;
                        epoch := arg_epoch args;
                        start_index := arg_start_index args;
                        shuffle := arg_shuffle args;
                        drop_last := arg_drop_last args;
                        rank := default (get_global_rank env) (arg_rank args);
                        local_rank :=
                          default (get_local_rank env) (arg_local_rank args);
                        world_size := ws; total_size := num * ws;
                        device_batch_size := gbs `div` ws;
                        global_indices_file := None;
                        work_dir := arg_work_dir args |}
                 end) as ->.
  { destruct (arg_work_dir args) as [dir|].
    - by apply build_and_save_Ok_inv in H.
    - by simplify_eq. }
  unfold attributes_from.
  destruct (arg_work_dir args) as [dir|] eqn:Hdir; cbn;
    (split; [by repeat split|]); (split; [done|]); (split; [lia|]);
    by exists num.
Qed.

(** Without a working directory [__init__] succeeds whenever the batch
    size is a multiple of a non-zero world size. *)
Lemma init_in_memory env (ds : dataset Sample) gbs args fs :
  let ws := default (get_world_size env) (arg_world_size args) in
  ws ≠ 0 → gbs `mod` ws = 0 → arg_work_dir args = None →
  ∃ self, init rng_shuffle env ds gbs args fs = Ok (self, fs).
Proof.
  intros ws Hws Hg Hdir. unfold init. fold ws.
  unfold Py.modulo, Py.ceil_truediv, Py.floordiv.
  replace (ws =? 0) with false by lia. rewrite Hg, Hdir.
  destruct (arg_drop_last args); cbn [mbind result_bind];
    [destruct (negb _)|]; cbn [py_assert mbind result_bind Z.eqb]; by eexists.
Qed.

(** The size of the array in closed form. *)
Lemma init_total_size env (ds : dataset Sample) gbs args fs self fs' :
  init rng_shuffle env ds gbs args fs = Ok (self, fs') →
  0 < world_size self →
  let n := ds_len ds in
  let ws := world_size self in
  total_size self =
    if arg_drop_last args && negb (n `mod` ws =? 0)
    then n `div` ws * ws
    else - ((- n) `div` ws) * ws.
Proof.
  intros H Hws n ws.
  apply init_Ok_inv in H as (_ & _ & _ & num & -> & Hnum). fold ws n in Hnum.
  rewrite ceil_truediv_pos in Hnum by done.
  destruct (arg_drop_last args && negb (n `mod` ws =? 0)) eqn:E; simplify_eq.
  - rewrite ceil_div_uneven; [done..|].
    apply andb_true_iff in E as [_ E]. apply negb_true_iff in E. lia.
  - done.
Qed.

Lemma init_total_size_bounds env (ds : dataset Sample) gbs args fs self fs' :
  init rng_shuffle env ds gbs args fs = Ok (self, fs') →
  0 < world_size self → 0 ≤ ds_len ds →
  let n := ds_len ds in
  let ws := world_size self in
  total_size self `mod` ws = 0 ∧
  if arg_drop_last args
  then 0 ≤ total_size self ≤ n ∧ n - ws < total_size self
  else n ≤ total_size self < n + ws.
Proof.
  intros H Hws Hn n ws.
  rewrite (init_total_size _ _ _ _ _ _ _ H Hws). fold n ws.
  pose proof (Z_div_mod_eq_full n ws). pose proof (Z.mod_pos_bound n ws Hws).
  pose proof (ceil_div_bounds n ws Hws).
  assert (0 ≤ n `div` ws) by (apply Z.div_pos; lia).
  destruct (arg_drop_last args); cbn [andb].
  - destruct (n `mod` ws =? 0) eqn:E; cbn [negb].
    + rewrite ceil_div_even by lia. split; [apply Z_mod_mult|]. lia.
    + split; [apply Z_mod_mult|]. lia.
  - split; [apply Z_mod_mult|]. lia.
Qed.

End setup.

(** ** Files of [uint32] elements *)

Lemma Z_of_byte_of_Z (z : Z) : Np.Z_of_byte (Np.byte_of_Z z) = z `mod` 256.
Proof.
  unfold Np.Z_of_byte, Np.byte_of_Z.
  pose proof (Z.mod_pos_bound z 256 ltac:(lia)) as Hz.
  destruct (Byte.of_N (Z.to_N (z `mod` 256))) as [b|] eqn:Hb; cbn.
  - apply Byte.to_of_N in Hb. rewrite Hb. lia.
  - apply Byte.of_N_None_iff in Hb. lia.
Qed.

Lemma lor_shiftl_8 (a b : Z) :
  0 ≤ a < 256 → Z.lor a (Z.shiftl b 8) = a + 256 * b.
Proof.
  intros Ha.
  assert (Hland : Z.land a (Z.shiftl b 8) = 0).
  { apply Z.bits_inj'. intros n Hn.
    rewrite Z.land_spec, Z.bits_0.
    destruct (decide (n < 8)) as [Hlt|Hge].
    - rewrite Z.shiftl_spec_low by lia. apply andb_false_r.
    - destruct (decide (a = 0)) as [->|Hne]; [by rewrite Z.bits_0|].
      rewrite (Z.bits_above_log2 a n); [done|lia|].
      assert (Z.log2 a < 8); [|lia]. apply Z.log2_lt_pow2; lia. }
  rewrite <- Z.lxor_lor, <- Z.add_nocarry_lxor by done.
  rewrite Z.shiftl_mul_pow2 by lia. lia.
Qed.

(** Writing an element and reading it back keeps its low 32 bits. *)
Lemma uint32_of_bytes_uint32_bytes (v : Z) :
  Np.uint32_of_bytes (Np.uint32_bytes v) = v `mod` 2 ^ 32.
Proof.
  unfold Np.uint32_of_bytes, Np.uint32_bytes. cbn [foldr].
  rewrite !lor_shiftl_8 by (rewrite Z_of_byte_of_Z; apply Z.mod_pos_bound; lia).
  rewrite !Z_of_byte_of_Z.
  change 255 with (Z.ones 8). rewrite !Z.land_ones by lia.
  rewrite !Z.shiftr_div_pow2 by lia. rewrite !Zmod_mod.
  change (2 ^ 8) with 256. change (2 ^ 16) with 65536.
  change (2 ^ 24) with 16777216. change (2 ^ 32) with 4294967296.
  pose proof (Z_div_mod_eq_full v 4294967296).
  pose proof (Z.mod_pos_bound v 4294967296 ltac:(lia)).
  pose proof (Z_div_mod_eq_full v 256).
  pose proof (Z_div_mod_eq_full (v `div` 256) 256).
  pose proof (Z_div_mod_eq_full (v `div` 65536) 256).
  pose proof (Z_div_mod_eq_full (v `div` 16777216) 256).
  pose proof (Z.mod_pos_bound v 256 ltac:(lia)).
  pose proof (Z.mod_pos_bound (v `div` 256) 256 ltac:(lia)).
  pose proof (Z.mod_pos_bound (v `div` 65536) 256 ltac:(lia)).
  pose proof (Z.mod_pos_bound (v `div` 16777216) 256 ltac:(lia)).
  assert (v `div` 65536 = (v `div` 256) `div` 256)
    by (by rewrite Z.div_div by lia).
  assert (v `div` 16777216 = (v `div` 65536) `div` 256)
    by (by rewrite Z.div_div by lia).
  assert (v `div` 4294967296 = (v `div` 16777216) `div` 256)
    by (by rewrite Z.div_div by lia).
  lia.
Qed.

Lemma length_to_bytes (a : list Z) : length (Np.to_bytes a) = (length a * 4)%nat.
Proof.
  unfold Np.to_bytes. induction a as [|v a IH]; [done|].
  cbn [fmap list_fmap concat length]. rewrite length_app, IH. cbn. lia.
Qed.

Lemma rows_to_bytes (a : list Z) : Np.rows 4 (Np.to_bytes a) = Np.uint32_bytes <$> a.
Proof.
  unfold Np.to_bytes. apply rows_concat; [lia|].
  apply Forall_fmap, Forall_true. done.
Qed.

(** The elements read from a file are those written to it. *)
Lemma of_bytes_to_bytes (a : list Z) :
  Forall (λ v, 0 ≤ v < 2 ^ 32) a → Np.of_bytes (Np.to_bytes a) = a.
Proof.
  intros Ha. unfold Np.of_bytes. rewrite rows_to_bytes, <- list_fmap_compose.
  rewrite <- (list_fmap_id a) at 2. apply list_fmap_ext. intros i v Hv.
  change (Np.uint32_of_bytes (Np.uint32_bytes v) = v).
  rewrite uint32_of_bytes_uint32_bytes. apply Z.mod_small.
  by eapply Forall_lookup_1 in Ha.
Qed.

Lemma file_element_to_bytes (a : list Z) (i : nat) (v : Z) :
  a !! i = Some v → file_element (Np.to_bytes a) i = v `mod` 2 ^ 32.
Proof.
  intros Hv. unfold file_element.
  assert (Hrow : Np.rows 4 (Np.to_bytes a) !! i = Some (Np.uint32_bytes v)).
  { by rewrite rows_to_bytes, list_lookup_fmap, Hv. }
  rewrite lookup_rows in Hrow.
  - simplify_eq. replace (4 * i)%nat with (i * 4)%nat by lia.
    rewrite Hrow. apply uint32_of_bytes_uint32_bytes.
  - rewrite rows_to_bytes, length_fmap. by eapply lookup_lt_Some.
Qed.

Lemma length_of_bytes (bs : list byte) (m : nat) :
  length bs = (m * 4)%nat → length (Np.of_bytes bs) = m.
Proof.
  intros H. unfold Np.of_bytes. rewrite length_fmap.
  apply length_rows_exact; [lia|done].
Qed.

(** ** The values of the global index array *)

Lemma slice_elem_of {A : Type} (l s : list A) (start stop : option Z) (step : Z) (x : A) :
  Py.slice l start stop step = Ok s → x ∈ s → x ∈ l.
Proof.
  unfold Py.slice. case_match; [done|]. intros [= <-].
  rewrite list_elem_of_omap. intros (i & _ & Hi).
  by eapply list_elem_of_lookup_2.
Qed.

Lemma pad_loop_elem_of (fuel : nat) (indices : list Z) (p : Z)
    (acc arrays : list (list Z)) :
  pad_loop fuel indices p acc = Ok arrays →
  Forall (λ a, ∀ x, x ∈ a → x ∈ indices) acc →
  Forall (λ a, ∀ x, x ∈ a → x ∈ indices) arrays.
Proof.
  revert p acc. induction fuel as [|fuel IH]; intros p acc; cbn [pad_loop];
    destruct (0 <? p); try done; try (by intros [= <-]).
  destruct (Py.slice indices _ _ _) as [a| |] eqn:Ha;
    cbn [mbind result_bind]; [|done..].
  intros H Hacc. apply (IH _ _ H). apply Forall_app. split; [done|].
  apply Forall_singleton. intros x Hx. by eapply slice_elem_of.
Qed.

Lemma elem_of_concat {A : Type} (x : A) (ls : list (list A)) :
  x ∈ concat ls → ∃ l, x ∈ l ∧ l ∈ ls.
Proof.
  induction ls as [|l ls IH]; cbn [concat]; [by intros ?%not_elem_of_nil|].
  intros [Hx|Hx]%elem_of_app.
  - exists l. split; [done|by left].
  - destruct (IH Hx) as (l' & ? & ?). exists l'. split; [done|by right].
Qed.

Lemma rotate_shuffle_perm (s : Z) (a : list Z) : rotate_shuffle s a ≡ₚ a.
Proof.
  unfold rotate_shuffle, rotate.
  by rewrite Permutation_app_comm, take_drop.
Qed.

Section values.

Context {Sample : Type}.
Variable rng_shuffle : Z → list Z → list Z.
Hypothesis rng_shuffle_perm : ∀ s a, rng_shuffle s a ≡ₚ a.
Implicit Types self : DistributedSamplingDataset Sample.

(** An array is returned only past the assertion on the length and with
    a seed that the generator accepts. *)
Lemma build_global_indices_Ok_inv self (a : list Z) :
  build_global_indices rng_shuffle self = Ok a →
  ds_len (self_dataset self) < Np.uint32_max ∧ seed_ok self.
Proof.
  unfold build_global_indices, seed_ok. intros H.
  destruct (ds_len (self_dataset self) <? Np.uint32_max) eqn:Hn;
    cbn [py_assert mbind result_bind] in H; [|done].
  split; [lia|].
  destruct (shuffle self); [|by left].
  destruct (seed self + epoch self <? 0) eqn:Hs; [done|]. right. lia.
Qed.

(** Every element of the array is a position of the dataset. *)
Lemma build_global_indices_values self (a : list Z) (v : Z) :
  build_global_indices rng_shuffle self = Ok a → v ∈ a →
  0 ≤ v < ds_len (self_dataset self).
Proof.
  intros H Hv.
  destruct (build_global_indices_Ok_inv self a H) as [Hn Hseed].
  rewrite build_global_indices_unfold in H by done. cbv zeta in H.
  apply (elem_of_epoch_order rng_shuffle rng_shuffle_perm self).
  destruct (negb (drop_last self)).
  - destruct (pad_loop _ _ _ _) as [arrays| |] eqn:Hp;
      cbn [mbind result_bind] in H; [|done..].
    destruct (Py.len _ =? _); cbn [py_assert mbind result_bind] in H; [|done].
    simplify_eq. unfold Np.concatenate in Hv.
    apply elem_of_concat in Hv as (arr & Hv & Harr).
    apply pad_loop_elem_of in Hp; [|by apply Forall_singleton].
    rewrite Forall_forall in Hp. by apply (Hp arr).
  - destruct (Py.slice _ _ _ _) as [b| |] eqn:Hb;
      cbn [mbind result_bind] in H; [|done..].
    destruct (Py.len _ =? _); cbn [py_assert mbind result_bind] in H; [|done].
    simplify_eq. by eapply slice_elem_of.
Qed.

End values.

(** * The claims *)

(** ** Slicing by data loader worker *)

(** C1, as stated, fails on a rank-local array with a left-over tail: with
    [device_batch_size = 4] and two workers, the six indices [0 .. 5] are
    dealt as [0 1 2 3 4] and [5], and collecting size-4 chunks from the
    workers in round-robin order gives [0 1 2 3 5 4]. *)
Lemma worker_alignment_left_overs_reordered :
  worker_slices (make_self 6 0 0 1 6 4 false) [0; 1; 2; 3; 4; 5] 2
    = Ok [[0; 1; 2; 3; 4]; [5]] ∧
  Loader.regroup 4 [[0; 1; 2; 3; 4]; [5]] = [0; 1; 2; 3; 5; 4] ∧
  Loader.regroup 4 [[0; 1; 2; 3; 4]; [5]] ≠ [0; 1; 2; 3; 4; 5].
Proof. split; [reflexivity|]. split; [reflexivity|]. discriminate. Qed.

(** C1 (amended). For a rank-local array [l], [device_batch_size = d > 0]
    and [nw > 0] workers, worker [j] yields the batches [j], [j + nw],
    [j + 2 nw], ... of the first [d * (len l // d)] indices, each batch
    being [d] consecutive indices of [l] in their order, followed by the
    left-over indices at positions [d * (len l // d) + j + i * nw]. When
    [d] divides the length of [l], so that no tail is left over, cutting
    every worker's output into chunks of [d] and collecting the chunks in
    round-robin order restores [l]. *)
Theorem worker_batch_alignment {Sample : Type}
    (self : DistributedSamplingDataset Sample) (l : list Z) (nw : Z) :
  0 < device_batch_size self → 0 < nw →
  (∀ j, 0 ≤ j < nw →
     ∃ mine left,
       worker_slice self l {| id := j; num_workers := nw |}
         = Ok (concat mine ++ left) ∧
       (∀ i : nat, mine !! i =
          if decide (j + Z.of_nat i * nw < Py.len l `div` device_batch_size self)
          then Some (take (Z.to_nat (device_batch_size self))
                       (drop (Z.to_nat (j + Z.of_nat i * nw)
                              * Z.to_nat (device_batch_size self)) l))
          else None) ∧
       (∀ i : nat, left !! i =
          l !! Z.to_nat (device_batch_size self
                         * (Py.len l `div` device_batch_size self)
                         + j + Z.of_nat i * nw))) ∧
  (Py.len l `mod` device_batch_size self = 0 →
   ∃ outs, worker_slices self l nw = Ok outs ∧
           length outs = Z.to_nat nw ∧
           Loader.regroup (Z.to_nat (device_batch_size self)) outs = l).
Proof.
  intros Hd Hnw. split.
  - intros j [Hj _]. by apply worker_slice_spec.
  - intros Hmod. by apply worker_slices_regroup.
Qed.

Lemma worker_batch_alignment_witness :
  0 < device_batch_size (make_self 80 0 0 1 80 8 false) ∧ 0 < 3 ∧
  ∃ outs, worker_slices (make_self 80 0 0 1 80 8 false) (seqZ 0 80) 3 = Ok outs ∧
          length outs = 3%nat ∧
          Loader.regroup 8 outs = seqZ 0 80.
Proof.
  split; [reflexivity|]. split; [reflexivity|].
  apply (worker_batch_alignment (make_self 80 0 0 1 80 8 false) (seqZ 0 80) 3);
    reflexivity.
Defined.

(** ** Slicing by rank *)

(** C4. For a global index array [g] of [total_size] elements, with
    [total_size] a multiple of [world_size] and no resume offset, the slices
    [g[rank : total_size : world_size]] of the ranks [0 .. world_size-1] each
    have [total_size / world_size] elements, element [i] of rank [r] being
    [g[r + i * world_size]]; the positions handed to rank [r] are, without
    repetition, exactly the positions of [g] congruent to [r] modulo
    [world_size], so the positions of two ranks are disjoint and every
    position belongs to one rank; interleaving the slices gives [g] back. *)
Theorem rank_slices_partition {Sample : Type}
    (self : DistributedSamplingDataset Sample) (g : list Z) :
  0 < world_size self →
  total_size self `mod` world_size self = 0 →
  Py.len g = total_size self →
  start_index self = 0 →
  ∃ slices,
    rank_slices self g = Ok slices ∧
    length slices = Z.to_nat (world_size self) ∧
    (∀ (r : nat) s, slices !! r = Some s →
       partition (set_rank self (Z.of_nat r)) g None = Ok s ∧
       s = omap (λ p, g !! Z.to_nat p)
             (rank_positions (set_rank self (Z.of_nat r)) (Py.len g)) ∧
       Py.len s = total_size self `div` world_size self ∧
       ∀ i : nat, s !! i = g !! (r + i * Z.to_nat (world_size self))%nat) ∧
    (∀ r, 0 ≤ r < world_size self →
       NoDup (rank_positions (set_rank self r) (Py.len g)) ∧
       ∀ p, p ∈ rank_positions (set_rank self r) (Py.len g) ↔
            0 ≤ p < total_size self ∧ p `mod` world_size self = r) ∧
    (∀ r r' p, 0 ≤ r < world_size self → 0 ≤ r' < world_size self → r ≠ r' →
       p ∈ rank_positions (set_rank self r) (Py.len g) →
       p ∉ rank_positions (set_rank self r') (Py.len g)) ∧
    Loader.interleave slices = g.
Proof.
  intros Hws Hmod Hlen Hstart.
  assert (Hres : ∀ r, resumed (set_rank self r) g = g).
  { intros r. unfold resumed. cbn. by rewrite Hstart. }
  pose proof (Hres (rank self)) as Hres0.
  assert (resumed self g = g) as Hres1 by (unfold resumed; by rewrite Hstart).
  destruct (rank_slices_spec self g) as (slices & Hsl & Hl & Hspec & Hint).
  { done. }
  { rewrite Hres1. lia. }
  rewrite Hres1 in Hspec, Hint.
  assert (Hpos : ∀ r, 0 ≤ r < world_size self →
    ∀ p, p ∈ rank_positions (set_rank self r) (Py.len g) ↔
         0 ≤ p < total_size self ∧ p `mod` world_size self = r).
  { intros r Hr p. pose proof (len_nonneg g).
    rewrite (elem_of_rank_positions (set_rank self r));
      cbn [set_rank world_size rank total_size]; [|lia..].
    by rewrite Hlen. }
  exists slices. split; [done|]. split; [done|]. split; [|split; [|split]].
  - intros r s Hrs. destruct (Hspec r s Hrs) as [Hp Hlk].
    split; [done|]. split; [|split; [|done]].
    + rewrite partition_positions in Hp by (cbn; lia).
      rewrite Hres in Hp. by simplify_eq.
    + assert (Hr : (r < Z.to_nat (world_size self))%nat).
      { rewrite <- Hl. by eapply lookup_lt_Some. }
      pose proof (Z_div_mod_eq_full (total_size self) (world_size self)) as E.
      assert (0 ≤ total_size self `div` world_size self).
      { apply Z.div_pos; [|done]. pose proof (len_nonneg g). lia. }
      unfold Py.len.
      rewrite (length_dealt s g r (Z.to_nat (world_size self))
                 (Z.to_nat (total_size self `div` world_size self)));
        [lia|done| |done].
      unfold Py.len in Hlen. nia.
  - intros r Hr. split; [|by apply Hpos].
    apply NoDup_rank_positions; cbn; [apply len_nonneg|lia..].
  - intros r r' p Hr Hr' Hne Hp Hp'.
    apply Hpos in Hp; [|done]. apply Hpos in Hp'; [|done]. lia.
  - done.
Qed.

Lemma rank_slices_partition_witness :
  0 < world_size (make_self 16 0 0 4 16 2 false) ∧
  total_size (make_self 16 0 0 4 16 2 false)
    `mod` world_size (make_self 16 0 0 4 16 2 false) = 0 ∧
  Py.len (seqZ 100 16) = total_size (make_self 16 0 0 4 16 2 false) ∧
  start_index (make_self 16 0 0 4 16 2 false) = 0 ∧
  ∃ slices,
    rank_slices (make_self 16 0 0 4 16 2 false) (seqZ 100 16) = Ok slices ∧
    length slices = 4%nat ∧
    Loader.interleave slices = seqZ 100 16.
Proof.
  split; [reflexivity|]. split; [reflexivity|]. split; [reflexivity|].
  split; [reflexivity|].
  destruct (rank_slices_partition (make_self 16 0 0 4 16 2 false) (seqZ 100 16))
    as (slices & H1 & H2 & _ & _ & _ & H3); [reflexivity..|].
  exists slices. split; [exact H1|]. split; [exact H2|exact H3].
Defined.

(** C7. For a global index array [g] of [n] global batches, where a global
    batch is [device_batch_size * world_size] indices and [total_size] is
    the length of [g], and a resume offset of [k] global batches with
    [0 <= k <= n], [__iter__] drops the first [start_index] elements before
    it slices by rank and by worker; the slices of the ranks interleave to,
    and the fleet of ranks and workers consumes, exactly the elements of
    [g] from position [start_index] on, in their order, so that [g] is the
    dropped prefix followed by what is consumed; with [start_index = 0]
    nothing is dropped. *)
Theorem resume_yields_tail {Sample : Type}
    (self : DistributedSamplingDataset Sample) (g : list Z) (n k nw : Z) :
  0 < world_size self → 0 < device_batch_size self → 0 < nw →
  Py.len g = total_size self →
  total_size self = n * (device_batch_size self * world_size self) →
  start_index self = k * (device_batch_size self * world_size self) →
  0 ≤ k ≤ n →
  resumed self g = drop (Z.to_nat (start_index self)) g ∧
  (∃ slices, rank_slices self g = Ok slices ∧
             Loader.interleave slices = drop (Z.to_nat (start_index self)) g) ∧
  fleet_order self g nw = Ok (drop (Z.to_nat (start_index self)) g) ∧
  Py.len (drop (Z.to_nat (start_index self)) g)
    = (n - k) * (device_batch_size self * world_size self) ∧
  g = take (Z.to_nat (start_index self)) g ++ drop (Z.to_nat (start_index self)) g ∧
  (start_index self = 0 → drop (Z.to_nat (start_index self)) g = g).
Proof.
  intros Hws Hd Hnw Hlen Htot Hstart Hk.
  assert (Hres : resumed self g = drop (Z.to_nat (start_index self)) g).
  { unfold resumed. case_match; [done|].
    replace (Z.to_nat (start_index self)) with 0%nat by lia. by rewrite drop_0. }
  assert (Hrl : Py.len (resumed self g)
                = (n - k) * (device_batch_size self * world_size self)).
  { rewrite Hres. unfold Py.len in *. rewrite length_drop, Z.mul_sub_distr_r.
    assert (0 ≤ k * (device_batch_size self * world_size self))
      by (apply Z.mul_nonneg_nonneg; [lia|nia]).
    assert (k * (device_batch_size self * world_size self)
            ≤ n * (device_batch_size self * world_size self))
      by (apply Z.mul_le_mono_nonneg_r; [nia|lia]).
    lia. }
  assert (Hle : Py.len (resumed self g) ≤ total_size self).
  { rewrite Hres. unfold Py.len in *. rewrite length_drop. lia. }
  split; [done|]. split; [|split; [|split; [|split]]].
  - destruct (rank_slices_spec self g) as (slices & Hsl & _ & _ & Hint);
      [done..|].
    exists slices. by rewrite <- Hres.
  - rewrite <- Hres. by apply (fleet_order_spec self g nw (n - k)).
  - by rewrite <- Hres.
  - by rewrite take_drop.
  - intros ->. by rewrite drop_0.
Qed.

Lemma resume_yields_tail_witness :
  0 < world_size (make_self 80 16 0 4 80 2 false) ∧
  0 < device_batch_size (make_self 80 16 0 4 80 2 false) ∧
  0 < 3 ∧
  Py.len (seqZ 100 80) = total_size (make_self 80 16 0 4 80 2 false) ∧
  total_size (make_self 80 16 0 4 80 2 false) = 10 * (2 * 4) ∧
  start_index (make_self 80 16 0 4 80 2 false) = 2 * (2 * 4) ∧
  0 ≤ 2 ≤ 10 ∧
  fleet_order (make_self 80 16 0 4 80 2 false) (seqZ 100 80) 3 = Ok (seqZ 116 64).
Proof.
  repeat (split; [reflexivity || (cbn; lia)|]).
  destruct (resume_yields_tail (make_self 80 16 0 4 80 2 false) (seqZ 100 80) 10 2 3)
    as (_ & _ & H & _); [reflexivity || (cbn; lia)..|].
  exact H.
Defined.

(** ** Generation of the global index array *)

Lemma elem_of_take_1 {A : Type} (x : A) (n : nat) (l : list A) :
  x ∈ take n l → x ∈ l.
Proof. intros (i & Hi & _)%elem_of_take. by eapply list_elem_of_lookup_2. Qed.

Lemma NoDup_take {A : Type} (n : nat) (l : list A) : NoDup l → NoDup (take n l).
Proof. intros H. eapply sublist_NoDup; [done|apply sublist_take]. Qed.


Section generation_claims.

Context {Sample : Type}.
Variable rng_shuffle : Z → list Z → list Z.
Hypothesis rng_shuffle_perm : ∀ s a, rng_shuffle s a ≡ₚ a.
Implicit Types self : DistributedSamplingDataset Sample.
Implicit Types fs : gmap string (list byte).


(** C5. For a dataset of at least one item on at least one rank,
    [_build_global_indices] returns an array whenever the length passes
    its assertion, the world size is below [2^53] and the seed is
    accepted, and every array it returns is as follows. With [drop_last] unset it has [total_size =
    ceil(length / world_size) * world_size] elements, begins with the
    whole epoch order, continues by repeating it from its start (element
    [i] is element [i mod length] of the epoch order), and so contains
    every position of the dataset. With [drop_last] set it is a prefix of
    the epoch order: its elements are positions of the dataset, none
    repeated. *)
Theorem generated_array_coverage env (ds : dataset Sample) gbs args fs self fs' :
  init rng_shuffle env ds gbs args fs = Ok (self, fs') →
  1 ≤ ds_len ds →
  1 ≤ world_size self →
  (ds_len ds < Np.uint32_max → world_size self < 2 ^ 53 → seed_ok self →
   ∃ a, build_global_indices rng_shuffle self = Ok a) ∧
  (∀ a, build_global_indices rng_shuffle self = Ok a →
     (drop_last self = false →
        Py.len a = total_size self ∧
        (∃ k, total_size self = k * world_size self ∧
              is_ceil k (ds_len ds) (world_size self)) ∧
        take (Z.to_nat (ds_len ds)) a = epoch_order rng_shuffle self ∧
        (∀ i : nat, Z.of_nat i < total_size self →
           a !! i = epoch_order rng_shuffle self
                      !! (i `mod` Z.to_nat (ds_len ds))%nat) ∧
        (∀ v, 0 ≤ v < ds_len ds → v ∈ a)) ∧
     (drop_last self = true →
        a = take (Z.to_nat (total_size self)) (epoch_order rng_shuffle self) ∧
        NoDup a ∧
        (∀ v, v ∈ a → 0 ≤ v < ds_len ds))).
Proof.
  intros Hinit Hn Hws.
  pose proof (init_total_size_bounds _ _ _ _ _ _ _ _ Hinit
                ltac:(lia) ltac:(lia)) as [_ Hb].
  pose proof (init_total_size _ _ _ _ _ _ _ _ Hinit ltac:(lia)) as Htot.
  destruct (init_Ok_inv _ _ _ _ _ _ _ _ Hinit) as (Hattr & _).
  destruct Hattr as (Hds & _ & _ & _ & _ & Hdl & _).
  cbv zeta in Hb, Htot. rewrite <- Hdl in Hb, Htot.
  assert (Hgen : ds_len ds < Np.uint32_max → seed_ok self →
    ∃ a, build_global_indices rng_shuffle self = Ok a ∧
      (drop_last self = false →
         Py.len a = total_size self ∧
         take (Z.to_nat (ds_len ds)) a = epoch_order rng_shuffle self ∧
         (∀ i : nat, Z.of_nat i < total_size self →
            a !! i = epoch_order rng_shuffle self
                       !! (i `mod` Z.to_nat (ds_len ds))%nat)) ∧
      (drop_last self = true →
         a = take (Z.to_nat (total_size self)) (epoch_order rng_shuffle self))).
  { intros Hmax Hseed. destruct (drop_last self) eqn:E.
    - rewrite (build_dropped rng_shuffle rng_shuffle_perm self)
        by (rewrite ?Hds; done || lia).
      eexists. split; [done|]. by split.
    - destruct (build_padded rng_shuffle rng_shuffle_perm self)
        as (a & Ha & Hlen & Htake & Hlk); rewrite ?Hds; [done || lia..|].
      rewrite Hds in Htake, Hlk.
      exists a. split; [done|]. by split. }
  split.
  - intros Hmax _ Hseed. destruct (Hgen Hmax Hseed) as (a & Ha & _). by exists a.
  - intros a Ha.
    destruct (build_global_indices_Ok_inv rng_shuffle self a Ha) as [Hmax Hseed].
    rewrite Hds in Hmax.
    destruct (Hgen Hmax Hseed) as (a' & Ha' & Hpad & Hdrop).
    assert (a' = a) as -> by congruence. split.
    + intros E. destruct (Hpad E) as (Hlen & Htake & Hlk).
      split; [done|]. split; [|split; [done|split; [done|]]].
      * rewrite E in Htot. cbn [andb] in Htot.
        eexists. split; [exact Htot|]. apply ceil_div_bounds. lia.
      * intros v Hv. rewrite <- Hds in Hv.
        apply (elem_of_epoch_order rng_shuffle rng_shuffle_perm self) in Hv.
        rewrite <- Htake in Hv. by eapply elem_of_take_1.
    + intros E. pose proof (Hdrop E) as ->. split; [done|]. split.
      * apply NoDup_take, NoDup_epoch_order. done.
      * intros v Hv%elem_of_take_1.
        apply (elem_of_epoch_order rng_shuffle rng_shuffle_perm self) in Hv.
        by rewrite Hds in Hv.
Qed.

End generation_claims.


Lemma generated_array_coverage_witness :
  ∃ self,
    init rotate_shuffle single_process (unit_dataset 3) 8
      (make_args 42 3 0 true false 8 0 0 None) ∅ = Ok (self, ∅) ∧
    1 ≤ ds_len (unit_dataset 3) ∧
    1 ≤ world_size self ∧
    ∃ a, build_global_indices rotate_shuffle self = Ok a ∧
         Py.len a = 8 ∧
         ∀ v, 0 ≤ v < 3 → v ∈ a.
Proof.
  eexists. split; [reflexivity|]. split; [cbn; lia|]. split; [cbn; lia|].
  destruct (generated_array_coverage rotate_shuffle rotate_shuffle_perm
              single_process (unit_dataset 3) 8
              (make_args 42 3 0 true false 8 0 0 None) ∅ _ ∅ eq_refl)
    as [Hex Hall]; [cbn; lia|cbn; lia|].
  destruct Hex as [a Ha]; [reflexivity|reflexivity|right; cbn; lia|].
  exists a. split; [exact Ha|].
  destruct (Hall a Ha) as [Hpad _].
  destruct Hpad as (Hlen & _ & _ & _ & Hcov); [reflexivity|].
  split; [exact Hlen|exact Hcov].
Defined.

(** C6. Two [DistributedSamplingDataset] objects constructed for datasets of
    the same length with the same [seed], [epoch], [shuffle], [drop_last]
    and world size generate the same global index array, whatever their
    rank, local rank, batch size, resume offset, working directory, files
    and dataset items: generation is a function of those six values, the
    permutation being drawn from a generator seeded with [seed + epoch]. *)
Theorem global_indices_deterministic {Sample : Type}
    (rng_shuffle : Z → list Z → list Z)
    env1 env2 (ds1 ds2 : dataset Sample) gbs1 gbs2 args1 args2
    (fs1 fs2 fs1' fs2' : gmap string (list byte))
    (self1 self2 : DistributedSamplingDataset Sample) :
  init rng_shuffle env1 ds1 gbs1 args1 fs1 = Ok (self1, fs1') →
  init rng_shuffle env2 ds2 gbs2 args2 fs2 = Ok (self2, fs2') →
  ds_len ds1 = ds_len ds2 →
  arg_seed args1 = arg_seed args2 →
  arg_epoch args1 = arg_epoch args2 →
  arg_shuffle args1 = arg_shuffle args2 →
  arg_drop_last args1 = arg_drop_last args2 →
  world_size self1 = world_size self2 →
  build_global_indices rng_shuffle self1 = build_global_indices rng_shuffle self2.
Proof.
  intros H1 H2 Hn Hseed Hepoch Hsh Hdl Hws.
  destruct (init_Ok_inv _ _ _ _ _ _ _ _ H1) as (A1 & _ & _ & num1 & T1 & C1).
  destruct (init_Ok_inv _ _ _ _ _ _ _ _ H2) as (A2 & _ & _ & num2 & T2 & C2).
  destruct A1 as (D1 & S1 & E1 & _ & Sh1 & Dl1 & _).
  destruct A2 as (D2 & S2 & E2 & _ & Sh2 & Dl2 & _).
  rewrite Hn, Hdl, Hws in C1. rewrite C1 in C2.
  assert (num1 = num2) as -> by congruence.
  unfold build_global_indices.
  rewrite D1, D2, Hn, Sh1, Sh2, Hsh, S1, S2, Hseed, E1, E2, Hepoch, Dl1, Dl2, Hdl,
    T1, T2, Hws.
  done.
Qed.

Lemma global_indices_deterministic_witness :
  ∃ self1 self2 fs2',
    init rotate_shuffle single_process (unit_dataset 100) 8
      (make_args 42 3 0 true false 4 0 0 None) ∅ = Ok (self1, ∅) ∧
    init rotate_shuffle single_process (unit_dataset 100) 16
      (make_args 42 3 32 true false 4 3 1 (Some "run"%string)) ∅
      = Ok (self2, fs2') ∧
    rank self1 ≠ rank self2 ∧
    build_global_indices rotate_shuffle self1
      = build_global_indices rotate_shuffle self2.
Proof.
  eexists _, _, _. split; [reflexivity|]. split; [reflexivity|].
  split; [discriminate|].
  eapply (global_indices_deterministic rotate_shuffle
            single_process single_process (unit_dataset 100) (unit_dataset 100)
            8 16 (make_args 42 3 0 true false 4 0 0 None)
            (make_args 42 3 32 true false 4 3 1 (Some "run"%string)) ∅ ∅);
    reflexivity.
Defined.

Section generation_guards.

Context {Sample : Type}.
Variable rng_shuffle : Z → list Z → list Z.
Hypothesis rng_shuffle_perm : ∀ s a, rng_shuffle s a ≡ₚ a.
Implicit Types self : DistributedSamplingDataset Sample.
Implicit Types fs : gmap string (list byte).

(** C10. [_build_global_indices] asserts that the length of the dataset
    is strictly below [2^32 - 1], the largest [uint32]: for a dataset at
    least that long it raises [AssertionError] and returns no array.
    Under the assertion the [uint32] array of positions is created
    without wrap-around, and every element of a returned array is a
    position of the dataset, hence a value that 32 bits hold
    unchanged. *)
Theorem length_fits_uint32 self :
  Np.uint32_max = 2 ^ 32 - 1 ∧
  (Np.uint32_max ≤ ds_len (self_dataset self) →
   build_global_indices rng_shuffle self = Raise AssertionError) ∧
  (ds_len (self_dataset self) < Np.uint32_max →
   Np.arange_uint32 (ds_len (self_dataset self))
     = seqZ 0 (ds_len (self_dataset self))) ∧
  (∀ a, build_global_indices rng_shuffle self = Ok a →
     ds_len (self_dataset self) < Np.uint32_max ∧
     ∀ v, v ∈ a →
       0 ≤ v < ds_len (self_dataset self) ∧ v `mod` 2 ^ 32 = v).
Proof.
  split; [reflexivity|]. split; [|split].
  - intros Hn. unfold build_global_indices.
    by replace (ds_len (self_dataset self) <? Np.uint32_max) with false by lia.
  - intros Hn. apply arange_uint32_small. unfold Np.uint32_max in Hn. lia.
  - intros a Ha.
    destruct (build_global_indices_Ok_inv rng_shuffle self a Ha) as [Hn _].
    split; [done|]. intros v Hv.
    pose proof (build_global_indices_values rng_shuffle rng_shuffle_perm
                  self a v Ha Hv) as Hr.
    split; [done|]. apply Z.mod_small. unfold Np.uint32_max in Hn. lia.
Qed.

(** C2 (amended). With [drop_last] set, no working directory, a batch
    size that is a multiple of the world size, a world size below [2^53]
    and a seed that the generator accepts, a dataset shorter than both
    the world size and [2^32 - 1] raises nothing: [__init__] succeeds with
    [total_size = 0] and [_build_global_indices] returns the empty
    array. *)
Theorem short_dataset_drop_last_empty env (ds : dataset Sample) gbs args fs :
  0 ≤ ds_len ds < default (get_world_size env) (arg_world_size args) →
  default (get_world_size env) (arg_world_size args) < 2 ^ 53 →
  ds_len ds < Np.uint32_max →
  arg_drop_last args = true →
  gbs `mod` default (get_world_size env) (arg_world_size args) = 0 →
  arg_work_dir args = None →
  (arg_shuffle args = false ∨ 0 ≤ arg_seed args + arg_epoch args) →
  ∃ self,
    init rng_shuffle env ds gbs args fs = Ok (self, fs) ∧
    total_size self = 0 ∧
    build_global_indices rng_shuffle self = Ok [] ∧
    get_global_indices rng_shuffle self fs = Ok [].
Proof.
  intros Hn _ Hmax Hdl Hg Hdir Hseed.
  destruct (init_in_memory rng_shuffle env ds gbs args fs) as [self Hinit];
    [lia|done..|].
  destruct (init_Ok_inv _ _ _ _ _ _ _ _ Hinit) as (Hattr & _).
  destruct Hattr as (Hds & Hs & He & _ & Hsh & Hdl' & _ & _ & Hws & _ & _ & Hgif).
  pose proof (init_total_size_bounds _ _ _ _ _ _ _ _ Hinit
                ltac:(lia) ltac:(lia)) as [Hm Hb].
  rewrite Hdl in Hb. cbv zeta in Hm, Hb.
  assert (Ht : total_size self = 0).
  { rewrite Z.mod_small in Hm by lia. done. }
  assert (Hbuild : build_global_indices rng_shuffle self = Ok []).
  { rewrite (build_dropped rng_shuffle rng_shuffle_perm self).
    - by rewrite Ht.
    - by rewrite Hdl'.
    - by rewrite Hds.
    - unfold seed_ok. by rewrite Hsh, Hs, He.
    - rewrite Hds. lia. }
  exists self. split; [done|]. split; [done|]. split; [done|].
  unfold get_global_indices. rewrite Hgif, Hdir. done.
Qed.

End generation_guards.

Lemma length_fits_uint32_witness :
  build_global_indices rotate_shuffle
    (make_self 4294967295 0 0 1 4294967295 1 false) = Raise AssertionError ∧
  ∀ a, build_global_indices rotate_shuffle (make_self 17 0 0 4 20 1 false) = Ok a →
       ∀ v, v ∈ a → 0 ≤ v < 17.
Proof.
  split.
  - apply (length_fits_uint32 rotate_shuffle rotate_shuffle_perm
             (make_self 4294967295 0 0 1 4294967295 1 false)).
    unfold Np.uint32_max. cbn. lia.
  - intros a Ha v Hv.
    apply (length_fits_uint32 rotate_shuffle rotate_shuffle_perm
             (make_self 17 0 0 4 20 1 false)) in Ha as [_ Hr].
    apply (Hr v Hv).
Defined.

(** C2, as stated, fails: three items on four ranks with [drop_last] set
    raise nothing, neither at construction nor at generation; [total_size]
    is [0] and the array of indices is empty. *)
Lemma short_dataset_drop_last_no_error :
  init rotate_shuffle single_process (unit_dataset 3) 4
    (make_args 0 0 0 true true 4 0 0 None) ∅
    = Ok ({| self_dataset := unit_dataset 3; seed := 0; epoch := 0;
             start_index := 0; shuffle := true; drop_last := true; rank := 0;
             local_rank := 0; world_size := 4; total_size := 0;
             device_batch_size := 1; global_indices_file := None;
             work_dir := None |}, ∅) ∧
  build_global_indices rotate_shuffle
    {| self_dataset := unit_dataset 3; seed := 0; epoch := 0;
       start_index := 0; shuffle := true; drop_last := true; rank := 0;
       local_rank := 0; world_size := 4; total_size := 0;
       device_batch_size := 1; global_indices_file := None;
       work_dir := None |} = Ok [] ∧
  iter_indices rotate_shuffle
    {| self_dataset := unit_dataset 3; seed := 0; epoch := 0;
       start_index := 0; shuffle := true; drop_last := true; rank := 0;
       local_rank := 0; world_size := 4; total_size := 0;
       device_batch_size := 1; global_indices_file := None;
       work_dir := None |} ∅ None = Ok [].
Proof. split; [reflexivity|]. split; reflexivity. Qed.

Lemma short_dataset_drop_last_empty_witness :
  0 ≤ ds_len (unit_dataset 3) < 4 ∧
  4 < 2 ^ 53 ∧
  ds_len (unit_dataset 3) < Np.uint32_max ∧
  ∃ self,
    init rotate_shuffle single_process (unit_dataset 3) 4
      (make_args 0 0 0 true true 4 0 0 None) ∅ = Ok (self, ∅) ∧
    total_size self = 0 ∧
    build_global_indices rotate_shuffle self = Ok [].
Proof.
  split; [cbn; lia|]. split; [reflexivity|]. split; [reflexivity|].
  destruct (short_dataset_drop_last_empty rotate_shuffle rotate_shuffle_perm
              single_process (unit_dataset 3) 4
              (make_args 0 0 0 true true 4 0 0 None) ∅)
    as (self & H1 & H2 & H3 & _);
    [cbn; lia|reflexivity|reflexivity|reflexivity|reflexivity|reflexivity
    |right; cbn; lia|].
  exists self. split; [exact H1|]. split; [exact H2|exact H3].
Defined.

(** ** The persisted index file *)

Lemma lookup_of_bytes (bs : list byte) (m i : nat) :
  length bs = (m * 4)%nat → (i < m)%nat →
  Np.of_bytes bs !! i = Some (file_element bs i).
Proof.
  intros Hlen Hi. unfold Np.of_bytes, file_element.
  rewrite list_lookup_fmap, lookup_rows.
  - by replace (4 * i)%nat with (i * 4)%nat by lia.
  - rewrite (length_rows_exact 4 bs m); [done|lia|done].
Qed.

(** C8, as stated, fails: a process that expects [total_size = 4] and finds
    an index file of two elements gets those two elements, and no error. *)
Lemma load_ignores_expected_total_size :
  init rotate_shuffle single_process (unit_dataset 4) 4
    (make_args 0 0 0 false false 4 1 1 (Some "run"%string))
    {[ "run/global_indices.npy"%string := Np.to_bytes [7; 9] ]}
    = Ok ({| self_dataset := unit_dataset 4; seed := 0; epoch := 0;
             start_index := 0; shuffle := false; drop_last := false; rank := 1;
             local_rank := 1; world_size := 4; total_size := 4;
             device_batch_size := 1;
             global_indices_file := Some "run/global_indices.npy"%string;
             work_dir := Some "run"%string |},
          {[ "run/global_indices.npy"%string := Np.to_bytes [7; 9] ]}) ∧
  Py.len (Np.to_bytes [7; 9]) = 8 ∧
  get_global_indices rotate_shuffle
    {| self_dataset := unit_dataset 4; seed := 0; epoch := 0;
       start_index := 0; shuffle := false; drop_last := false; rank := 1;
       local_rank := 1; world_size := 4; total_size := 4;
       device_batch_size := 1;
       global_indices_file := Some "run/global_indices.npy"%string;
       work_dir := Some "run"%string |}
    {[ "run/global_indices.npy"%string := Np.to_bytes [7; 9] ]} = Ok [7; 9].
Proof. split; [reflexivity|]. split; [reflexivity|]. vm_compute. reflexivity. Qed.

(** C8 (amended). When an index file is configured, [get_global_indices]
    raises [FileNotFoundError] if the file is missing and [ValueError] if
    its length in bytes is zero or not a multiple of 4; for any other file
    it returns the elements of the file, a fourth as many as the file has
    bytes, whatever [total_size] the object expects. *)
Theorem load_checks_element_size_only {Sample : Type}
    (rng_shuffle : Z → list Z → list Z)
    (self : DistributedSamplingDataset Sample)
    (fs : gmap string (list byte)) (file : string) :
  global_indices_file self = Some file →
  (fs !! file = None →
   get_global_indices rng_shuffle self fs = Raise FileNotFoundError) ∧
  (∀ bs, fs !! file = Some bs →
     (Py.len bs `mod` 4 ≠ 0 ∨ Py.len bs = 0 →
      get_global_indices rng_shuffle self fs = Raise ValueError) ∧
     (Py.len bs `mod` 4 = 0 → 0 < Py.len bs →
      get_global_indices rng_shuffle self fs = Ok (Np.of_bytes bs) ∧
      Py.len (Np.of_bytes bs) = Py.len bs `div` 4 ∧
      ∀ i : nat, Z.of_nat i < Py.len bs `div` 4 →
        Np.of_bytes bs !! i = Some (file_element bs i))).
Proof.
  intros Hfile. unfold get_global_indices, Np.memmap_read. rewrite Hfile.
  split; [by intros ->|]. intros bs ->. split.
  - intros [Hm|H0].
    + by replace (Py.len bs `mod` 4 =? 0) with false by lia.
    + rewrite H0. done.
  - intros Hm Hpos.
    replace (Py.len bs `mod` 4 =? 0) with true by lia.
    replace (Py.len bs =? 0) with false by lia.
    split; [done|].
    pose proof (Z_div_mod_eq_full (Py.len bs) 4) as E.
    assert (Hlen : length bs = (Z.to_nat (Py.len bs `div` 4) * 4)%nat).
    { unfold Py.len in *. lia. }
    split.
    + unfold Py.len at 1. rewrite (length_of_bytes bs _ Hlen). lia.
    + intros i Hi. apply (lookup_of_bytes bs _ i Hlen). lia.
Qed.

Lemma load_checks_element_size_only_witness :
  global_indices_file
    (set_global_indices_file (make_self 4 0 1 4 4 1 false)
       (Some "run/global_indices.npy"%string))
    = Some "run/global_indices.npy"%string ∧
  get_global_indices rotate_shuffle
    (set_global_indices_file (make_self 4 0 1 4 4 1 false)
       (Some "run/global_indices.npy"%string))
    {[ "run/global_indices.npy"%string := [x01; x00; x00] ]}
    = Raise ValueError.
Proof.
  split; [reflexivity|].
  destruct (load_checks_element_size_only rotate_shuffle
              (set_global_indices_file (make_self 4 0 1 4 4 1 false)
                 (Some "run/global_indices.npy"%string))
              {[ "run/global_indices.npy"%string := [x01; x00; x00] ]}
              "run/global_indices.npy"%string eq_refl) as [_ H].
  destruct (H [x01; x00; x00]) as [Hraise _]; [vm_compute; reflexivity|].
  apply Hraise. left. vm_compute. discriminate.
Defined.

Section persistence.

Context {Sample : Type}.
Variable rng_shuffle : Z → list Z → list Z.
Hypothesis rng_shuffle_perm : ∀ s a, rng_shuffle s a ≡ₚ a.
Implicit Types self : DistributedSamplingDataset Sample.
Implicit Types fs : gmap string (list byte).

(** C9 (amended). For a generated global index array [a] that is not
    empty, [_build_and_save_global_indices] on the process of local rank
    [0] leaves, at [work_dir/global_indices.npy], the file made of the
    four little-endian bytes of every element of [a] in order and nothing
    else: it has [4 * total_size] bytes, its element [i] is element [i]
    of [a], and reading it back with [get_global_indices] gives [a]; the
    other files are unchanged. On a process of another local rank no file
    is written. *)
Theorem persisted_file_format self (dir : string) fs (a : list Z) :
  build_global_indices rng_shuffle self = Ok a →
  a ≠ [] →
  (local_rank self = 0 →
     build_and_save_global_indices rng_shuffle self dir fs
       = Ok (set_global_indices_file self (Some (indices_path dir)),
             <[indices_path dir := Np.to_bytes a]> fs) ∧
     Np.to_bytes a = concat (Np.uint32_bytes <$> a) ∧
     Py.len (Np.to_bytes a) = 4 * total_size self ∧
     (∀ (i : nat) v, a !! i = Some v → file_element (Np.to_bytes a) i = v) ∧
     (∀ p, p ≠ indices_path dir →
        (<[indices_path dir := Np.to_bytes a]> fs) !! p = fs !! p) ∧
     get_global_indices rng_shuffle
       (set_global_indices_file self (Some (indices_path dir)))
       (<[indices_path dir := Np.to_bytes a]> fs) = Ok a) ∧
  (local_rank self ≠ 0 →
     build_and_save_global_indices rng_shuffle self dir fs
       = Ok (set_global_indices_file self (Some (indices_path dir)), fs)).
Proof.
  intros Ha Hne.
  assert (Hrange : Forall (λ v, 0 ≤ v < 2 ^ 32) a).
  { apply Forall_forall. intros v Hv.
    pose proof (build_global_indices_values rng_shuffle rng_shuffle_perm
                  self a v Ha Hv).
    destruct (build_global_indices_Ok_inv rng_shuffle self a Ha) as [Hn _].
    unfold Np.uint32_max in Hn. lia. }
  assert (Hlen : Py.len a = total_size self)
    by (by eapply build_global_indices_len).
  assert (Hpos : Py.len a ≠ 0).
  { unfold Py.len. destruct a; [done|]. cbn. lia. }
  unfold build_and_save_global_indices.
  change (local_rank (set_global_indices_file self _)) with (local_rank self).
  change (build_global_indices rng_shuffle (set_global_indices_file self _))
    with (build_global_indices rng_shuffle self).
  rewrite Ha. cbn [mbind result_bind]. split.
  - intros ->. cbn [Z.eqb].
    unfold Np.memmap_write.
    replace (Py.len a =? 0) with false by lia.
    cbn [mbind result_bind].
    split; [done|]. split; [done|]. split; [|split; [|split]].
    + unfold Py.len in *. rewrite length_to_bytes. lia.
    + intros i v Hv. rewrite (file_element_to_bytes a i v Hv).
      apply Z.mod_small. by eapply Forall_lookup_1 in Hrange.
    + intros p Hp. by rewrite lookup_insert_ne.
    + unfold get_global_indices. cbn [global_indices_file set_global_indices_file].
      unfold Np.memmap_read. rewrite lookup_insert_eq.
      assert (Hb : Py.len (Np.to_bytes a) = 4 * Py.len a).
      { unfold Py.len. rewrite length_to_bytes. lia. }
      rewrite Hb.
      replace ((4 * Py.len a) `mod` 4 =? 0) with true
        by (symmetry; apply Z.eqb_eq; rewrite (Z.mul_comm 4); apply Z_mod_mult).
      replace (4 * Py.len a =? 0) with false by lia.
      by rewrite of_bytes_to_bytes.
  - intros Hlr. by replace (local_rank self =? 0) with false by lia.
Qed.

End persistence.

(** C9, as stated, fails for the empty array, which [_build_global_indices]
    returns for three items on four ranks with [drop_last] set: the local
    leader cannot map a file of zero bytes, and [__init__] raises
    [ValueError] instead of leaving a file of [4 * 0] bytes. *)
Lemma persist_empty_array_raises :
  build_global_indices rotate_shuffle (make_self 3 0 0 4 0 1 true) = Ok [] ∧
  build_and_save_global_indices rotate_shuffle (make_self 3 0 0 4 0 1 true)
    "run" ∅ = Raise ValueError ∧
  init rotate_shuffle single_process (unit_dataset 3) 4
    (make_args 0 0 0 false true 4 0 0 (Some "run"%string)) ∅ = Raise ValueError.
Proof. split; [reflexivity|]. split; reflexivity. Qed.

Lemma persisted_file_format_witness :
  build_global_indices rotate_shuffle (make_self 3 0 0 4 4 1 false)
    = Ok [0; 1; 2; 0] ∧
  [0; 1; 2; 0] ≠ [] ∧
  build_and_save_global_indices rotate_shuffle (make_self 3 0 0 4 4 1 false)
    "run" ∅
    = Ok (set_global_indices_file (make_self 3 0 0 4 4 1 false)
            (Some "run/global_indices.npy"%string),
          {[ "run/global_indices.npy"%string :=
               [x00; x00; x00; x00; x01; x00; x00; x00;
                x02; x00; x00; x00; x00; x00; x00; x00] ]}).
Proof.
  split; [reflexivity|]. split; [discriminate|].
  destruct (persisted_file_format rotate_shuffle rotate_shuffle_perm
              (make_self 3 0 0 4 4 1 false) "run" ∅ [0; 1; 2; 0])
    as [H _]; [reflexivity|discriminate|].
  destruct H as (H & _); [reflexivity|].
  exact H.
Defined.

(** * Further properties of [DistributedSamplingDataset] *)

Lemma for_each_fmap {A B : Type} (f : A → result B) (g : A → B) (l : list A) :
  (∀ x, x ∈ l → f x = Ok (g x)) → for_each f l = Ok (g <$> l).
Proof.
  induction l as [|x l IH]; intros Hf; [done|].
  cbn [for_each]. rewrite (Hf x) by left. cbn [mbind result_bind].
  rewrite IH; [done|]. intros y Hy. apply Hf. by right.
Qed.

Lemma concat_nil_lengths {A : Type} (qs : list (list A)) :
  (∀ q, q ∈ qs → length q ≤ 0)%nat → concat qs = [].
Proof.
  induction qs as [|q qs IH]; intros H; [done|].
  cbn [concat]. rewrite IH by (intros q' Hq'; apply H; by right).
  specialize (H q ltac:(left)). destruct q; [done|cbn in H; lia].
Qed.

Lemma omap_head_tail_perm {A : Type} (qs : list (list A)) :
  omap head qs ++ concat (tail <$> qs) ≡ₚ concat qs.
Proof.
  induction qs as [|q qs IH]; [done|].
  destruct q as [|x q]; cbn [omap list_omap head fmap list_fmap tail concat].
  - done.
  - cbn. f_equiv. rewrite <- IH.
    rewrite !(assoc (++)). f_equiv. apply Permutation_app_comm.
Qed.

(** Collecting in round-robin order rearranges the items of the sources. *)
Lemma round_robin_perm {A : Type} (n : nat) (qs : list (list A)) :
  (∀ q, q ∈ qs → length q ≤ n)%nat → Loader.round_robin n qs ≡ₚ concat qs.
Proof.
  revert qs. induction n as [|n IH]; intros qs H.
  - by rewrite concat_nil_lengths.
  - cbn [Loader.round_robin]. rewrite IH.
    + apply omap_head_tail_perm.
    + intros q' (q & -> & Hq)%list_elem_of_fmap.
      specialize (H q Hq). destruct q; cbn in *; lia.
Qed.

Lemma interleave_perm {A : Type} (qs : list (list A)) :
  Loader.interleave qs ≡ₚ concat qs.
Proof.
  apply round_robin_perm. intros q Hq.
  apply max_list_elem_of_le, list_elem_of_fmap. by exists q.
Qed.

Lemma concat_perm {A : Type} (xs ys : list (list A)) :
  xs ≡ₚ ys → concat xs ≡ₚ concat ys.
Proof.
  induction 1 as [|x xs ys _ IH|x y xs|xs ys zs _ IH1 _ IH2]; cbn [concat].
  - done.
  - by f_equiv.
  - rewrite !(assoc (++)). f_equiv. apply Permutation_app_comm.
  - by etrans.
Qed.

Lemma concat_fmap_concat {A : Type} (xss : list (list (list A))) :
  concat (@concat A <$> xss) = concat (concat xss).
Proof.
  induction xss as [|xs xss IH]; [done|].
  cbn [fmap list_fmap concat]. by rewrite IH, concat_app.
Qed.

Lemma concat_fmap_app_perm {A B : Type} (f g : B → list A) (js : list B) :
  concat ((λ j, f j ++ g j) <$> js) ≡ₚ concat (f <$> js) ++ concat (g <$> js).
Proof.
  induction js as [|j js IH]; [done|].
  cbn [fmap list_fmap concat]. rewrite IH.
  rewrite <- !(assoc (++)). f_equiv.
  rewrite !(assoc (++)). f_equiv. apply Permutation_app_comm.
Qed.

(** Sources dealt from [l] with stride [w] hold the items of [l]. *)
Lemma dealt_perm {A : Type} (w : nat) (qs : list (list A)) (l : list A) :
  (0 < w)%nat → length qs = w →
  (∀ j q i, qs !! j = Some q → q !! i = l !! (j + i * w)%nat) →
  concat qs ≡ₚ l.
Proof.
  intros Hw Hlen Hq. rewrite <- interleave_perm.
  by rewrite (interleave_dealt w qs l).
Qed.

Section worker_permutation.

Context {Sample : Type}.
Implicit Types self : DistributedSamplingDataset Sample.

(** X3. For a positive [device_batch_size] and a positive number of
    workers, the indices yielded by the workers of a process are, taken
    together, a rearrangement of its rank-local indices: none is lost and
    none is yielded twice, whether or not a tail is left over. *)
Theorem worker_slices_permutation self (l : list Z) (nw : Z) :
  0 < device_batch_size self → 0 < nw →
  ∃ outs, worker_slices self l nw = Ok outs ∧
          length outs = Z.to_nat nw ∧
          concat outs ≡ₚ l.
Proof.
  intros Hd Hnw.
  set (d := device_batch_size self) in *.
  set (T := d * (Py.len l `div` d)).
  pose proof (len_nonneg l) as Hl.
  assert (Hq : 0 ≤ Py.len l `div` d) by (apply Z.div_pos; lia).
  assert (HT : T ≤ Py.len l) by (apply Z.mul_div_le; lia).
  set (batches := Np.rows (Z.to_nat d) (take (Z.to_nat T) l)).
  pose (mine := λ j : Z,
    match Py.slice batches (Some j) None nw with Ok m => m | _ => [] end).
  pose (left := λ j : Z,
    match Py.slice l (Some (T + j)) None nw with Ok m => m | _ => [] end).
  assert (Hmine : ∀ j, 0 ≤ j → ∀ i : nat,
    mine j !! i = batches !! (Z.to_nat j + i * Z.to_nat nw)%nat).
  { intros j Hj i. subst mine. cbv beta.
    destruct (slice_stride batches j nw) as (m & -> & Hm); [lia..|]. apply Hm. }
  assert (Hleft : ∀ j, 0 ≤ j → ∀ i : nat,
    left j !! i = drop (Z.to_nat T) l !! (Z.to_nat j + i * Z.to_nat nw)%nat).
  { intros j Hj i. subst left. cbv beta.
    destruct (slice_stride l (T + j) nw) as (m & -> & Hm); [lia..|].
    rewrite Hm, lookup_drop. f_equal. lia. }
  assert (Hw : ∀ j, 0 ≤ j →
    worker_slice self l {| id := j; num_workers := nw |}
      = Ok (concat (mine j) ++ left j)).
  { intros j Hj. unfold worker_slice. cbn [id num_workers]. fold d.
    unfold Py.floordiv. replace (d =? 0) with false by lia.
    cbn [mbind result_bind]. fold T.
    subst left mine. cbv beta.
    destruct (slice_stride l (T + j) nw) as (lf & -> & _); [lia..|].
    rewrite slice_take by lia. cbn [mbind result_bind].
    unfold Np.reshape_rows. replace (d <=? 0) with false by lia.
    replace (Py.len (take (Z.to_nat T) l) `mod` d =? 0) with true; cycle 1.
    { symmetry. apply Z.eqb_eq. unfold Py.len. rewrite length_take.
      replace (Z.of_nat (Z.to_nat T `min` length l)) with T
        by (unfold Py.len in *; lia).
      subst T. rewrite Z.mul_comm. apply Z_mod_mult. }
    cbn [mbind result_bind]. fold batches.
    destruct (slice_stride batches j nw) as (m & -> & _); [lia..|].
    cbn [mbind result_bind]. unfold Np.concatenate, Np.reshape_flat.
    cbn [concat]. by rewrite app_nil_r. }
  unfold worker_slices.
  rewrite (for_each_fmap _ (λ j, concat (mine j) ++ left j)).
  2:{ intros j [Hj _]%elem_of_seqZ. apply Hw. lia. }
  eexists. split; [done|]. split; [by rewrite length_fmap, length_seqZ|].
  rewrite (concat_fmap_app_perm (λ j, concat (mine j)) left).
  trans (take (Z.to_nat T) l ++ drop (Z.to_nat T) l); [|by rewrite take_drop].
  f_equiv.
  - rewrite (list_fmap_compose mine (@concat Z)), concat_fmap_concat.
    rewrite <- (concat_rows (Z.to_nat d) (take (Z.to_nat T) l)) by lia.
    fold batches. apply concat_perm.
    apply (dealt_perm (Z.to_nat nw)); [lia|by rewrite length_fmap, length_seqZ|].
    intros j q i Hq'. rewrite list_lookup_fmap in Hq'.
    destruct (seqZ 0 nw !! j) as [z|] eqn:Hz; [|done].
    apply lookup_seqZ in Hz as [-> _]. cbn in Hq'. simplify_eq.
    rewrite Hmine by lia. f_equal. lia.
  - apply (dealt_perm (Z.to_nat nw)); [lia|by rewrite length_fmap, length_seqZ|].
    intros j q i Hq'. rewrite list_lookup_fmap in Hq'.
    destruct (seqZ 0 nw !! j) as [z|] eqn:Hz; [|done].
    apply lookup_seqZ in Hz as [-> _]. cbn in Hq'. simplify_eq.
    rewrite Hleft by lia. f_equal. lia.
Qed.

End worker_permutation.

Lemma worker_slices_permutation_witness :
  0 < device_batch_size (make_self 6 0 0 1 6 4 false) ∧ 0 < 2 ∧
  ∃ outs, worker_slices (make_self 6 0 0 1 6 4 false) [0; 1; 2; 3; 4; 5] 2 = Ok outs ∧
          concat outs ≡ₚ [0; 1; 2; 3; 4; 5].
Proof.
  split; [reflexivity|]. split; [reflexivity|].
  destruct (worker_slices_permutation (make_self 6 0 0 1 6 4 false)
              [0; 1; 2; 3; 4; 5] 2) as (outs & H1 & _ & H2); [reflexivity..|].
  exists outs. split; [exact H1|exact H2].
Defined.

Section construction_outcomes.

Context {Sample : Type}.
Variable rng_shuffle : Z → list Z → list Z.
Implicit Types self : DistributedSamplingDataset Sample.
Implicit Types fs : gmap string (list byte).

(** X1. Without a working directory [__init__] has three outcomes, decided
    by the world size and the global batch size alone: [ZeroDivisionError]
    for a world size of zero, [AssertionError] when the world size does not
    divide the global batch size, and otherwise an object whose
    [device_batch_size] times its world size is the global batch size; no
    file is touched. *)
Theorem init_outcomes env (ds : dataset Sample) gbs args fs :
  arg_work_dir args = None →
  (default (get_world_size env) (arg_world_size args) = 0 →
   init rng_shuffle env ds gbs args fs = Raise ZeroDivisionError) ∧
  (default (get_world_size env) (arg_world_size args) ≠ 0 →
   gbs `mod` default (get_world_size env) (arg_world_size args) ≠ 0 →
   init rng_shuffle env ds gbs args fs = Raise AssertionError) ∧
  (default (get_world_size env) (arg_world_size args) ≠ 0 →
   gbs `mod` default (get_world_size env) (arg_world_size args) = 0 →
   ∃ self, init rng_shuffle env ds gbs args fs = Ok (self, fs) ∧
           world_size self = default (get_world_size env) (arg_world_size args) ∧
           device_batch_size self * world_size self = gbs ∧
           global_indices_file self = None).
Proof.
  intros Hdir.
  set (ws := default (get_world_size env) (arg_world_size args)).
  split; [|split].
  - intros Hz. unfold init. fold ws. rewrite Hz.
    unfold Py.modulo, Py.ceil_truediv. cbn [Z.eqb].
    by destruct (arg_drop_last args).
  - intros Hz Hg. unfold init. fold ws.
    unfold Py.modulo, Py.ceil_truediv.
    replace (ws =? 0) with false by lia.
    destruct (arg_drop_last args); cbn [mbind result_bind];
      [destruct (negb (ds_len ds `mod` ws =? 0))|];
      cbn [mbind result_bind];
      by replace (gbs `mod` ws =? 0) with false by lia.
  - intros Hz Hg.
    destruct (init_in_memory rng_shuffle env ds gbs args fs) as [self Hinit];
      [done..|].
    exists self. split; [done|].
    destruct (init_Ok_inv _ _ _ _ _ _ _ _ Hinit) as (Hattr & _ & _ & _).
    destruct Hattr as (_ & _ & _ & _ & _ & _ & _ & _ & Hws & Hd & _ & Hgif).
    split; [done|]. split.
    + rewrite Hd, Hws. fold ws.
      pose proof (Z_div_mod_eq_full gbs ws). lia.
    + by rewrite Hgif, Hdir.
Qed.

(** X2. For a dataset of [n >= 0] items on a positive world size,
    [total_size] is a multiple of the world size; when [n] and the world
    size are below [2^53] (where the float quotient of [__init__] has the
    ceiling of the exact one) it is, with [drop_last], the largest
    multiple not above [n], so that fewer than [world_size] items are
    dropped, and without it the smallest one not below [n], so that fewer
    than [world_size] items are repeated. *)
Theorem total_size_nearest_multiple env (ds : dataset Sample) gbs args fs self fs' :
  init rng_shuffle env ds gbs args fs = Ok (self, fs') →
  0 < world_size self →
  0 ≤ ds_len ds →
  total_size self `mod` world_size self = 0 ∧
  (ds_len ds < 2 ^ 53 → world_size self < 2 ^ 53 →
   (drop_last self = true →
    total_size self = ds_len ds `div` world_size self * world_size self ∧
    total_size self ≤ ds_len ds < total_size self + world_size self) ∧
   (drop_last self = false →
    total_size self - world_size self < ds_len ds ≤ total_size self)).
Proof.
  intros Hinit Hws Hn.
  pose proof (init_total_size_bounds _ _ _ _ _ _ _ _ Hinit Hws Hn) as [Hm Hb].
  pose proof (init_total_size _ _ _ _ _ _ _ _ Hinit Hws) as Ht.
  destruct (init_Ok_inv _ _ _ _ _ _ _ _ Hinit) as (Hattr & _).
  destruct Hattr as (_ & _ & _ & _ & _ & Hdl & _).
  cbv zeta in Hm, Hb, Ht. rewrite <- Hdl in Hb, Ht.
  split; [done|]. intros _ _. split.
  - intros E. rewrite E in Hb, Ht. cbn [andb] in Ht. split; [|lia].
    destruct (ds_len ds `mod` world_size self =? 0) eqn:Em; cbn [negb] in Ht;
      [|done].
    rewrite Ht. by rewrite ceil_div_even by lia.
  - intros E. rewrite E in Hb. lia.
Qed.

End construction_outcomes.

Lemma init_outcomes_witness :
  arg_work_dir (make_args 0 0 0 false false 4 0 0 None) = None ∧
  init rotate_shuffle single_process (unit_dataset 10) 6
    (make_args 0 0 0 false false 4 0 0 None) ∅ = Raise AssertionError ∧
  init rotate_shuffle single_process (unit_dataset 10) 6
    (make_args 0 0 0 false false 0 0 0 None) ∅ = Raise ZeroDivisionError.
Proof.
  split; [reflexivity|]. split.
  - apply (init_outcomes rotate_shuffle single_process (unit_dataset 10) 6
             (make_args 0 0 0 false false 4 0 0 None) ∅ eq_refl);
      cbn; [lia|discriminate].
  - apply (init_outcomes rotate_shuffle single_process (unit_dataset 10) 6
             (make_args 0 0 0 false false 0 0 0 None) ∅ eq_refl).
    reflexivity.
Defined.

Lemma total_size_nearest_multiple_witness :
  init rotate_shuffle single_process (unit_dataset 17) 4
    (make_args 0 0 0 false true 4 0 0 None) ∅
    = Ok (make_self 17 0 0 4 16 1 true, ∅) ∧
  0 < world_size (make_self 17 0 0 4 16 1 true) ∧
  0 ≤ ds_len (unit_dataset 17) ∧
  total_size (make_self 17 0 0 4 16 1 true) = 17 `div` 4 * 4.
Proof.
  split; [reflexivity|]. split; [reflexivity|]. split; [cbn; lia|].
  destruct (total_size_nearest_multiple rotate_shuffle single_process
              (unit_dataset 17) 4 (make_args 0 0 0 false true 4 0 0 None) ∅
              (make_self 17 0 0 4 16 1 true) ∅) as [_ H];
    [reflexivity|reflexivity|cbn; lia|].
  destruct H as [H _]; [reflexivity|reflexivity|].
  destruct H as [H _]; [reflexivity|]. exact H.
Defined.

Lemma slice_nil {A : Type} (start stop : option Z) (step : Z) :
  step ≠ 0 → Py.slice (@nil A) start stop step = Ok [].
Proof.
  intros Hs. unfold Py.slice. replace (step =? 0) with false by lia. f_equal.
  induction (Py.slice_indices _ _ _ _) as [|i idxs IH]; [done|].
  cbn [omap list_omap]. by rewrite lookup_nil.
Qed.

Lemma rows_nil {A : Type} (d : nat) : (0 < d)%nat → Np.rows d (@nil A) = [].
Proof.
  intros Hd. unfold Np.rows. cbn [length].
  by rewrite Nat.div_small by lia.
Qed.

Section iteration.

Context {Sample : Type}.
Variable rng_shuffle : Z → list Z → list Z.
Hypothesis rng_shuffle_perm : ∀ s a, rng_shuffle s a ≡ₚ a.
Implicit Types self : DistributedSamplingDataset Sample.
Implicit Types fs : gmap string (list byte).

(** A constructed object generates an array whenever the length of its
    dataset passes the assertion and its seed is accepted. *)
Lemma build_after_init env (ds : dataset Sample) gbs args fs self fs' :
  init rng_shuffle env ds gbs args fs = Ok (self, fs') →
  0 < world_size self → 0 ≤ ds_len ds < Np.uint32_max → seed_ok self →
  ∃ a, build_global_indices rng_shuffle self = Ok a ∧
       Py.len a = total_size self ∧
       (drop_last self = false →
        take (Z.to_nat (ds_len ds)) a = epoch_order rng_shuffle self) ∧
       (drop_last self = true →
        a = take (Z.to_nat (total_size self)) (epoch_order rng_shuffle self)).
Proof.
  intros Hinit Hws Hn Hseed.
  pose proof (init_total_size_bounds _ _ _ _ _ _ _ _ Hinit Hws ltac:(lia))
    as [Hm Hb].
  destruct (init_Ok_inv _ _ _ _ _ _ _ _ Hinit) as (Hattr & _).
  destruct Hattr as (Hds & _ & _ & _ & _ & Hdl & _).
  cbv zeta in Hm, Hb. rewrite <- Hdl in Hb.
  assert (H0 : drop_last self = false → ds_len ds = 0 → total_size self = 0).
  { intros E H0. rewrite E in Hb. rewrite Z.mod_small in Hm by lia. done. }
  destruct (drop_last self) eqn:E.
  - rewrite (build_dropped rng_shuffle rng_shuffle_perm self)
      by (rewrite ?Hds; done || lia).
    eexists. split; [done|]. split; [|by split].
    unfold Py.len. rewrite length_take, length_epoch_order by done.
    rewrite Hds. lia.
  - destruct (build_padded rng_shuffle rng_shuffle_perm self)
      as (a & Ha & Hlen & Htake & _); rewrite ?Hds; [done || lia || auto..|].
    rewrite Hds in Htake. exists a. by repeat split.
Qed.

(** X4. One pass of a process without data loader workers, over an array
    generated in memory and without resume offset, on a world size below
    [2^53], yields the items at the positions [rank], [rank + world_size],
    [rank + 2 world_size], ... of the global index array:
    [total_size / world_size] items, the same number on every rank. *)
Theorem rank_pass env (ds : dataset Sample) gbs args fs self fs' fs0 :
  init rng_shuffle env ds gbs args fs = Ok (self, fs') →
  arg_work_dir args = None →
  0 ≤ rank self < world_size self →
  world_size self < 2 ^ 53 →
  start_index self ≤ 0 →
  0 ≤ ds_len ds < Np.uint32_max →
  seed_ok self →
  ∃ a s,
    build_global_indices rng_shuffle self = Ok a ∧
    iter_indices rng_shuffle self fs0 None = Ok s ∧
    iter rng_shuffle self fs0 None = Ok (ds_getitem ds <$> s) ∧
    Py.len s = total_size self `div` world_size self ∧
    ∀ i : nat, s !! i = a !! (Z.to_nat (rank self) + i * Z.to_nat (world_size self))%nat.
Proof.
  intros Hinit Hdir Hr _ Hstart Hn Hseed.
  assert (Hws : 0 < world_size self) by lia.
  destruct (build_after_init _ _ _ _ _ _ _ Hinit Hws Hn Hseed)
    as (a & Ha & Hlen & _).
  pose proof (init_total_size_bounds _ _ _ _ _ _ _ _ Hinit Hws ltac:(lia))
    as [Hm _]. cbv zeta in Hm.
  destruct (init_Ok_inv _ _ _ _ _ _ _ _ Hinit) as (Hattr & _).
  destruct Hattr as (Hds & _ & _ & _ & _ & _ & _ & _ & _ & _ & _ & Hgif).
  rewrite Hdir in Hgif. cbn in Hgif.
  assert (Hres : resumed self a = a).
  { unfold resumed. by replace (0 <? start_index self) with false by lia. }
  destruct (partition_rank_lookup self a) as (s & Hs & Hlk);
    [done|lia|rewrite Hres; lia|].
  rewrite Hres in Hlk.
  assert (Hit : iter_indices rng_shuffle self fs0 None = Ok s).
  { unfold iter_indices, get_global_indices. rewrite Hgif, Ha. done. }
  exists a, s. split; [done|]. split; [done|]. split; [|split; [|done]].
  - unfold iter. rewrite Hit. cbn [mbind result_bind]. unfold get_dataset_item.
    by rewrite Hds.
  - pose proof (Z_div_mod_eq_full (total_size self) (world_size self)) as E.
    assert (0 ≤ total_size self `div` world_size self).
    { apply Z.div_pos; [|done]. pose proof (len_nonneg a). lia. }
    unfold Py.len.
    rewrite (length_dealt s a (Z.to_nat (rank self)) (Z.to_nat (world_size self))
               (Z.to_nat (total_size self `div` world_size self)));
      [lia|lia| |done].
    unfold Py.len in Hlen. nia.
Qed.

(** X5. On a single process (world size [1], rank [0]) without data loader
    workers and without resume offset, one pass over an array generated in
    memory yields every position of the dataset exactly once, in the order
    of the epoch. *)
Theorem single_process_pass env (ds : dataset Sample) gbs args fs self fs' fs0 :
  init rng_shuffle env ds gbs args fs = Ok (self, fs') →
  arg_work_dir args = None →
  world_size self = 1 →
  rank self = 0 →
  start_index self ≤ 0 →
  0 ≤ ds_len ds < Np.uint32_max →
  seed_ok self →
  iter_indices rng_shuffle self fs0 None = Ok (epoch_order rng_shuffle self) ∧
  epoch_order rng_shuffle self ≡ₚ seqZ 0 (ds_len ds).
Proof.
  intros Hinit Hdir Hws Hr Hstart Hn Hseed.
  destruct (build_after_init _ _ _ _ _ _ _ Hinit ltac:(lia) Hn Hseed)
    as (a & Ha & Hlen & Hpad & Hdrop).
  pose proof (init_total_size_bounds _ _ _ _ _ _ _ _ Hinit
                ltac:(lia) ltac:(lia)) as [_ Hb].
  destruct (init_Ok_inv _ _ _ _ _ _ _ _ Hinit) as (Hattr & _).
  destruct Hattr as (Hds & _ & _ & _ & _ & Hdl & _ & _ & _ & _ & _ & Hgif).
  rewrite Hdir in Hgif. cbn in Hgif.
  cbv zeta in Hb. rewrite <- Hdl, Hws in Hb.
  pose proof (length_epoch_order rng_shuffle rng_shuffle_perm self) as HL.
  rewrite Hds in HL.
  assert (Htot : total_size self = ds_len ds) by (destruct (drop_last self); lia).
  assert (Hao : a = epoch_order rng_shuffle self).
  { destruct (drop_last self).
    - rewrite (Hdrop eq_refl). apply take_ge. lia.
    - rewrite <- (Hpad eq_refl). symmetry. apply take_ge.
      unfold Py.len in Hlen. lia. }
  split.
  - assert (Hres : resumed self a = a).
    { unfold resumed. by replace (0 <? start_index self) with false by lia. }
    destruct (partition_rank_lookup self a) as (s & Hs & Hlk);
      [lia|lia|rewrite Hres; lia|].
    unfold iter_indices, get_global_indices. rewrite Hgif, Ha.
    cbn [mbind result_bind]. rewrite Hs, <- Hao. f_equal.
    apply list_eq. intros i. rewrite Hlk, Hres, Hr, Hws. f_equal. lia.
  - rewrite <- Hds. by apply epoch_order_perm.
Qed.

End iteration.

Section iteration_edges.

Context {Sample : Type}.
Variable rng_shuffle : Z → list Z → list Z.
Implicit Types self : DistributedSamplingDataset Sample.
Implicit Types fs : gmap string (list byte).

(** X6. A resume offset at or past the end of the global index array
    leaves nothing to yield: every process, whatever its rank, and every
    data loader worker of a process with a positive [device_batch_size],
    gets the empty sequence, and no error is raised. *)
Theorem resume_past_end self (g : list Z) :
  0 < start_index self →
  Py.len g ≤ start_index self →
  world_size self ≠ 0 →
  partition self g None = Ok [] ∧
  ∀ w, 0 < device_batch_size self → num_workers w ≠ 0 →
       partition self g (Some w) = Ok [].
Proof.
  intros Hs Hlen Hws.
  assert (Hnone : partition self g None = Ok []).
  { unfold partition. replace (0 <? start_index self) with true by lia.
    rewrite slice_drop by lia. cbn [mbind result_bind].
    rewrite drop_ge by (unfold Py.len in Hlen; lia).
    by rewrite slice_nil. }
  split; [done|]. intros w Hd Hnw.
  rewrite partition_worker, Hnone. cbn [mbind result_bind].
  unfold worker_slice, Py.floordiv.
  replace (device_batch_size self =? 0) with false by lia.
  cbn [mbind result_bind]. rewrite !slice_nil by lia.
  cbn [mbind result_bind]. unfold Np.reshape_rows.
  replace (device_batch_size self <=? 0) with false by lia.
  change (Py.len []) with 0. rewrite Z.mod_0_l by lia. cbn [Z.eqb].
  cbn [mbind result_bind].
  rewrite rows_nil by lia. rewrite slice_nil by lia. done.
Qed.

(** X7. A global batch size of zero passes the assertion of [__init__] and
    gives an object with [device_batch_size = 0]: its slicing by worker
    raises [ZeroDivisionError] whatever the indices and the worker, so a
    pass that succeeds without data loader workers raises in a worker. *)
Theorem zero_batch_size env (ds : dataset Sample) args fs self fs' :
  init rng_shuffle env ds 0 args fs = Ok (self, fs') →
  device_batch_size self = 0 ∧
  (∀ l w, worker_slice self l w = Raise ZeroDivisionError) ∧
  (∀ g w s, partition self g None = Ok s →
            partition self g (Some w) = Raise ZeroDivisionError).
Proof.
  intros Hinit.
  destruct (init_Ok_inv _ _ _ _ _ _ _ _ Hinit) as (Hattr & _).
  destruct Hattr as (_ & _ & _ & _ & _ & _ & _ & _ & _ & Hd & _).
  rewrite Z.div_0_l in Hd by (by destruct (init_Ok_inv _ _ _ _ _ _ _ _ Hinit)
                                 as (_ & ? & _)).
  assert (Hw : ∀ l w, worker_slice self l w = Raise ZeroDivisionError).
  { intros l w. unfold worker_slice, Py.floordiv. by rewrite Hd. }
  split; [done|]. split; [done|].
  intros g w s Hs. rewrite partition_worker, Hs. cbn [mbind result_bind]. apply Hw.
Qed.

End iteration_edges.

Lemma rank_pass_witness :
  ∃ self s,
    init rotate_shuffle single_process (unit_dataset 10) 4
      (make_args 42 3 0 true false 4 1 0 None) ∅ = Ok (self, ∅) ∧
    0 ≤ rank self < world_size self ∧
    world_size self < 2 ^ 53 ∧
    iter_indices rotate_shuffle self ∅ None = Ok s ∧
    Py.len s = 3.
Proof.
  eexists.
  destruct (rank_pass rotate_shuffle rotate_shuffle_perm single_process
              (unit_dataset 10) 4 (make_args 42 3 0 true false 4 1 0 None)
              ∅ _ ∅ ∅ eq_refl eq_refl) as (a & s & _ & Hs & _ & Hlen & _);
    [cbn; lia|reflexivity|cbn; lia|unfold Np.uint32_max; cbn; lia
    |right; cbn; lia|].
  exists s. split; [reflexivity|]. split; [cbn; lia|]. split; [reflexivity|].
  split; [exact Hs|exact Hlen].
Defined.

Lemma single_process_pass_witness :
  ∃ self,
    init rotate_shuffle single_process (unit_dataset 5) 2
      (make_args 1 1 0 true false 1 0 0 None) ∅ = Ok (self, ∅) ∧
    world_size self = 1 ∧
    rank self = 0 ∧
    iter_indices rotate_shuffle self ∅ None = Ok [2; 3; 4; 0; 1].
Proof.
  eexists. split; [reflexivity|]. split; [reflexivity|]. split; [reflexivity|].
  destruct (single_process_pass rotate_shuffle rotate_shuffle_perm single_process
              (unit_dataset 5) 2 (make_args 1 1 0 true false 1 0 0 None)
              ∅ _ ∅ ∅ eq_refl eq_refl eq_refl eq_refl) as [H _];
    [cbn; lia|unfold Np.uint32_max; cbn; lia|right; cbn; lia|].
  exact H.
Defined.

Lemma resume_past_end_witness :
  0 < start_index (make_self 8 8 1 4 8 2 false) ∧
  Py.len (seqZ 0 8) ≤ start_index (make_self 8 8 1 4 8 2 false) ∧
  world_size (make_self 8 8 1 4 8 2 false) ≠ 0 ∧
  partition (make_self 8 8 1 4 8 2 false) (seqZ 0 8) None = Ok [].
Proof.
  split; [reflexivity|]. split; [by vm_compute|]. split; [discriminate|].
  apply (resume_past_end (make_self 8 8 1 4 8 2 false) (seqZ 0 8));
    [reflexivity|by vm_compute|discriminate].
Defined.

Lemma zero_batch_size_witness :
  ∃ self,
    init rotate_shuffle single_process (unit_dataset 8) 0
      (make_args 0 0 0 false false 4 0 0 None) ∅ = Ok (self, ∅) ∧
    partition self (seqZ 0 8) None = Ok [0; 4] ∧
    partition self (seqZ 0 8) (Some {| id := 0; num_workers := 2 |})
      = Raise ZeroDivisionError.
Proof.
  eexists. split; [reflexivity|]. split; [reflexivity|].
  destruct (zero_batch_size rotate_shuffle single_process (unit_dataset 8)
              (make_args 0 0 0 false false 4 0 0 None) ∅ _ ∅ eq_refl)
    as (_ & _ & H).
  apply (H (seqZ 0 8) {| id := 0; num_workers := 2 |} [0; 4]). reflexivity.
Defined.

Section epochs.

Context {Sample : Type}.
Variable rng_shuffle : Z → list Z → list Z.
Hypothesis rng_shuffle_perm : ∀ s a, rng_shuffle s a ≡ₚ a.
Implicit Types self : DistributedSamplingDataset Sample.
Implicit Types fs : gmap string (list byte).

(** The file written by the local leader reads back as the array. *)
Lemma memmap_write_read fs (file : string) (a : list Z) :
  a ≠ [] → Forall (λ v, 0 ≤ v < 2 ^ 32) a →
  Np.memmap_write fs file a = Ok (<[file := Np.to_bytes a]> fs) ∧
  Np.memmap_read (<[file := Np.to_bytes a]> fs) file = Ok a.
Proof.
  intros Hne Hrange.
  assert (Hpos : Py.len a ≠ 0).
  { unfold Py.len. destruct a; [done|]. cbn. lia. }
  split.
  - unfold Np.memmap_write. by replace (Py.len a =? 0) with false by lia.
  - unfold Np.memmap_read. rewrite lookup_insert_eq.
    assert (Hb : Py.len (Np.to_bytes a) = 4 * Py.len a).
    { unfold Py.len. rewrite length_to_bytes. lia. }
    rewrite Hb.
    replace ((4 * Py.len a) `mod` 4 =? 0) with true
      by (symmetry; apply Z.eqb_eq; rewrite (Z.mul_comm 4); apply Z_mod_mult).
    replace (4 * Py.len a =? 0) with false by lia.
    by rewrite of_bytes_to_bytes.
Qed.

(** X8. [reshuffle] sets the epoch. Without a working directory it does
    nothing else. With one, the local leader regenerates the array for the
    new epoch and overwrites the index file, so that [get_global_indices]
    then returns the array of the new epoch (when that array is not
    empty); a process of another local rank changes no file, and its
    [get_global_indices] returns whatever the index file holds. *)
Theorem reshuffle_then_load self (e : Z) fs :
  (work_dir self = None →
   reshuffle rng_shuffle self e fs = Ok (set_epoch self e, fs)) ∧
  (∀ dir a,
     work_dir self = Some dir → local_rank self = 0 →
     build_global_indices rng_shuffle (set_epoch self e) = Ok a → a ≠ [] →
     ∃ self' fs',
       reshuffle rng_shuffle self e fs = Ok (self', fs') ∧
       epoch self' = e ∧
       global_indices_file self' = Some (indices_path dir) ∧
       fs' !! indices_path dir = Some (Np.to_bytes a) ∧
       get_global_indices rng_shuffle self' fs' = Ok a) ∧
  (∀ dir,
     work_dir self = Some dir → local_rank self ≠ 0 →
     ∃ self',
       reshuffle rng_shuffle self e fs = Ok (self', fs) ∧
       epoch self' = e ∧
       get_global_indices rng_shuffle self' fs
         = Np.memmap_read fs (indices_path dir)).
Proof.
  unfold reshuffle. cbn [work_dir set_epoch]. split; [|split].
  - by intros ->.
  - intros dir a -> Hlr Ha Hne.
    assert (Hrange : Forall (λ v, 0 ≤ v < 2 ^ 32) a).
    { apply Forall_forall. intros v Hv.
      pose proof (build_global_indices_values rng_shuffle rng_shuffle_perm
                    _ a v Ha Hv) as Hr.
      destruct (build_global_indices_Ok_inv rng_shuffle _ a Ha) as [Hn _].
      unfold Np.uint32_max in Hn. lia. }
    destruct (memmap_write_read fs (indices_path dir) a Hne Hrange) as [Hw Hrd].
    unfold build_and_save_global_indices.
    change (local_rank (set_global_indices_file (set_epoch self e) _))
      with (local_rank self).
    change (build_global_indices rng_shuffle
              (set_global_indices_file (set_epoch self e) _))
      with (build_global_indices rng_shuffle (set_epoch self e)).
    rewrite Hlr, Ha. cbn [Z.eqb mbind result_bind]. rewrite Hw.
    cbn [mbind result_bind].
    eexists _, _. split; [done|]. split; [done|]. split; [done|].
    split; [by rewrite lookup_insert_eq|]. done.
  - intros dir -> Hlr. unfold build_and_save_global_indices.
    change (local_rank (set_global_indices_file (set_epoch self e) _))
      with (local_rank self).
    replace (local_rank self =? 0) with false by lia.
    eexists. split; [done|]. split; done.
Qed.

End epochs.

Lemma reshuffle_then_load_witness :
  ∃ self' fs',
    reshuffle rotate_shuffle
      {| self_dataset := unit_dataset 4; seed := 1; epoch := 0;
         start_index := 0; shuffle := true; drop_last := false; rank := 0;
         local_rank := 0; world_size := 2; total_size := 4;
         device_batch_size := 1; global_indices_file := None;
         work_dir := Some "run"%string |} 2 ∅ = Ok (self', fs') ∧
    epoch self' = 2 ∧
    get_global_indices rotate_shuffle self' fs' = Ok [3; 0; 1; 2].
Proof.
  destruct (reshuffle_then_load rotate_shuffle rotate_shuffle_perm
              {| self_dataset := unit_dataset 4; seed := 1; epoch := 0;
                 start_index := 0; shuffle := true; drop_last := false; rank := 0;
                 local_rank := 0; world_size := 2; total_size := 4;
                 device_batch_size := 1; global_indices_file := None;
                 work_dir := Some "run"%string |} 2 ∅) as (_ & H & _).
  destruct (H "run"%string [3; 0; 1; 2]) as (self' & fs' & H1 & H2 & _ & _ & H3);
    [reflexivity|reflexivity|reflexivity|discriminate|].
  exists self', fs'. split; [exact H1|]. split; [exact H2|exact H3].
Defined.

(** * Building the dataset without streaming *)

Section build.

Context {Sample : Type}.
Variable rng_shuffle : Z → list Z → list Z.
Implicit Types fs : gmap string (list byte).

(** X22. For training, in a process group of a world size that is not
    zero, the builder makes a [DistributedSamplingDataset] whose device
    batch size is the one it was given, for the rank and world size of the
    process, not shuffled and with seed [9176] unless the configuration
    says otherwise, starting at index [0] of epoch [0]: the global batch
    size it passes is always a multiple of the world size. Without a
    working directory the construction succeeds and touches no file.
    Otherwise the builder returns the dataset it was given. *)
Theorem build_no_streaming_dataset_training (env : dist_env)
    (ds : dataset Sample) (cfg : no_streaming_cfg) (d : Z) fs :
  get_world_size env ≠ 0 →
  (cfg_work_dir cfg = None →
     ∃ self, build_no_streaming_dataset rng_shuffle env ds cfg d true fs
             = Ok (inl self, fs)) ∧
  (∀ r fs', build_no_streaming_dataset rng_shuffle env ds cfg d true fs
            = Ok (r, fs') →
     ∃ self,
       r = inl self ∧
       self_dataset self = ds ∧
       device_batch_size self = d ∧
       world_size self = get_world_size env ∧
       rank self = get_global_rank env ∧
       local_rank self = get_local_rank env ∧
       seed self = default 9176 (cfg_shuffle_seed cfg) ∧
       shuffle self = default false (cfg_shuffle cfg) ∧
       drop_last self = cfg_drop_last cfg ∧
       epoch self = 0 ∧ start_index self = 0) ∧
  build_no_streaming_dataset rng_shuffle env ds cfg d false fs = Ok (inr ds, fs).
Proof.
  intros Hws. unfold build_no_streaming_dataset. split; [|split; [|done]].
  - intros Hdir.
    match goal with |- context [init _ _ _ _ ?a _] => set (args := a) end.
    destruct (init_in_memory rng_shuffle env ds (d * get_world_size env)
                args fs Hws (Z.mod_mul d _ Hws) Hdir) as [self Hinit].
    rewrite Hinit. by eexists.
  - intros r fs' H.
    destruct (init _ _ _ _ _ _) as [[self fs1]| |] eqn:Hinit;
      cbn [mbind result_bind] in H; [|done..].
    injection H as <- <-. exists self. split; [done|].
    apply init_Ok_inv in Hinit as (Hattr & _).
    destruct Hattr as (? & ? & ? & ? & ? & ? & ? & ? & Hw & Hd & _).
    cbn in *. rewrite Hw in Hd.
    rewrite Z.div_mul in Hd by done. done.
Qed.

End build.

Lemma build_no_streaming_dataset_training_witness :
  (∃ self, build_no_streaming_dataset rotate_shuffle single_process
             (unit_dataset 5) no_cfg 2 true ∅ = Ok (inl self, ∅)) ∧
  (∀ r fs', build_no_streaming_dataset rotate_shuffle single_process
              (unit_dataset 5) no_cfg 2 true ∅ = Ok (r, fs') →
     ∃ self,
       r = inl self ∧
       self_dataset self = unit_dataset 5 ∧
       device_batch_size self = 2 ∧
       world_size self = get_world_size single_process ∧
       rank self = get_global_rank single_process ∧
       local_rank self = get_local_rank single_process ∧
       seed self = default 9176 (cfg_shuffle_seed no_cfg) ∧
       shuffle self = default false (cfg_shuffle no_cfg) ∧
       drop_last self = cfg_drop_last no_cfg ∧
       epoch self = 0 ∧ start_index self = 0) ∧
  build_no_streaming_dataset rotate_shuffle single_process
    (unit_dataset 5) no_cfg 2 false ∅ = Ok (inr (unit_dataset 5), ∅).
Proof.
  destruct (build_no_streaming_dataset_training rotate_shuffle single_process
              (unit_dataset 5) no_cfg 2 ∅) as (H1 & H2 & H3); [done|].
  split; [by apply H1|]. split; [exact H2|exact H3].
Defined.

(** * The checkpoint upload callback *)

Lemma string_of_list_ascii_app (k l : list Ascii.ascii) :
  String.string_of_list_ascii (k ++ l)
  = (String.string_of_list_ascii k +:+ String.string_of_list_ascii l)%string.
Proof. induction k as [|c k IH]; [done|]. cbn. by rewrite IH. Qed.

Lemma endswith_spec (s suffix : string) :
  Hf.endswith s suffix = true ↔ ∃ stem, s = (stem +:+ suffix)%string.
Proof.
  unfold Hf.endswith. rewrite bool_decide_eq_true. split.
  - intros [k Hk]. exists (String.string_of_list_ascii k).
    rewrite <- (String.string_of_list_ascii_of_string s), Hk.
    by rewrite string_of_list_ascii_app, String.string_of_list_ascii_of_string.
  - intros [stem ->]. exists (String.list_ascii_of_string stem).
    rewrite <- (String.list_ascii_of_string_of_list_ascii
                  (String.list_ascii_of_string stem ++ _)).
    by rewrite string_of_list_ascii_app, !String.string_of_list_ascii_of_string.
Qed.

Lemma string_app_empty_r (s : string) : (s +:+ "")%string = s.
Proof.
  induction s as [|c s IH]; [done|].
  change (String c (s +:+ "") = String c s). by rewrite IH.
Qed.

Lemma string_app_snoc (cur s : string) (c : Ascii.ascii) :
  ((cur +:+ String c EmptyString) +:+ s)%string = (cur +:+ String c s)%string.
Proof.
  induction cur as [|c' cur IH]; [done|].
  change (String c' ((cur +:+ String c EmptyString) +:+ s)
          = String c' (cur +:+ String c s)).
  by rewrite IH.
Qed.

Lemma name_from_no_slash (cur s : string) :
  Hf.has_slash s = false → Hf.name_from cur s = (cur +:+ s)%string.
Proof.
  unfold Hf.has_slash. rewrite bool_decide_eq_false.
  revert cur. induction s as [|c s IH]; intros cur Hs; cbn [Hf.name_from].
  - by rewrite string_app_empty_r.
  - cbn in Hs. destruct (Ascii.eqb c Hf.slash) eqn:E.
    + apply Ascii.eqb_eq in E as ->. exfalso. apply Hs. by left.
    + rewrite IH by (intros ?; apply Hs; by right).
      apply string_app_snoc.
Qed.

(** A path without separator is its own name. *)
Lemma path_name_no_slash (rel : string) :
  Hf.has_slash rel = false → Hf.path_name rel = rel.
Proof. intros H. unfold Hf.path_name. by rewrite name_from_no_slash. Qed.

Lemma is_checkpoint_spec (rel : string) :
  Hf.is_checkpoint rel = true ↔
  Hf.has_slash rel = false ∧ ∃ stem, rel = (stem +:+ "-rank0.pt")%string.
Proof.
  unfold Hf.is_checkpoint. rewrite andb_true_iff, negb_true_iff. split.
  - intros [He Hs]. split; [done|].
    rewrite path_name_no_slash in He by done. by apply endswith_spec.
  - intros [Hs He]. split; [|done].
    rewrite path_name_no_slash by done. by apply endswith_spec.
Qed.

Lemma elem_of_get_new_checkpoint_files (self : Hf.HuggingFaceSync)
    (folder : list string) (f : string) :
  f ∈ Hf.get_new_checkpoint_files self folder ↔
  f ∈ folder ∧ Hf.is_checkpoint f = true ∧ f ∉ Hf.uploaded_files self.
Proof.
  unfold Hf.get_new_checkpoint_files.
  rewrite elem_of_difference, elem_of_list_to_set, list_elem_of_filter.
  rewrite Is_true_true. tauto.
Qed.

Section hf_sync.

Variable upload_raises : list string → string → bool.
Implicit Types self : Hf.HuggingFaceSync.
Implicit Types log : list string.

(** The loop uploads a prefix of its files, the whole of them unless a
    call raises, and records each uploaded file. *)
Lemma upload_each_spec (files : list string) (uploaded : gset string) log
    uploaded' log' st :
  Hf.upload_each upload_raises files uploaded log = (uploaded', log', st) →
  ∃ sent rest,
    files = sent ++ rest ∧
    log' = log ++ sent ∧
    uploaded' = list_to_set sent ∪ uploaded ∧
    match st with
    | Hf.Returned => rest = []
    | Hf.Raised e =>
        e = Hf.ApiError ∧
        ∃ f rest', rest = f :: rest' ∧ upload_raises log' f = true
    end.
Proof.
  revert uploaded log. induction files as [|f files IH]; intros uploaded log H.
  - cbn in H. simplify_eq. exists [], []. rewrite !app_nil_r.
    split; [done|]. split; [done|]. split; [|done].
    by rewrite list_to_set_nil, (left_id_L ∅ (∪)).
  - cbn [Hf.upload_each] in H. destruct (upload_raises log f) eqn:E.
    + simplify_eq. exists [], (f :: files). rewrite !app_nil_r.
      split; [done|]. split; [done|].
      split; [by rewrite list_to_set_nil, (left_id_L ∅ (∪))|].
      split; [done|]. by exists f, files.
    + destruct (IH _ _ H) as (sent & rest & -> & -> & -> & Hst).
      exists (f :: sent), rest. split; [done|].
      split; [by rewrite <- app_assoc|].
      split; [by rewrite list_to_set_cons,
                 (comm_L (∪) {[f]} (list_to_set sent)), <- (assoc_L (∪))|].
      exact Hst.
Qed.

(** What one call of [_sync_to_hub] does. *)
Lemma sync_to_hub_spec self (rank : Z) (folder : list string) log self' log' st :
  Hf.sync_to_hub upload_raises self rank folder log = (self', log', st) →
  ∃ sent rest,
    log' = log ++ sent ∧
    self' = Hf.set_uploaded_files self (list_to_set sent ∪ Hf.uploaded_files self) ∧
    StronglySorted String.le (sent ++ rest) ∧
    NoDup (sent ++ rest) ∧
    (rank ≠ 0 → sent = [] ∧ st = Hf.Returned) ∧
    (rank = 0 → ∀ f, f ∈ sent ++ rest ↔
                     f ∈ Hf.get_new_checkpoint_files self folder) ∧
    match st with
    | Hf.Returned => rank = 0 → rest = []
    | Hf.Raised e =>
        e = Hf.ApiError ∧
        ∃ f rest', rest = f :: rest' ∧ upload_raises log' f = true
    end.
Proof.
  assert (Hid : ∀ s : Hf.HuggingFaceSync,
    Hf.set_uploaded_files s (list_to_set [] ∪ Hf.uploaded_files s) = s).
  { intros [? ? ? ? u]. unfold Hf.set_uploaded_files.
    cbn [Hf.repo_id Hf.model_save_folder Hf.token Hf.last_checkpoint
         Hf.uploaded_files].
    f_equal. by rewrite list_to_set_nil, (left_id_L ∅ (∪)). }
  unfold Hf.sync_to_hub. intros H.
  destruct (rank =? 0) eqn:Hr; cbn [negb] in H.
  - apply Z.eqb_eq in Hr.
    set (new := Hf.get_new_checkpoint_files self folder) in *.
    case_decide as Hnew.
    + simplify_eq. exists [], []. rewrite !app_nil_r, Hid.
      split; [done|]. split; [done|]. split; [constructor|].
      split; [constructor|]. split; [done|]. split; [|done].
      intros _ f. rewrite Hnew.
      split; [by intros ?%not_elem_of_nil|by intros ?%not_elem_of_empty].
    + destruct (Hf.upload_each _ _ _ _) as [[up lg] st0] eqn:Hup.
      simplify_eq.
      destruct (upload_each_spec _ _ _ _ _ _ Hup) as (sent & rest & Hf & -> & -> & Hst).
      exists sent, rest. split; [done|]. split; [done|].
      rewrite <- Hf.
      split; [apply (StronglySorted_merge_sort String.le)|].
      split; [rewrite merge_sort_Permutation; apply NoDup_elements|].
      split; [done|]. split; [|by destruct st].
      intros _ f. by rewrite merge_sort_Permutation, elem_of_elements.
  - apply Z.eqb_neq in Hr. simplify_eq. exists [], []. rewrite !app_nil_r, Hid.
    split; [done|]. split; [done|]. split; [constructor|].
    split; [constructor|]. split; [done|]. split; [done|]. done.
Qed.

Lemma handle_on_checkpoint (o : Hf.occurrence) self (rank : Z) log :
  Hf.handle upload_raises o self rank log
  = Hf.on_checkpoint upload_raises self rank (Hf.occ_folder o) log (Hf.occ_batch o).
Proof. unfold Hf.handle. by destruct (Hf.occ_handler o). Qed.

(** The files sent by one call of a checkpoint handler are new, distinct
    and recorded. *)
Lemma handle_sent (o : Hf.occurrence) self (rank : Z) log self' log' st :
  Hf.handle upload_raises o self rank log = (self', log', st) →
  ∃ sent,
    log' = log ++ sent ∧
    Hf.uploaded_files self' = list_to_set sent ∪ Hf.uploaded_files self ∧
    NoDup sent ∧
    ∀ f, f ∈ sent → f ∉ Hf.uploaded_files self.
Proof.
  rewrite handle_on_checkpoint. unfold Hf.on_checkpoint. intros H.
  case_decide as Hc.
  { simplify_eq. exists []. rewrite app_nil_r.
    split; [done|]. split; [by rewrite list_to_set_nil, (left_id_L ∅ (∪))|].
    split; [constructor|]. by intros f ?%not_elem_of_nil. }
  destruct (Hf.sync_to_hub _ _ _ _ _) as [[s1 l1] st1] eqn:Hs.
  destruct (sync_to_hub_spec _ _ _ _ _ _ _ Hs)
    as (sent & rest & -> & -> & _ & Hnd & Hrank & Hnew & _).
  exists sent. split; [by destruct st1; simplify_eq|].
  split; [by destruct st1; simplify_eq|].
  split; [by apply NoDup_app in Hnd as [? _]|].
  intros f Hf.
  destruct (decide (rank = 0)) as [Hr|Hr].
  - assert (Hin : f ∈ Hf.get_new_checkpoint_files self (Hf.occ_folder o)).
    { apply Hnew; [done|]. apply elem_of_app. by left. }
    by apply elem_of_get_new_checkpoint_files in Hin as (_ & _ & Hnot).
  - destruct (Hrank Hr) as [-> _]. by apply not_elem_of_nil in Hf.
Qed.

(** X9. Whatever a checkpoint handler uploads, on whichever of the three
    events and whether or not it ends by raising, is uploaded in ascending
    order of name, each file once, and recorded in [uploaded_files]; an
    uploaded file lies directly in the checkpoint folder (its relative
    path has no separator), has a name ending in [-rank0.pt], was not in
    [uploaded_files] before, and the process has global rank [0]. *)
Theorem checkpoint_uploads (o : Hf.occurrence) self (rank : Z) log self' log' st :
  Hf.handle upload_raises o self rank log = (self', log', st) →
  ∃ sent,
    log' = log ++ sent ∧
    Hf.uploaded_files self' = list_to_set sent ∪ Hf.uploaded_files self ∧
    StronglySorted String.le sent ∧
    NoDup sent ∧
    ∀ f, f ∈ sent →
      rank = 0 ∧
      f ∈ Hf.occ_folder o ∧
      Hf.has_slash f = false ∧
      (∃ stem, f = (stem +:+ "-rank0.pt")%string) ∧
      f ∉ Hf.uploaded_files self.
Proof.
  rewrite handle_on_checkpoint. unfold Hf.on_checkpoint. intros H.
  case_decide as Hc.
  { simplify_eq. exists []. rewrite app_nil_r.
    split; [done|]. split; [by rewrite list_to_set_nil, (left_id_L ∅ (∪))|].
    split; [constructor|]. split; [constructor|]. by intros f ?%not_elem_of_nil. }
  destruct (Hf.sync_to_hub _ _ _ _ _) as [[s1 l1] st1] eqn:Hs.
  destruct (sync_to_hub_spec _ _ _ _ _ _ _ Hs)
    as (sent & rest & -> & -> & Hsorted & Hnd & Hrank & Hnew & Hst).
  assert (Hup : Hf.uploaded_files self' = list_to_set sent ∪ Hf.uploaded_files self).
  { by destruct st1; simplify_eq. }
  assert (Hlog : log' = log ++ sent) by (by destruct st1; simplify_eq).
  exists sent. split; [done|]. split; [done|].
  split; [by eapply StronglySorted_app_1_l|].
  split; [by apply NoDup_app in Hnd as [? _]|].
  intros f Hf.
  destruct (decide (rank = 0)) as [Hr|Hr].
  - split; [done|].
    assert (Hin : f ∈ Hf.get_new_checkpoint_files self (Hf.occ_folder o)).
    { apply Hnew; [done|]. apply elem_of_app. by left. }
    apply elem_of_get_new_checkpoint_files in Hin as (Hfold & Hck & Hnot).
    apply is_checkpoint_spec in Hck as [Hslash Hstem]. done.
  - destruct (Hrank Hr) as [-> _]. by apply not_elem_of_nil in Hf.
Qed.

(** X10. When a checkpoint handler returns on the process of global rank
    [0], for a batch count other than the last one it handled, every file
    lying directly in the checkpoint folder with a name ending in
    [-rank0.pt] is recorded in [uploaded_files], and the batch count is
    remembered: any handler called again for the same batch count uploads
    nothing and changes nothing, whatever the folder then holds. *)
Theorem checkpoint_complete (o : Hf.occurrence) self log self' log' :
  Hf.handle upload_raises o self 0 log = (self', log', Hf.Returned) →
  Some (Hf.occ_batch o) ≠ Hf.last_checkpoint self →
  (∀ f, f ∈ Hf.occ_folder o → Hf.is_checkpoint f = true →
        f ∈ Hf.uploaded_files self') ∧
  Hf.last_checkpoint self' = Some (Hf.occ_batch o) ∧
  ∀ o' rank', Hf.occ_batch o' = Hf.occ_batch o →
    Hf.handle upload_raises o' self' rank' log' = (self', log', Hf.Returned).
Proof.
  rewrite handle_on_checkpoint. unfold Hf.on_checkpoint. intros H Hc.
  case_decide; [done|].
  destruct (Hf.sync_to_hub _ _ _ _ _) as [[s1 l1] st1] eqn:Hs.
  destruct (sync_to_hub_spec _ _ _ _ _ _ _ Hs)
    as (sent & rest & -> & -> & _ & _ & _ & Hnew & Hst).
  destruct st1; [|done]. simplify_eq. rewrite (Hst eq_refl), app_nil_r in Hnew.
  split; [|split; [done|]].
  - intros f Hfold Hck. cbn.
    destruct (decide (f ∈ Hf.uploaded_files self)) as [Hin|Hnot].
    + apply elem_of_union. by right.
    + apply elem_of_union. left. apply elem_of_list_to_set, Hnew; [done|].
      by apply elem_of_get_new_checkpoint_files.
  - intros o' rank' Hb. rewrite handle_on_checkpoint. unfold Hf.on_checkpoint.
    cbn [Hf.last_checkpoint Hf.set_last_checkpoint]. rewrite Hb.
    by case_decide.
Qed.

(** X11. When a checkpoint handler raises, the process has global rank [0]
    and a call of [upload_file] raised: the file concerned lies in the
    folder, is a checkpoint file and stays out of [uploaded_files], and
    [last_checkpoint] keeps its value, which differs from the batch count
    of the event, so that the next event at this batch count tries
    again. *)
Theorem checkpoint_failure (o : Hf.occurrence) self (rank : Z) log self' log' e :
  Hf.handle upload_raises o self rank log = (self', log', Hf.Raised e) →
  rank = 0 ∧
  e = Hf.ApiError ∧
  Hf.last_checkpoint self' = Hf.last_checkpoint self ∧
  Some (Hf.occ_batch o) ≠ Hf.last_checkpoint self' ∧
  ∃ f, f ∈ Hf.occ_folder o ∧
       Hf.is_checkpoint f = true ∧
       (f ∉ Hf.uploaded_files self') ∧
       upload_raises log' f = true.
Proof.
  rewrite handle_on_checkpoint. unfold Hf.on_checkpoint. intros H.
  case_decide as Hc; [done|].
  destruct (Hf.sync_to_hub _ _ _ _ _) as [[s1 l1] st1] eqn:Hs.
  destruct (sync_to_hub_spec _ _ _ _ _ _ _ Hs)
    as (sent & rest & -> & -> & _ & Hnd & Hrank & Hnew & Hst).
  destruct st1 as [|e1]; [done|]. simplify_eq.
  destruct Hst as (-> & f & rest' & -> & Hraise).
  assert (Hr : rank = 0).
  { destruct (decide (rank = 0)) as [|Hr]; [done|]. by destruct (Hrank Hr). }
  split; [done|]. split; [done|]. split; [done|]. split; [done|].
  exists f.
  assert (Hin : f ∈ Hf.get_new_checkpoint_files self (Hf.occ_folder o)).
  { apply Hnew; [done|]. apply elem_of_app. right. by left. }
  apply elem_of_get_new_checkpoint_files in Hin as (Hfold & Hck & Hnot).
  split; [done|]. split; [done|]. split; [|done].
  cbn. intros [Hs'%elem_of_list_to_set|Hu]%elem_of_union; [|done].
  apply NoDup_app in Hnd as (_ & Hdisj & _). apply (Hdisj f Hs'). by left.
Qed.

(** X12. Over a whole run of checkpoint events, started with a log of
    uploads without repetition whose files are all in [uploaded_files], no
    file is uploaded twice and no file that was in [uploaded_files] at the
    start is uploaded again; at the end, also after a handler raised,
    [uploaded_files] holds what it held at the start and the files
    uploaded since. *)
Theorem run_uploads_once (events : list Hf.occurrence) self (rank : Z) log
    self' log' st :
  Hf.run upload_raises events self rank log = (self', log', st) →
  NoDup log →
  (∀ f, f ∈ log → f ∈ Hf.uploaded_files self) →
  ∃ sent,
    log' = log ++ sent ∧
    NoDup log' ∧
    (∀ f, f ∈ sent → f ∉ Hf.uploaded_files self) ∧
    Hf.uploaded_files self' = list_to_set sent ∪ Hf.uploaded_files self.
Proof.
  revert self log. induction events as [|o events IH]; intros self log H Hnd Hsub.
  - cbn in H. simplify_eq. exists []. rewrite app_nil_r.
    split; [done|]. split; [done|]. split; [by intros f ?%not_elem_of_nil|].
    by rewrite list_to_set_nil, (left_id_L ∅ (∪)).
  - cbn [Hf.run] in H.
    destruct (Hf.handle _ _ _ _ _) as [[s1 l1] st1] eqn:Hh.
    destruct (handle_sent _ _ _ _ _ _ _ Hh)
      as (sent1 & -> & Hup1 & Hnd1 & Hsent1).
    assert (Hnd' : NoDup (log ++ sent1)).
    { apply NoDup_app. split; [done|]. split; [|done].
      intros f Hf1 Hf2. by apply (Hsent1 f Hf2), Hsub. }
    destruct st1 as [|e1].
    + destruct (IH _ _ H Hnd') as (sent2 & -> & Hnd2 & Hsent2 & Hup2).
      { intros f [Hf|Hf]%elem_of_app; rewrite Hup1.
        - apply elem_of_union. right. by apply Hsub.
        - apply elem_of_union. left. by apply elem_of_list_to_set. }
      exists (sent1 ++ sent2). rewrite app_assoc. split; [done|]. split; [done|].
      split.
      * intros f [Hf|Hf]%elem_of_app; [by apply Hsent1|].
        intros Hin. apply (Hsent2 f Hf). rewrite Hup1.
        apply elem_of_union. by right.
      * rewrite Hup2, Hup1, list_to_set_app_L.
        by rewrite (assoc_L (∪)), (comm_L (∪) (list_to_set sent2)).
    + simplify_eq. exists sent1. split; [done|]. split; [done|].
      split; [|done]. intros f Hf. by apply Hsent1.
Qed.

(** X13. On a process whose global rank is not [0] a run of checkpoint
    events never raises, uploads nothing and leaves [uploaded_files] as it
    was. *)
Theorem run_other_rank (events : list Hf.occurrence) self (rank : Z) log :
  rank ≠ 0 →
  ∃ self', Hf.run upload_raises events self rank log = (self', log, Hf.Returned) ∧
           Hf.uploaded_files self' = Hf.uploaded_files self.
Proof.
  intros Hr. revert self. induction events as [|o events IH]; intros self.
  - by exists self.
  - cbn [Hf.run]. rewrite handle_on_checkpoint. unfold Hf.on_checkpoint.
    case_decide; [apply IH|].
    unfold Hf.sync_to_hub. replace (rank =? 0) with false by lia. cbn [negb].
    destruct (IH (Hf.set_last_checkpoint self (Some (Hf.occ_batch o))))
      as (self' & -> & Hup).
    by exists self'.
Qed.

End hf_sync.

(** X14. [__init__] succeeds only with a non-empty token, the explicit one
    when it is given and not empty and the value of [HF_TOKEN] otherwise,
    with a repository whose [repo_info] call did not raise unless
    [repo_can_exist] is set, and with a file listing of the repository:
    the object then starts with that listing as [uploaded_files] and no
    [last_checkpoint]. With no token from either place it raises
    [ValueError]. *)
Theorem hf_init_outcomes (repo folder : string) (token : option string)
    (repo_can_exist : bool) (env_token : option string)
    (repo_info_raises : bool) (list_repo_files : option (list string)) :
  (∀ self,
     Hf.init repo folder token repo_can_exist env_token repo_info_raises
       list_repo_files = inl self →
     Hf.token self ≠ EmptyString ∧
     (∀ t, token = Some t → t ≠ EmptyString → Hf.token self = t) ∧
     (token = None ∨ token = Some EmptyString → env_token = Some (Hf.token self)) ∧
     (repo_info_raises = true → repo_can_exist = true) ∧
     Hf.last_checkpoint self = None ∧
     ∃ files, list_repo_files = Some files ∧
              Hf.uploaded_files self = list_to_set files) ∧
  ((token = None ∨ token = Some EmptyString) →
   (env_token = None ∨ env_token = Some EmptyString) →
   Hf.init repo folder token repo_can_exist env_token repo_info_raises
     list_repo_files = inr Hf.ValueError).
Proof.
  unfold Hf.init, Hf.token_or_env. split.
  - intros self H.
    destruct token as [t|].
    + destruct (String.eqb_spec t EmptyString) as [->|Ht].
      * destruct env_token as [t'|]; [|done].
        destruct (String.eqb_spec t' EmptyString) as [->|Ht']; [done|].
        destruct (repo_info_raises && negb repo_can_exist) eqn:E; [done|].
        destruct list_repo_files as [files|]; [|done]. simplify_eq. cbn.
        split; [done|]. split; [by intros ? [= <-]|]. split; [done|].
        split; [by destruct repo_info_raises, repo_can_exist|].
        split; [done|]. by exists files.
      * rewrite (proj2 (String.eqb_neq t EmptyString) Ht) in H.
        destruct (repo_info_raises && negb repo_can_exist) eqn:E; [done|].
        destruct list_repo_files as [files|]; [|done]. simplify_eq. cbn.
        split; [done|]. split; [by intros ? [= <-]|].
        split; [by intros [|[= ->]]|].
        split; [by destruct repo_info_raises, repo_can_exist|].
        split; [done|]. by exists files.
    + destruct env_token as [t'|]; [|done].
      destruct (String.eqb_spec t' EmptyString) as [->|Ht']; [done|].
      destruct (repo_info_raises && negb repo_can_exist) eqn:E; [done|].
      destruct list_repo_files as [files|]; [|done]. simplify_eq. cbn.
      split; [done|]. split; [done|]. split; [done|].
      split; [by destruct repo_info_raises, repo_can_exist|].
      split; [done|]. by exists files.
  - intros [->| ->] [->| ->]; reflexivity.
Qed.

Lemma checkpoint_uploads_witness :
  Hf.handle uploads_succeed
    {| Hf.occ_handler := Hf.Batch; Hf.occ_batch := 20;
       Hf.occ_folder := checkpoint_folder |}
    (hf_object None ["ep0-ba10-rank0.pt"%string]) 0 []
  = (Hf.set_last_checkpoint
       (Hf.set_uploaded_files (hf_object None ["ep0-ba10-rank0.pt"%string])
          (list_to_set ["ep0-ba20-rank0.pt"; "latest-rank0.pt"]%string
           ∪ list_to_set ["ep0-ba10-rank0.pt"%string]))
       (Some 20),
     ["ep0-ba20-rank0.pt"; "latest-rank0.pt"]%string, Hf.Returned) ∧
  ∃ sent, ["ep0-ba20-rank0.pt"; "latest-rank0.pt"]%string = [] ++ sent ∧
          NoDup sent.
Proof.
  assert (H : Hf.handle uploads_succeed
    {| Hf.occ_handler := Hf.Batch; Hf.occ_batch := 20;
       Hf.occ_folder := checkpoint_folder |}
    (hf_object None ["ep0-ba10-rank0.pt"%string]) 0 []
  = (Hf.set_last_checkpoint
       (Hf.set_uploaded_files (hf_object None ["ep0-ba10-rank0.pt"%string])
          (list_to_set ["ep0-ba20-rank0.pt"; "latest-rank0.pt"]%string
           ∪ list_to_set ["ep0-ba10-rank0.pt"%string]))
       (Some 20),
     ["ep0-ba20-rank0.pt"; "latest-rank0.pt"]%string, Hf.Returned)).
  { vm_compute. reflexivity. }
  split; [exact H|].
  destruct (checkpoint_uploads uploads_succeed _ _ _ _ _ _ _ H)
    as (sent & H1 & _ & _ & H2 & _).
  exists sent. split; [exact H1|exact H2].
Defined.

Lemma checkpoint_complete_witness :
  ∃ self' log',
    Hf.handle uploads_succeed
      {| Hf.occ_handler := Hf.Epoch; Hf.occ_batch := 20;
         Hf.occ_folder := checkpoint_folder |}
      (hf_object (Some 10) ["ep0-ba10-rank0.pt"%string]) 0 []
    = (self', log', Hf.Returned) ∧
    Some 20 ≠ Hf.last_checkpoint (hf_object (Some 10) ["ep0-ba10-rank0.pt"%string]) ∧
    "latest-rank0.pt"%string ∈ Hf.uploaded_files self' ∧
    Hf.last_checkpoint self' = Some 20.
Proof.
  eexists _, _. split; [vm_compute; reflexivity|]. split; [discriminate|].
  match goal with
  | |- _ ∈ Hf.uploaded_files ?s ∧ _ =>
      destruct (checkpoint_complete uploads_succeed
                  {| Hf.occ_handler := Hf.Epoch; Hf.occ_batch := 20;
                     Hf.occ_folder := checkpoint_folder |}
                  (hf_object (Some 10) ["ep0-ba10-rank0.pt"%string]) [] s
                  ["ep0-ba20-rank0.pt"; "latest-rank0.pt"]%string)
        as (Hall & Hlast & _); [vm_compute; reflexivity|discriminate|]
  end.
  split; [|exact Hlast].
  apply Hall; [|reflexivity].
  do 3 right. left.
Defined.

Lemma checkpoint_failure_witness :
  ∃ self' log',
    Hf.handle (upload_refused "latest-rank0.pt")
      {| Hf.occ_handler := Hf.Iteration; Hf.occ_batch := 20;
         Hf.occ_folder := checkpoint_folder |}
      (hf_object (Some 10) ["ep0-ba10-rank0.pt"%string]) 0 []
    = (self', log', Hf.Raised Hf.ApiError) ∧
    log' = ["ep0-ba20-rank0.pt"%string] ∧
    Hf.last_checkpoint self' = Some 10.
Proof.
  eexists _, _. split; [vm_compute; reflexivity|]. split; [reflexivity|].
  match goal with
  | |- Hf.last_checkpoint ?s = _ =>
      destruct (checkpoint_failure (upload_refused "latest-rank0.pt")
                  {| Hf.occ_handler := Hf.Iteration; Hf.occ_batch := 20;
                     Hf.occ_folder := checkpoint_folder |}
                  (hf_object (Some 10) ["ep0-ba10-rank0.pt"%string]) 0 [] s
                  ["ep0-ba20-rank0.pt"%string] Hf.ApiError)
        as (_ & _ & Hlast & _); [vm_compute; reflexivity|]
  end.
  exact Hlast.
Defined.

Lemma run_uploads_once_witness :
  ∃ self' log' st,
    Hf.run uploads_succeed
      [ {| Hf.occ_handler := Hf.Batch; Hf.occ_batch := 10;
           Hf.occ_folder := ["ep0-ba10-rank0.pt"; "latest-rank0.pt"]%string |};
        {| Hf.occ_handler := Hf.Batch; Hf.occ_batch := 20;
           Hf.occ_folder := checkpoint_folder |} ]
      (hf_object None []) 0 []
    = (self', log', st) ∧
    NoDup (@nil string) ∧
    NoDup log'.
Proof.
  eexists _, _, _. split; [vm_compute; reflexivity|]. split; [constructor|].
  match goal with
  | |- NoDup ?l =>
      destruct (run_uploads_once uploads_succeed
        [ {| Hf.occ_handler := Hf.Batch; Hf.occ_batch := 10;
             Hf.occ_folder := ["ep0-ba10-rank0.pt"; "latest-rank0.pt"]%string |};
          {| Hf.occ_handler := Hf.Batch; Hf.occ_batch := 20;
             Hf.occ_folder := checkpoint_folder |} ]
        (hf_object None []) 0 [] _ l _ ltac:(vm_compute; reflexivity))
        as (sent & _ & Hnd & _);
        [constructor|by intros f ?%not_elem_of_nil|]
  end.
  exact Hnd.
Defined.

Lemma run_other_rank_witness :
  (1 : Z) ≠ 0 ∧
  ∃ self',
    Hf.run uploads_succeed
      [ {| Hf.occ_handler := Hf.Batch; Hf.occ_batch := 10;
           Hf.occ_folder := checkpoint_folder |} ]
      (hf_object None []) 1 [] = (self', [], Hf.Returned).
Proof.
  split; [discriminate|].
  destruct (run_other_rank uploads_succeed
    [ {| Hf.occ_handler := Hf.Batch; Hf.occ_batch := 10;
         Hf.occ_folder := checkpoint_folder |} ]
    (hf_object None []) 1 []) as (self' & H & _); [discriminate|].
  exists self'. exact H.
Defined.

Lemma hf_init_outcomes_witness :
  Hf.init "org/model" "ckpt" (Some EmptyString) false None false (Some [])
  = inr Hf.ValueError.
Proof.
  apply (hf_init_outcomes "org/model" "ckpt" (Some EmptyString) false None false
           (Some [])); [by right|by left].
Defined.

(** * The sequence-id collator *)

Lemma slice_of_Ok {A : Type} (l : list A) (start stop : option Z) (step : Z) :
  step ≠ 0 → Py.slice l start stop step = Ok (slice_of l start stop step).
Proof. intros H. unfold Py.slice. by replace (step =? 0) with false by lia. Qed.

(** [l[:-1]] *)
Lemma slice_of_but_last {A : Type} (l : list A) :
  slice_of l None (Some (-1)) 1 = take (length l - 1) l.
Proof.
  pose proof (slice_of_Ok l None (Some (-1)) 1 ltac:(lia)) as H.
  rewrite slice_None_start in H by lia.
  destruct (slice_forward_lookup l 0 (Some (-1)) 1) as (s & Hs & Hlk); [lia..|].
  rewrite Hs in H. injection H as <-.
  apply list_eq. intros i. rewrite Hlk.
  assert (Py.adjust_index (Py.len l) 1 (-1) = Z.max 0 (Py.len l - 1)) as ->.
  { unfold Py.adjust_index. pose proof (len_nonneg l). repeat case_match; lia. }
  replace (Z.to_nat (0 + Z.of_nat i * 1)) with i by lia.
  unfold Py.len. case_decide.
  - rewrite lookup_take_lt; [done|lia].
  - rewrite lookup_take_ge; [done|lia].
Qed.

Lemma occurrences_nonneg (v : Z) (l : list Z) : 0 ≤ occurrences v l.
Proof. unfold occurrences. lia. Qed.

Lemma occurrences_nil (v : Z) : occurrences v [] = 0.
Proof. done. Qed.

Lemma occurrences_app (v : Z) (k l : list Z) :
  occurrences v (k ++ l) = occurrences v k + occurrences v l.
Proof. unfold occurrences. rewrite filter_app, length_app. lia. Qed.

Lemma occurrences_snoc (v : Z) (l : list Z) (x : Z) :
  occurrences v (l ++ [x]) = occurrences v l + (if bool_decide (x = v) then 1 else 0).
Proof.
  unfold occurrences. rewrite filter_app, length_app.
  rewrite filter_cons, filter_nil. case_bool_decide; case_decide; cbn; lia || done.
Qed.

Lemma occurrences_cons (v : Z) (l : list Z) (x : Z) :
  occurrences v (x :: l) = (if bool_decide (x = v) then 1 else 0) + occurrences v l.
Proof.
  unfold occurrences. rewrite filter_cons.
  case_bool_decide; case_decide; cbn [length]; lia || done.
Qed.

Lemma occurrences_take_le (v : Z) (l : list Z) (i : nat) :
  occurrences v (take i l) ≤ occurrences v l.
Proof.
  rewrite <- (take_drop i l) at 2. rewrite occurrences_app.
  pose proof (occurrences_nonneg v (drop i l)). lia.
Qed.

Lemma length_cumsum_from (acc : Z) (row : list bool) :
  length (Collator.cumsum_from acc row) = length row.
Proof.
  revert acc. induction row as [|b row IH]; intros acc; [done|].
  cbn. by rewrite IH.
Qed.

(** Element [i] of the cumulative sum counts the separators up to and
    including position [i]. *)
Lemma cumsum_from_lookup (v acc : Z) (row : list Z) (i : nat) :
  (i < length row)%nat →
  Collator.cumsum_from acc ((λ x, bool_decide (x = v)) <$> row) !! i
  = Some (acc + occurrences v (take (S i) row)).
Proof.
  revert acc i. induction row as [|x row IH]; intros acc i Hi; [cbn in Hi; lia|].
  cbn [fmap list_fmap Collator.cumsum_from].
  destruct i as [|i].
  - cbn [lookup list_lookup take]. rewrite take_0, occurrences_cons,
      occurrences_nil. f_equal; lia.
  - cbn [lookup list_lookup]. rewrite IH by (cbn in Hi; lia).
    cbn [take]. rewrite (occurrences_cons v (take (S i) row)). f_equal; lia.
Qed.

(** A cast keeps the values of the range of the dtype. *)
Lemma to_dtype_small (dt : Collator.dtype) (x : Z) :
  0 ≤ x ≤ Collator.iinfo_max dt → Collator.to_dtype dt x = x.
Proof.
  unfold Collator.to_dtype, Collator.iinfo_max.
  destruct dt; cbn [Collator.signed Collator.bits andb]; intros Hx;
    rewrite Z.mod_small by lia;
    try (destruct (Z.leb_spec (2 ^ (8 - 1)) x); lia);
    try (destruct (Z.leb_spec (2 ^ (16 - 1)) x); lia);
    try (destruct (Z.leb_spec (2 ^ (32 - 1)) x); lia);
    try (destruct (Z.leb_spec (2 ^ (64 - 1)) x); lia); done.
Qed.

(** A cast differs from its operand by a multiple of [2 ^ bits]. *)
Lemma to_dtype_congruent (dt : Collator.dtype) (x : Z) :
  ∃ k, Collator.to_dtype dt x = x + k * 2 ^ Collator.bits dt.
Proof.
  unfold Collator.to_dtype.
  pose proof (Z_div_mod_eq_full x (2 ^ Collator.bits dt)) as E.
  destruct (_ && _).
  - exists (- (x `div` 2 ^ Collator.bits dt) - 1). lia.
  - exists (- (x `div` 2 ^ Collator.bits dt)). lia.
Qed.

(** The cast of an [int64] sum to [dt] is the cast of the sum. *)
Lemma to_dtype_int64 (dt : Collator.dtype) (x : Z) :
  Collator.to_dtype dt (Collator.to_dtype Collator.int64 x) = Collator.to_dtype dt x.
Proof.
  destruct (to_dtype_congruent Collator.int64 x) as [k ->].
  assert (∃ j, 2 ^ Collator.bits Collator.int64 = j * 2 ^ Collator.bits dt)
    as [j ->].
  { destruct dt; cbn [Collator.bits];
      [exists (2 ^ 56)|exists (2 ^ 56)|exists (2 ^ 48)|exists (2 ^ 32)|exists 1];
      by rewrite <- ?Z.pow_add_r by lia. }
  unfold Collator.to_dtype.
  replace (x + k * (j * 2 ^ Collator.bits dt))
    with (x + k * j * 2 ^ Collator.bits dt) by lia.
  by rewrite Z_mod_plus_full.
Qed.

Lemma to_dtype_0 (dt : Collator.dtype) : Collator.to_dtype dt 0 = 0.
Proof. by destruct dt. Qed.

Section collator.

Implicit Types self : Collator.ConcatenatedSequenceCollatorWrapper.
Implicit Types batch : gmap string Collator.tensor.

(** The rows of the tensor returned for a batch with [input_ids]. *)
Lemma get_sequence_id_rows self batch (t : Collator.tensor) :
  batch !! "input_ids"%string = Some t →
  ∃ ids,
    Collator.get_sequence_id_from_batch self batch = inl ids ∧
    Collator.tensor_dtype ids = Collator.tensor_dtype t ∧
    length (Collator.tensor_rows ids) = length (Collator.tensor_rows t) ∧
    ∀ (r : nat) row, Collator.tensor_rows t !! r = Some row →
      let sums :=
        Collator.to_dtype (Collator.tensor_dtype t)
          <$> Collator.cumsum_from 0
                ((λ x, bool_decide (x = Collator.split_token_id self)) <$> row) in
      Collator.tensor_rows ids !! r
      = Some (if Collator.bos_mode self then sums
              else [0] ++ take (length row - 1) sums).
Proof.
  intros Ht. unfold Collator.get_sequence_id_from_batch. rewrite Ht.
  assert (Hrow : ∀ (r : nat) row, Collator.tensor_rows t !! r = Some row →
    Collator.tensor_rows
      (Collator.to (Collator.cumsum_rows
                      (Collator.eq_scalar t (Collator.split_token_id self)))
         (Collator.tensor_dtype t)) !! r
    = Some (Collator.to_dtype (Collator.tensor_dtype t)
              <$> Collator.cumsum_from 0
                    ((λ x, bool_decide (x = Collator.split_token_id self))
                       <$> row))).
  { intros r row Hr. unfold Collator.to, Collator.cumsum_rows, Collator.eq_scalar.
    cbn [Collator.tensor_rows]. rewrite !list_lookup_fmap, Hr.
    cbn [fmap option_fmap option_map]. f_equal.
    rewrite <- list_fmap_compose. apply list_fmap_ext.
    intros ? x _. apply to_dtype_int64. }
  destruct (Collator.bos_mode self) eqn:Hmode.
  - eexists. split; [done|]. split; [done|]. split.
    + unfold Collator.to, Collator.cumsum_rows, Collator.eq_scalar.
      cbn [Collator.tensor_rows]. by rewrite !length_fmap.
    + intros r row Hr. by apply Hrow.
  - eexists. split; [done|]. split; [done|]. split.
    + unfold Collator.shift_right, Collator.to, Collator.cumsum_rows,
        Collator.eq_scalar.
      cbn [Collator.tensor_rows]. by rewrite !length_fmap.
    + intros r row Hr. unfold Collator.shift_right.
      cbn [Collator.tensor_rows]. rewrite list_lookup_fmap, (Hrow r row Hr).
      cbn [fmap option_fmap option_map].
      by rewrite slice_of_but_last, length_fmap, length_cumsum_from, length_fmap.
Qed.

(** X15. For a batch with [input_ids], the sequence id at position [i] of
    a row is the number of separator tokens of the row at the positions
    up to and including [i] when the separator is the BOS token, and at
    the positions before [i] when it is the EOS token, cast to the dtype
    of [input_ids]. When the number of separators of the row is within
    the range of that dtype the cast changes nothing: the ids are these
    numbers, so that in EOS mode a row starts with id [0], and in both
    modes the id grows by [0] or [1] from one position to the next. *)
Theorem sequence_id_counts self batch (t : Collator.tensor) :
  batch !! "input_ids"%string = Some t →
  ∃ ids,
    Collator.get_sequence_id_from_batch self batch = inl ids ∧
    Collator.tensor_dtype ids = Collator.tensor_dtype t ∧
    ∀ (r : nat) row, Collator.tensor_rows t !! r = Some row →
      ∃ out,
        Collator.tensor_rows ids !! r = Some out ∧
        (∀ i : nat, (i < length row)%nat →
           out !! i =
             Some (Collator.to_dtype (Collator.tensor_dtype t)
                     (occurrences (Collator.split_token_id self)
                        (take (if Collator.bos_mode self then S i else i) row)))) ∧
        (occurrences (Collator.split_token_id self) row
           ≤ Collator.iinfo_max (Collator.tensor_dtype t) →
         (∀ i : nat, (i < length row)%nat →
            out !! i =
              Some (occurrences (Collator.split_token_id self)
                      (take (if Collator.bos_mode self then S i else i) row))) ∧
         (∀ (i : nat) a b, out !! i = Some a → out !! S i = Some b →
            a ≤ b ≤ a + 1)).
Proof.
  intros Ht.
  destruct (get_sequence_id_rows self batch t Ht) as (ids & Hids & Hdt & _ & Hrows).
  exists ids. split; [done|]. split; [done|].
  intros r row Hr. specialize (Hrows r row Hr). cbv zeta in Hrows.
  set (v := Collator.split_token_id self) in *.
  set (dt := Collator.tensor_dtype t) in *.
  set (sums := Collator.to_dtype dt
                 <$> Collator.cumsum_from 0 ((λ x, bool_decide (x = v)) <$> row))
    in *.
  assert (Hsum : ∀ i : nat, (i < length row)%nat →
            sums !! i = Some (Collator.to_dtype dt (occurrences v (take (S i) row)))).
  { intros i Hi. subst sums. rewrite list_lookup_fmap, cumsum_from_lookup by done.
    cbn. do 2 f_equal; lia. }
  assert (Hlen : length sums = length row).
  { subst sums. by rewrite length_fmap, length_cumsum_from, length_fmap. }
  eexists. split; [exact Hrows|].
  assert (Hgen : ∀ i : nat, (i < length row)%nat →
    (if Collator.bos_mode self then sums else [0] ++ take (length row - 1) sums)
      !! i
    = Some (Collator.to_dtype dt
              (occurrences v (take (if Collator.bos_mode self then S i else i) row)))).
  { intros i Hi. destruct (Collator.bos_mode self); [by apply Hsum|].
    destruct i as [|i]; [by rewrite take_0, occurrences_nil, to_dtype_0|].
    change (([0] ++ ?l) !! S ?j) with (l !! j).
    rewrite lookup_take_lt by lia. apply Hsum. lia. }
  split; [exact Hgen|].
  intros Hfit.
  assert (Hexact : ∀ i : nat, (i < length row)%nat →
    (if Collator.bos_mode self then sums else [0] ++ take (length row - 1) sums)
      !! i
    = Some (occurrences v (take (if Collator.bos_mode self then S i else i) row))).
  { intros i Hi. rewrite Hgen by done. f_equal. apply to_dtype_small.
    split; [apply occurrences_nonneg|].
    etrans; [apply occurrences_take_le|done]. }
  split; [exact Hexact|].
  intros i a b Ha Hb.
  assert (Hi : (S i < length row)%nat).
  { apply lookup_lt_Some in Hb. destruct (Collator.bos_mode self); [lia|].
    rewrite length_app, length_take in Hb. cbn [length] in Hb. lia. }
  rewrite Hexact in Ha, Hb by lia. simplify_eq.
  destruct (Collator.bos_mode self).
  - destruct (lookup_lt_is_Some_2 row (S i) Hi) as [x Hx].
    rewrite (take_S_r row (S i) x Hx), occurrences_snoc.
    case_bool_decide; lia.
  - destruct (lookup_lt_is_Some_2 row i ltac:(lia)) as [x Hx].
    rewrite (take_S_r row i x Hx), occurrences_snoc.
    case_bool_decide; lia.
Qed.

(** X16. The tensor of sequence ids has one row per row of [input_ids].
    In BOS mode every row has the length of its row of [input_ids]; in
    EOS mode too, except that for rows of length zero the result has one
    column, holding [0]. *)
Theorem sequence_id_shape self batch (t : Collator.tensor) :
  batch !! "input_ids"%string = Some t →
  ∃ ids,
    Collator.get_sequence_id_from_batch self batch = inl ids ∧
    length (Collator.tensor_rows ids) = length (Collator.tensor_rows t) ∧
    ∀ (r : nat) row out,
      Collator.tensor_rows t !! r = Some row →
      Collator.tensor_rows ids !! r = Some out →
      (Collator.bos_mode self = true → length out = length row) ∧
      (Collator.bos_mode self = false → row ≠ [] → length out = length row) ∧
      (Collator.bos_mode self = false → row = [] → out = [0]).
Proof.
  intros Ht.
  destruct (get_sequence_id_rows self batch t Ht) as (ids & Hids & _ & Hlen & Hrows).
  exists ids. split; [done|]. split; [done|].
  intros r row out Hr Hout. specialize (Hrows r row Hr). cbv zeta in Hrows.
  rewrite Hrows in Hout. injection Hout as <-.
  destruct (Collator.bos_mode self).
  - split; [|done]. intros _.
    by rewrite length_fmap, length_cumsum_from, length_fmap.
  - split; [done|]. split.
    + intros _ Hne. cbn [app length]. rewrite length_take, length_fmap,
        length_cumsum_from, length_fmap.
      destruct row; [done|]. cbn [length]. lia.
    + by intros _ ->.
Qed.

Lemma get_sequence_id_Ok self batch (t : Collator.tensor) :
  batch !! "input_ids"%string = Some t →
  ∃ ids, Collator.get_sequence_id_from_batch self batch = inl ids.
Proof.
  intros Ht. unfold Collator.get_sequence_id_from_batch. rewrite Ht.
  destruct (Collator.bos_mode self); by eexists.
Qed.

(** [__init__] accepts exactly one of the two tokens, which becomes the
    separator and fixes the mode. *)
Lemma collator_init_modes (eos bos : option Z) self :
  Collator.init eos bos = inl self ↔
  (eos = None ∧ bos = Some (Collator.split_token_id self) ∧
   Collator.bos_mode self = true) ∨
  (eos = Some (Collator.split_token_id self) ∧ bos = None ∧
   Collator.bos_mode self = false).
Proof.
  destruct self as [v m]. unfold Collator.init. cbn.
  destruct eos as [e|], bos as [b|]; split;
    try (intros [= <- <-]; auto; fail);
    try (intros [(? & ? & ?)|(? & ? & ?)]; simplify_eq; done);
    try done.
Qed.

(** X17. The wrapper returns the batch of the base collator with the
    sequence ids stored under [sequence_id], replacing an entry of that
    name and leaving every other entry as it was; when the batch of the
    base collator has no [input_ids] it raises [KeyError]. *)
Theorem collate_call {Example : Type}
    (base_collator : list Example → gmap string Collator.tensor)
    self (examples : list Example) :
  (base_collator examples !! "input_ids"%string = None →
   Collator.call base_collator self examples = inr Collator.KeyError) ∧
  (∀ t, base_collator examples !! "input_ids"%string = Some t →
     ∃ ids batch,
       Collator.get_sequence_id_from_batch self (base_collator examples) = inl ids ∧
       Collator.call base_collator self examples = inl batch ∧
       batch !! "sequence_id"%string = Some ids ∧
       batch !! "input_ids"%string = Some t ∧
       ∀ k, k ≠ "sequence_id"%string → batch !! k = base_collator examples !! k).
Proof.
  unfold Collator.call. split.
  - intros Hn. unfold Collator.get_sequence_id_from_batch. by rewrite Hn.
  - intros t Ht.
    destruct (get_sequence_id_Ok self _ t Ht) as (ids & Hids).
    rewrite Hids. exists ids. eexists. split; [done|]. split; [done|].
    split; [by rewrite lookup_insert_eq|]. split.
    + by rewrite lookup_insert_ne.
    + intros k Hk. by rewrite lookup_insert_ne.
Qed.

End collator.

(** In a narrow dtype the ids wrap: of 130 separators held as [int8], the
    128th has id [127] and the next one [-128] in BOS mode. *)
Lemma sequence_id_wraps_int8 :
  ∃ ids out,
    Collator.get_sequence_id_from_batch
      {| Collator.split_token_id := 2; Collator.bos_mode := true |}
      {[ "input_ids"%string := separators_int8 ]} = inl ids ∧
    Collator.tensor_rows ids !! 0%nat = Some out ∧
    out !! 126%nat = Some 127 ∧
    out !! 127%nat = Some (-128).
Proof. eexists _, _. by vm_compute. Qed.

Lemma sequence_id_counts_witness :
  two_row_batch !! "input_ids"%string = Some two_rows ∧
  ∃ ids,
    Collator.get_sequence_id_from_batch eos_collator two_row_batch = inl ids ∧
    Collator.tensor_dtype ids = Collator.tensor_dtype two_rows ∧
    ∀ (r : nat) row, Collator.tensor_rows two_rows !! r = Some row →
      ∃ out,
        Collator.tensor_rows ids !! r = Some out ∧
        (∀ i : nat, (i < length row)%nat →
           out !! i =
             Some (Collator.to_dtype (Collator.tensor_dtype two_rows)
                     (occurrences (Collator.split_token_id eos_collator)
                        (take (if Collator.bos_mode eos_collator then S i else i)
                           row)))) ∧
        (occurrences (Collator.split_token_id eos_collator) row
           ≤ Collator.iinfo_max (Collator.tensor_dtype two_rows) →
         (∀ i : nat, (i < length row)%nat →
            out !! i =
              Some (occurrences (Collator.split_token_id eos_collator)
                      (take (if Collator.bos_mode eos_collator then S i else i)
                         row))) ∧
         (∀ (i : nat) a b, out !! i = Some a → out !! S i = Some b →
            a ≤ b ≤ a + 1)).
Proof.
  split; [reflexivity|].
  apply (sequence_id_counts eos_collator two_row_batch two_rows). reflexivity.
Defined.

Lemma sequence_id_shape_witness :
  two_row_batch !! "input_ids"%string = Some two_rows ∧
  ∃ ids,
    Collator.get_sequence_id_from_batch eos_collator two_row_batch = inl ids ∧
    length (Collator.tensor_rows ids) = length (Collator.tensor_rows two_rows) ∧
    ∀ (r : nat) row out,
      Collator.tensor_rows two_rows !! r = Some row →
      Collator.tensor_rows ids !! r = Some out →
      (Collator.bos_mode eos_collator = true → length out = length row) ∧
      (Collator.bos_mode eos_collator = false → row ≠ [] → length out = length row) ∧
      (Collator.bos_mode eos_collator = false → row = [] → out = [0]).
Proof.
  split; [reflexivity|].
  apply (sequence_id_shape eos_collator two_row_batch two_rows). reflexivity.
Defined.

Lemma collate_call_witness :
  (λ _ : list unit, two_row_batch) [tt] !! "input_ids"%string = Some two_rows ∧
  ∃ ids batch,
    Collator.get_sequence_id_from_batch eos_collator two_row_batch = inl ids ∧
    Collator.call (λ _ : list unit, two_row_batch) eos_collator [tt] = inl batch ∧
    batch !! "sequence_id"%string = Some ids ∧
    batch !! "input_ids"%string = Some two_rows ∧
    ∀ k, k ≠ "sequence_id"%string → batch !! k = two_row_batch !! k.
Proof.
  split; [reflexivity|].
  apply (proj2 (collate_call (λ _ : list unit, two_row_batch) eos_collator [tt])).
  reflexivity.
Defined.

(** * Reading a tokenized sample *)

(** [l[:k]] *)
Lemma slice_of_take {A : Type} (l : list A) (k : Z) :
  0 ≤ k → slice_of l None (Some k) 1 = take (Z.to_nat k) l.
Proof.
  intros Hk.
  pose proof (slice_of_Ok l None (Some k) 1 ltac:(lia)) as H.
  rewrite slice_take in H by done. by injection H as <-.
Qed.

Lemma frombuffer_int64_Ok (buffer : list byte) (n : Z) :
  Py.len buffer = 8 * n →
  ∃ toks, Streaming.frombuffer_int64 buffer = Ok toks ∧ Py.len toks = n.
Proof.
  intros Hlen. unfold Streaming.frombuffer_int64.
  replace (Py.len buffer `mod` 8 =? 0) with true
    by (symmetry; apply Z.eqb_eq; rewrite Hlen, Z.mul_comm; apply Z.mod_mul; lia).
  eexists. split; [done|].
  unfold Py.len in *. rewrite length_fmap.
  rewrite (length_rows_exact 8 buffer (Z.to_nat n)); lia.
Qed.

Section read_binary.

Variables max_seq_len pad_token_id : Z.
Implicit Types s : Streaming.sample.

(** X18. For a sample whose [len] entry is the number [n] of 64-bit tokens
    in [input_ids] and that has no [attention_mask], and a sequence length
    that is not negative, the function returns the tokens padded with the
    pad token or cut to exactly the sequence length; the attention mask is
    [1] on the tokens kept and [0] on the padding, and the token type ids
    are zeros, all three of the sequence length. *)
Theorem read_binary_with_len s (n : Z) :
  0 ≤ max_seq_len →
  Py.len (Streaming.input_ids s) = 8 * n →
  Streaming.len s = Some n →
  Streaming.attention_mask s = None →
  ∃ toks enc,
    Streaming.frombuffer_int64 (Streaming.input_ids s) = Ok toks ∧
    Py.len toks = n ∧
    Streaming.read_binary_tokenized_sample max_seq_len pad_token_id s = Ok enc ∧
    Streaming.enc_input_ids enc
      = take (Z.to_nat max_seq_len)
          (toks ++ replicate (Z.to_nat (max_seq_len - n)) pad_token_id) ∧
    Streaming.enc_attention_mask enc
      = replicate (Z.to_nat (Z.min n max_seq_len)) 1
        ++ replicate (Z.to_nat (max_seq_len - n)) 0 ∧
    Streaming.enc_token_type_ids enc = replicate (Z.to_nat max_seq_len) 0 ∧
    Py.len (Streaming.enc_input_ids enc) = max_seq_len ∧
    Py.len (Streaming.enc_attention_mask enc) = max_seq_len ∧
    Py.len (Streaming.enc_token_type_ids enc) = max_seq_len.
Proof.
  intros Hmax Hbytes Hlen Hmask.
  destruct (frombuffer_int64_Ok _ n Hbytes) as (toks & Htoks & Hn).
  exists toks.
  unfold Streaming.read_binary_tokenized_sample.
  rewrite Hlen, Hmask, Htoks. cbn [mbind result_bind].
  unfold Streaming.zeros. replace (max_seq_len <? 0) with false by lia.
  cbn [mbind result_bind]. unfold Py.len in Hn.
  destruct (Z.ltb_spec 0 (max_seq_len - n)) as [Hpad|Hpad].
  - eexists. split; [done|]. split; [done|]. split; [done|].
    cbn [Streaming.enc_input_ids Streaming.enc_attention_mask
         Streaming.enc_token_type_ids].
    unfold Streaming.pad, Streaming.ones_like, Py.len.
    assert (Hfull : length (toks ++ replicate (Z.to_nat (max_seq_len - n)) pad_token_id)
                    = Z.to_nat max_seq_len)
      by (rewrite length_app, length_replicate; lia).
    split; [by rewrite take_ge by lia|].
    split; [by replace (Z.min n max_seq_len) with (Z.of_nat (length toks)) by lia;
              rewrite Nat2Z.id|].
    split; [done|].
    rewrite !length_app, !length_replicate. lia.
  - destruct (Z.ltb_spec (max_seq_len - n) 0) as [Hcut|Hcut].
    + eexists. split; [done|]. split; [done|]. split; [done|].
      cbn [Streaming.enc_input_ids Streaming.enc_attention_mask
           Streaming.enc_token_type_ids].
      rewrite !slice_of_take by done.
      replace (Z.to_nat (max_seq_len - n)) with 0%nat by lia.
      cbn [replicate]. rewrite !app_nil_r. unfold Streaming.ones_like, Py.len.
      split; [done|].
      split; [by rewrite take_replicate; f_equal; lia|].
      split; [done|].
      rewrite !length_take, !length_replicate. lia.
    + eexists. split; [done|]. split; [done|]. split; [done|].
      cbn [Streaming.enc_input_ids Streaming.enc_attention_mask
           Streaming.enc_token_type_ids].
      replace (Z.to_nat (max_seq_len - n)) with 0%nat by lia.
      cbn [replicate]. rewrite !app_nil_r. unfold Streaming.ones_like, Py.len.
      split; [by rewrite take_ge by lia|].
      split; [by f_equal; lia|].
      split; [done|].
      rewrite !length_replicate. lia.
Qed.

(** X19. For a sample with no [len] entry the length compared with the
    sequence length is the number of bytes of [input_ids], eight for each
    token. With [n] tokens, [0 < n], the tokens are padded by the sequence
    length less [8 * n] when that is positive, and cut to the sequence
    length otherwise; so the result has the sequence length only when the
    sample has at least that many tokens, while the token type ids always
    have it. *)
Theorem read_binary_without_len s (n : Z) :
  0 ≤ max_seq_len →
  0 < n →
  Py.len (Streaming.input_ids s) = 8 * n →
  Streaming.len s = None →
  Streaming.attention_mask s = None →
  ∃ toks enc,
    Streaming.frombuffer_int64 (Streaming.input_ids s) = Ok toks ∧
    Py.len toks = n ∧
    Streaming.read_binary_tokenized_sample max_seq_len pad_token_id s = Ok enc ∧
    (8 * n < max_seq_len →
       Streaming.enc_input_ids enc
         = toks ++ replicate (Z.to_nat (max_seq_len - 8 * n)) pad_token_id ∧
       Py.len (Streaming.enc_input_ids enc) = max_seq_len - 7 * n) ∧
    (max_seq_len ≤ 8 * n →
       Streaming.enc_input_ids enc = take (Z.to_nat max_seq_len) toks ∧
       Py.len (Streaming.enc_input_ids enc) = Z.min n max_seq_len) ∧
    (Py.len (Streaming.enc_input_ids enc) = max_seq_len ↔ max_seq_len ≤ n) ∧
    Py.len (Streaming.enc_attention_mask enc)
      = Py.len (Streaming.enc_input_ids enc) ∧
    Py.len (Streaming.enc_token_type_ids enc) = max_seq_len.
Proof.
  intros Hmax Hpos Hbytes Hlen Hmask.
  destruct (frombuffer_int64_Ok _ n Hbytes) as (toks & Htoks & Hn).
  exists toks.
  unfold Streaming.read_binary_tokenized_sample.
  rewrite Hlen, Hmask, Htoks, Hbytes. cbn [mbind result_bind].
  unfold Streaming.zeros. replace (max_seq_len <? 0) with false by lia.
  cbn [mbind result_bind]. unfold Py.len in Hn.
  destruct (Z.ltb_spec 0 (max_seq_len - 8 * n)) as [Hpad|Hpad].
  - eexists. split; [done|]. split; [done|]. split; [done|].
    cbn [Streaming.enc_input_ids Streaming.enc_attention_mask
         Streaming.enc_token_type_ids].
    unfold Streaming.pad, Streaming.ones_like, Py.len.
    rewrite !length_app, !length_replicate.
    split; [split; [done|lia]|]. split; [lia|]. split; [lia|]. split; lia.
  - destruct (Z.ltb_spec (max_seq_len - 8 * n) 0) as [Hcut|Hcut].
    + eexists. split; [done|]. split; [done|]. split; [done|].
      cbn [Streaming.enc_input_ids Streaming.enc_attention_mask
           Streaming.enc_token_type_ids].
      rewrite !slice_of_take by done. unfold Streaming.ones_like, Py.len.
      rewrite !length_take, !length_replicate.
      split; [lia|]. split; [split; [done|lia]|]. split; [lia|]. split; lia.
    + eexists. split; [done|]. split; [done|]. split; [done|].
      cbn [Streaming.enc_input_ids Streaming.enc_attention_mask
           Streaming.enc_token_type_ids].
      unfold Streaming.ones_like, Py.len. rewrite !length_replicate.
      split; [lia|].
      split; [split; [by rewrite take_ge by lia|lia]|].
      split; [lia|]. split; lia.
Qed.

End read_binary.

Lemma read_binary_with_len_witness :
  ∃ toks enc,
    Streaming.frombuffer_int64 (Streaming.input_ids (two_token_sample (Some 2)))
      = Ok toks ∧
    Py.len toks = 2 ∧
    Streaming.read_binary_tokenized_sample 4 0 (two_token_sample (Some 2)) = Ok enc ∧
    Streaming.enc_input_ids enc
      = take (Z.to_nat 4) (toks ++ replicate (Z.to_nat (4 - 2)) 0) ∧
    Streaming.enc_attention_mask enc
      = replicate (Z.to_nat (Z.min 2 4)) 1 ++ replicate (Z.to_nat (4 - 2)) 0 ∧
    Streaming.enc_token_type_ids enc = replicate (Z.to_nat 4) 0 ∧
    Py.len (Streaming.enc_input_ids enc) = 4 ∧
    Py.len (Streaming.enc_attention_mask enc) = 4 ∧
    Py.len (Streaming.enc_token_type_ids enc) = 4.
Proof.
  apply (read_binary_with_len 4 0 (two_token_sample (Some 2)) 2);
    [lia | reflexivity | reflexivity | reflexivity].
Defined.

Lemma read_binary_without_len_witness :
  ∃ toks enc,
    Streaming.frombuffer_int64 (Streaming.input_ids (two_token_sample None))
      = Ok toks ∧
    Py.len toks = 2 ∧
    Streaming.read_binary_tokenized_sample 4 0 (two_token_sample None) = Ok enc ∧
    (8 * 2 < 4 →
       Streaming.enc_input_ids enc = toks ++ replicate (Z.to_nat (4 - 8 * 2)) 0 ∧
       Py.len (Streaming.enc_input_ids enc) = 4 - 7 * 2) ∧
    (4 ≤ 8 * 2 →
       Streaming.enc_input_ids enc = take (Z.to_nat 4) toks ∧
       Py.len (Streaming.enc_input_ids enc) = Z.min 2 4) ∧
    (Py.len (Streaming.enc_input_ids enc) = 4 ↔ 4 ≤ 2) ∧
    Py.len (Streaming.enc_attention_mask enc)
      = Py.len (Streaming.enc_input_ids enc) ∧
    Py.len (Streaming.enc_token_type_ids enc) = 4.
Proof.
  apply (read_binary_without_len 4 0 (two_token_sample None) 2);
    [lia | lia | reflexivity | reflexivity | reflexivity].
Defined.

(** * Reading a sample without streaming *)

Section no_streaming.

Context {T : Type}.
Variable max_seq_len : Z.
Variable self_tokenizer : option (NoStreaming.tokenizer T).
Implicit Types sample : gmap string NoStreaming.value.

Lemma truncate_keys_spec (keys : list string) sample :
  NoDup keys →
  (∀ k, k ∈ keys → is_Some (sample !! k)) →
  ∃ out,
    NoStreaming.truncate_keys max_seq_len keys sample = inl out ∧
    ∀ k, out !! k = if decide (k ∈ keys)
                    then sample !! k ≫= NoStreaming.kept max_seq_len
                    else sample !! k.
Proof.
  revert sample. induction keys as [|k keys IH]; intros sample Hnd Hin.
  - exists sample. split; [done|]. intros k. by rewrite decide_False by apply not_elem_of_nil.
  - apply NoDup_cons in Hnd as [Hk Hnd].
    destruct (Hin k ltac:(left)) as [v Hv].
    cbn [NoStreaming.truncate_keys]. unfold NoStreaming.truncate_key. rewrite Hv.
    set (sample' := match v with
                    | NoStreaming.NdArray a =>
                        <[k := NoStreaming.NdArray
                                 (slice_of a None (Some max_seq_len) 1)]> sample
                    | _ => delete k sample
                    end).
    assert (Hat : sample' !! k = NoStreaming.kept max_seq_len v).
    { destruct v; cbn; subst sample';
        [by rewrite lookup_insert_eq|by rewrite lookup_delete_eq..]. }
    assert (Hne : ∀ k', k' ≠ k → sample' !! k' = sample !! k').
    { intros k' Hk'k. destruct v; subst sample';
        [by rewrite lookup_insert_ne|by rewrite lookup_delete_ne..]. }
    destruct (IH sample' Hnd) as (out & Hout & Hlk).
    { intros k' Hk'. rewrite Hne by (intros ->; done). apply Hin. by right. }
    exists out. split; [by destruct v|].
    intros k'. rewrite Hlk.
    destruct (decide (k' = k)) as [->|Hk'k].
    + rewrite decide_False by done. rewrite decide_True by left.
      by rewrite Hat, Hv.
    + rewrite Hne by done.
      destruct (decide (k' ∈ keys)) as [Hi|Hi].
      * by rewrite decide_True by (by right).
      * rewrite decide_False; [done|]. by intros [?|?]%elem_of_cons.
Qed.

(** The loop over the keys of a sample keeps the arrays, cut to
    [max_seq_len], and nothing else. *)
Lemma truncate_keys_all sample :
  NoStreaming.truncate_keys max_seq_len (map_to_list sample).*1 sample
  = inl (omap (NoStreaming.kept max_seq_len) sample).
Proof.
  destruct (truncate_keys_spec (map_to_list sample).*1 sample) as (out & -> & Hlk).
  - apply NoDup_fst_map_to_list.
  - intros k [[k' v] [-> Hkv]]%list_elem_of_fmap.
    apply elem_of_map_to_list in Hkv. by exists v.
  - f_equal. apply map_eq. intros k. rewrite Hlk, lookup_omap.
    case_decide as Hk; [done|].
    destruct (sample !! k) as [v|] eqn:Hv; [|done].
    exfalso. apply Hk. apply list_elem_of_fmap. exists (k, v).
    split; [done|]. by apply elem_of_map_to_list.
Qed.

(** X20. For a sample whose [input_ids] is an array, [__getitem__] returns
    the sample with every array cut to [max_seq_len] and every entry that
    is not an array removed; an [attention_mask] that was not an array, or
    was missing, is replaced by ones of the length of the cut [input_ids].
    No tokenizer is needed, and for [0 ≤ max_seq_len] no array returned is
    longer than [max_seq_len]. *)
Theorem getitem_tokenized sample (a : list Z) :
  sample !! "input_ids"%string = Some (NoStreaming.NdArray a) →
  ∃ out,
    NoStreaming.getitem max_seq_len self_tokenizer sample
      = inl (NoStreaming.Sample out) ∧
    (∀ k, k ≠ "attention_mask"%string →
       out !! k = sample !! k ≫= NoStreaming.kept max_seq_len) ∧
    out !! "input_ids"%string
      = Some (NoStreaming.NdArray (slice_of a None (Some max_seq_len) 1)) ∧
    (∀ m, sample !! "attention_mask"%string = Some (NoStreaming.NdArray m) →
       out !! "attention_mask"%string
       = Some (NoStreaming.NdArray (slice_of m None (Some max_seq_len) 1))) ∧
    ((∀ m, sample !! "attention_mask"%string ≠ Some (NoStreaming.NdArray m)) →
       out !! "attention_mask"%string
       = Some (NoStreaming.NdArray
                 (replicate (length (slice_of a None (Some max_seq_len) 1)) 1))) ∧
    (∀ k v, out !! k = Some v →
       ∃ b, v = NoStreaming.NdArray b ∧ (0 ≤ max_seq_len → Py.len b ≤ max_seq_len)).
Proof.
  intros Hids. unfold NoStreaming.getitem. rewrite Hids, truncate_keys_all.
  set (cut := omap (NoStreaming.kept max_seq_len) sample).
  assert (Hcut_ids : cut !! "input_ids"%string
            = Some (NoStreaming.NdArray (slice_of a None (Some max_seq_len) 1))).
  { subst cut. by rewrite lookup_omap, Hids. }
  assert (Hshort : ∀ b : list Z, 0 ≤ max_seq_len →
            Py.len (slice_of b None (Some max_seq_len) 1) ≤ max_seq_len).
  { intros b Hmax. rewrite slice_of_take by done. unfold Py.len.
    rewrite length_take. lia. }
  assert (Hcut_arr : ∀ k v, cut !! k = Some v →
            ∃ b, v = NoStreaming.NdArray b ∧
                 (0 ≤ max_seq_len → Py.len b ≤ max_seq_len)).
  { intros k v. subst cut. rewrite lookup_omap.
    destruct (sample !! k) as [[b| |]|]; cbn; intros [= <-].
    eexists. split; [done|]. apply Hshort. }
  destruct (cut !! "attention_mask"%string) as [v|] eqn:Hmask.
  - exists cut. split; [done|].
    split; [by intros k _; subst cut; rewrite lookup_omap|].
    split; [done|]. split; [|split].
    + intros m Hm. subst cut. by rewrite lookup_omap, Hm.
    + intros Hno. exfalso. subst cut. rewrite lookup_omap in Hmask.
      destruct (sample !! "attention_mask"%string) as [[m| |]|] eqn:E;
        cbn in Hmask; try done. by eapply Hno.
    + done.
  - rewrite Hcut_ids. eexists. split; [done|].
    split; [by intros k Hk; rewrite lookup_insert_ne by done;
              subst cut; rewrite lookup_omap|].
    split; [by rewrite lookup_insert_ne|]. split; [|split].
    + intros m Hm. exfalso. subst cut. by rewrite lookup_omap, Hm in Hmask.
    + intros _. by rewrite lookup_insert_eq.
    + intros k v. destruct (decide (k = "attention_mask"%string)) as [->|Hk].
      * rewrite lookup_insert_eq. intros [= <-]. eexists. split; [done|].
        intros Hmax. unfold Py.len. rewrite length_replicate. by apply Hshort.
      * rewrite lookup_insert_ne by done. apply Hcut_arr.
Qed.

(** X21. The other outcomes of [__getitem__]. A sample whose [input_ids]
    is not an array loses it: the rest is returned when [attention_mask] is
    an array, and [KeyError] is raised otherwise. A sample with neither
    [input_ids] nor [text] raises nothing: the call returns [None]. A
    sample with [text] only goes to the tokenizer, which raises
    [AssertionError] when the dataset has none and [RuntimeError] when it
    has no pad token. *)
Theorem getitem_edges sample :
  (∀ v, sample !! "input_ids"%string = Some v →
     (∀ a, v ≠ NoStreaming.NdArray a) →
     (∀ m, sample !! "attention_mask"%string = Some (NoStreaming.NdArray m) →
        ∃ out,
          NoStreaming.getitem max_seq_len self_tokenizer sample
            = inl (NoStreaming.Sample out) ∧
          out !! "input_ids"%string = None) ∧
     ((∀ m, sample !! "attention_mask"%string ≠ Some (NoStreaming.NdArray m)) →
        NoStreaming.getitem max_seq_len self_tokenizer sample
          = inr NoStreaming.KeyError)) ∧
  (sample !! "input_ids"%string = None →
     (sample !! "text"%string = None →
        NoStreaming.getitem max_seq_len self_tokenizer sample
          = inl NoStreaming.NoneValue) ∧
     (∀ text, sample !! "text"%string = Some text →
        NoStreaming.getitem max_seq_len self_tokenizer sample
        = match self_tokenizer with
          | None => inr NoStreaming.AssertionError
          | Some t =>
              if NoStreaming.has_pad_token t
              then inl (NoStreaming.Tokens (NoStreaming.encode t text max_seq_len))
              else inr NoStreaming.RuntimeError
          end)).
Proof.
  split.
  - intros v Hids Hv. unfold NoStreaming.getitem.
    rewrite Hids, truncate_keys_all.
    assert (Hgone : omap (NoStreaming.kept max_seq_len) sample
                      !! "input_ids"%string = None).
    { rewrite lookup_omap, Hids. destruct v; [|done..]. by destruct (Hv a). }
    split.
    + intros m Hm. rewrite lookup_omap, Hm. cbn. by eexists.
    + intros Hno. rewrite Hgone.
      rewrite lookup_omap.
      destruct (sample !! "attention_mask"%string) as [[m| |]|] eqn:E;
        cbn; try done. by destruct (Hno m).
  - intros Hids. unfold NoStreaming.getitem, NoStreaming.tokenize.
    rewrite Hids. split.
    + by intros ->.
    + intros text ->. destruct self_tokenizer as [t|]; [|done].
      by destruct (NoStreaming.has_pad_token t).
Qed.

End no_streaming.

Lemma getitem_tokenized_witness :
  ∃ out,
    NoStreaming.getitem (T:=unit) 2 None three_token_sample
      = inl (NoStreaming.Sample out) ∧
    (∀ k, k ≠ "attention_mask"%string →
       out !! k = three_token_sample !! k ≫= NoStreaming.kept 2) ∧
    out !! "input_ids"%string
      = Some (NoStreaming.NdArray (slice_of [11; 12; 13] None (Some 2) 1)) ∧
    (∀ m, three_token_sample !! "attention_mask"%string
          = Some (NoStreaming.NdArray m) →
       out !! "attention_mask"%string
       = Some (NoStreaming.NdArray (slice_of m None (Some 2) 1))) ∧
    ((∀ m, three_token_sample !! "attention_mask"%string
           ≠ Some (NoStreaming.NdArray m)) →
       out !! "attention_mask"%string
       = Some (NoStreaming.NdArray
                 (replicate (length (slice_of [11; 12; 13] None (Some 2) 1)) 1))) ∧
    (∀ k v, out !! k = Some v →
       ∃ b, v = NoStreaming.NdArray b ∧ (0 ≤ 2 → Py.len b ≤ 2)).
Proof.
  apply (getitem_tokenized (T:=unit) 2 None three_token_sample [11; 12; 13]).
  reflexivity.
Defined.

Lemma getitem_edges_witness :
  NoStreaming.getitem (T:=unit) 2 None ∅ = inl NoStreaming.NoneValue.
Proof.
  apply (proj2 (getitem_edges (T:=unit) 2 None ∅)); reflexivity.
Defined.

(** * The float quotient *)

Lemma nearest_even_cases (n d : Z) :
  (Double.nearest_even n d = n `div` d ∧ 2 * (n `mod` d) ≤ d) ∨
  (Double.nearest_even n d = n `div` d + 1 ∧ d ≤ 2 * (n `mod` d)).
Proof.
  unfold Double.nearest_even.
  destruct (Z.ltb_spec (2 * (n `mod` d)) d); [left; lia|].
  destruct (Z.ltb_spec d (2 * (n `mod` d))); [right; lia|].
  destruct (Z.even (n `div` d)); [left|right]; lia.
Qed.

(** Rounding a quotient scaled by [s], with [d < 2 * s], keeps it on its
    side of every multiple of [s]. *)
Lemma nearest_even_scaled (n d s : Z) :
  0 ≤ n → 0 < d → 0 < s → d < 2 * s →
  (∀ k, (k - 1) * d < n ≤ k * d →
        (k - 1) * s < Double.nearest_even (n * s) d ≤ k * s) ∧
  (∀ f, f * d ≤ n < (f + 1) * d →
        f * s ≤ Double.nearest_even (n * s) d < (f + 1) * s).
Proof.
  intros Hn Hd Hs Hds.
  pose proof (Z_div_mod_eq_full (n * s) d) as Heq.
  pose proof (Z.mod_pos_bound (n * s) d Hd) as Hr.
  set (q := (n * s) `div` d) in *. set (r := (n * s) `mod` d) in *.
  split.
  - intros k [Hlo Hhi].
    assert (Hq1 : (k - 1) * s ≤ q) by nia.
    assert (Hq2 : q ≤ k * s) by nia.
    destruct (nearest_even_cases (n * s) d) as [[-> Hc]|[-> Hc]]; fold q r in Hc |- *.
    + split; [|lia]. destruct (decide (q = (k - 1) * s)); [nia|lia].
    + split; [lia|]. destruct (decide (q = k * s)); [nia|lia].
  - intros f [Hlo Hhi].
    assert (Hq1 : f * s ≤ q) by nia.
    assert (Hq2 : q < (f + 1) * s) by nia.
    destruct (nearest_even_cases (n * s) d) as [[-> Hc]|[-> Hc]]; fold q r in Hc |- *.
    + lia.
    + split; [lia|]. destruct (decide (q = (f + 1) * s - 1)); [nia|lia].
Qed.

Lemma log2_quot_spec (n d : Z) :
  0 < n → 0 < d →
  (0 ≤ Double.log2_quot n d → d * 2 ^ Double.log2_quot n d ≤ n) ∧
  (Double.log2_quot n d < 0 → d ≤ n * 2 ^ (- Double.log2_quot n d)) ∧
  Z.log2 n - Z.log2 d - 1 ≤ Double.log2_quot n d.
Proof.
  intros Hn Hd. unfold Double.log2_quot.
  pose proof (Z.log2_spec n Hn) as [Hn1 Hn2].
  pose proof (Z.log2_spec d Hd) as [Hd1 Hd2].
  pose proof (Z.log2_nonneg n) as Hln. pose proof (Z.log2_nonneg d) as Hld.
  set (ln := Z.log2 n) in *. set (ld := Z.log2 d) in *.
  destruct (Z.leb_spec 0 (ln - ld)) as [Hk|Hk].
  - destruct (Z.leb_spec (d * 2 ^ (ln - ld)) n) as [Ht|Ht].
    + split; [done|]. split; lia.
    + split; [|split; [|lia]].
      * intros Hk1.
        assert (2 ^ ln = 2 ^ (ln - ld - 1) * 2 ^ Z.succ ld) as Hp
          by (rewrite <- Z.pow_add_r by lia; f_equal; lia).
        assert (0 < 2 ^ (ln - ld - 1)) by (apply Z.pow_pos_nonneg; lia).
        nia.
      * intros Hk1. assert (ln - ld = 0) as Hz by lia.
        replace (- (ln - ld - 1)) with 1 by lia.
        rewrite Hz in Ht. assert (ld = ln) as Hll by lia. rewrite Hll in Hd2.
        rewrite Z.pow_succ_r in Hd2 by lia. lia.
  - destruct (Z.leb_spec d (n * 2 ^ (- (ln - ld)))) as [Ht|Ht].
    + split; [lia|]. split; [done|lia].
    + split; [lia|]. split; [|lia].
      intros _.
      assert (2 ^ Z.succ ld = 2 ^ ln * 2 ^ (- (ln - ld - 1))) as Hp
        by (rewrite <- Z.pow_add_r by lia; f_equal; lia).
      assert (0 < 2 ^ (- (ln - ld - 1))) by (apply Z.pow_pos_nonneg; lia).
      nia.
Qed.

(** X23. [math.ceil(a / b)], computed as Python does through the double
    nearest to the quotient, is the ceiling of the exact quotient whenever
    [a] is below [2^53] in magnitude and [b] is positive and below
    [2^53]: for such lengths and world sizes the [num_samples] of
    [__init__] is the exact ceiling, as [Py.ceil_truediv] has it. *)
Theorem double_ceil_exact (a b : Z) :
  - 2 ^ 53 < a < 2 ^ 53 → 0 < b < 2 ^ 53 →
  ∃ k, Double.ceil_truediv a b = inl k ∧
       Py.ceil_truediv a b = Ok k ∧
       is_ceil k a b.
Proof.
  intros Ha Hb. exists (- ((- a) `div` b)).
  split; [|split; [apply ceil_truediv_pos; lia
                  |unfold is_ceil; apply ceil_div_bounds; lia]].
  unfold Double.ceil_truediv, Double.truediv.
  replace (b =? 0) with false by lia.
  destruct (Z.eqb_spec a 0) as [->|Ha0].
  { cbn. by rewrite Z.div_0_l by lia. }
  set (n := Z.abs a). set (d := Z.abs b).
  assert (Hn : 0 < n < 2 ^ 53) by (subst n; lia).
  assert (Hd : d = b) by (subst d; lia).
  destruct (log2_quot_spec n d) as (Hl1 & Hl2 & Hl3); [lia..|].
  set (L := Double.log2_quot n d) in *.
  assert (HL52 : L ≤ 52).
  { destruct (decide (L ≤ 52)) as [|Hgt]; [done|]. exfalso.
    assert (2 ^ 53 ≤ 2 ^ L) by (apply Z.pow_le_mono_r; lia).
    specialize (Hl1 ltac:(lia)). nia. }
  assert (HL53 : -53 ≤ L).
  { pose proof (Z.log2_nonneg n).
    assert (Z.log2 d < 53) by (apply Z.log2_lt_pow2; lia). lia. }
  replace (Z.max (L - 52) (-1074)) with (L - 52) by lia.
  set (s := 2 ^ (52 - L)).
  assert (Hs : 0 < s) by (apply Z.pow_pos_nonneg; lia).
  assert (Hds : d < 2 * s).
  { destruct (decide (0 ≤ L)) as [HL|HL].
    - specialize (Hl1 HL).
      assert (2 ^ 53 = 2 ^ L * (2 * s)) as Hp.
      { subst s. rewrite <- Z.pow_succ_r by lia.
        rewrite <- Z.pow_add_r by lia. f_equal. lia. }
      assert (0 < 2 ^ L) by (apply Z.pow_pos_nonneg; lia). nia.
    - specialize (Hl2 ltac:(lia)).
      assert (2 * s = 2 ^ 53 * 2 ^ (- L)) as Hp.
      { subst s. rewrite <- Z.pow_succ_r by lia.
        rewrite <- Z.pow_add_r by lia. f_equal. lia. }
      assert (0 < 2 ^ (- L)) by (apply Z.pow_pos_nonneg; lia). nia. }
  set (m := Double.nearest_even (n * s) d).
  assert (Hm : (if 0 <=? L - 52 then Double.nearest_even n (d * 2 ^ (L - 52))
                else Double.nearest_even (n * 2 ^ (- (L - 52))) d) = m).
  { destruct (Z.leb_spec 0 (L - 52)) as [He|He].
    - assert (L = 52) as HL by lia. subst m s. rewrite HL. cbn [Z.sub Z.pow].
      change (2 ^ (52 - 52)) with 1. change (52 + -52) with 0.
      change (2 ^ 0) with 1. by rewrite !Z.mul_1_r.
    - subst m s. do 3 f_equal. lia. }
  rewrite Hm.
  destruct (nearest_even_scaled n d s) as [Hceil Hfloor]; [lia..|].
  fold m in Hceil, Hfloor.
  assert (Hover : (0 <=? L - 52) && (2 ^ 1024 <=? m * 2 ^ (L - 52)) = false).
  { destruct (Z.leb_spec 0 (L - 52)) as [He|He]; [|done]. cbn [andb].
    assert (L = 52) as HL by lia. rewrite HL. change (2 ^ (52 - 52)) with 1.
    apply Z.leb_gt.
    assert (s = 1) as Hs1 by (subst s; by rewrite HL).
    destruct (Hfloor (n `div` d)) as [_ Hup].
    { pose proof (Z_div_mod_eq_full n d). pose proof (Z.mod_pos_bound n d). lia. }
    assert (n `div` d ≤ n) by (apply Z.div_le_upper_bound; nia).
    assert (2 ^ 53 < 2 ^ 1024) by (apply Z.pow_lt_mono_r; lia).
    nia. }
  rewrite Hover. f_equal. unfold Double.ceil.
  cbn [Double.mantissa Double.exponent].
  assert (Hc : (if 0 <=? L - 52
                then Z.sgn a * Z.sgn b * m * 2 ^ (L - 52)
                else - ((- (Z.sgn a * Z.sgn b * m)) `div` 2 ^ (- (L - 52))))
               = - ((- (Z.sgn a * m)) `div` s)).
  { replace (Z.sgn b) with 1 by lia. rewrite Z.mul_1_r.
    destruct (Z.leb_spec 0 (L - 52)) as [He|He].
    - assert (L = 52) as HL by lia.
      assert (s = 1) as -> by (subst s; by rewrite HL).
      rewrite HL. change (2 ^ (52 - 52)) with 1. rewrite Z.div_1_r. lia.
    - subst s. do 3 f_equal. lia. }
  rewrite Hc. rewrite Hd in *.
  destruct (decide (0 < a)) as [Hpos|Hneg].
  - replace (Z.sgn a) with 1 by lia. rewrite Z.mul_1_l.
    assert (n = a) as Hna by (subst n; lia). rewrite Hna in *.
    pose proof (ceil_div_bounds a b ltac:(lia)) as Hk.
    set (k := - ((- a) `div` b)) in *.
    destruct (Hceil k) as [Hlo Hhi]; [lia|].
    f_equal. symmetry. apply Z.div_unique with (r := k * s - m); lia.
  - replace (Z.sgn a) with (-1) by lia.
    assert (n = - a) as Hna by (subst n; lia).
    replace (- (-1 * m)) with m by lia. rewrite <- Hna.
    pose proof (Z_div_mod_eq_full n b). pose proof (Z.mod_pos_bound n b ltac:(lia)).
    destruct (Hfloor (n `div` b)) as [Hlo Hhi]; [lia|].
    f_equal. symmetry. apply Z.div_unique with (r := m - n `div` b * s); lia.
Qed.

(** Beyond that range the two differ, as in these three cases: the
    double quotient of [2^53 + 1] by [2] and by [1], and of [1 - 2^54] by
    [2^54]. *)
Lemma double_ceil_truediv_inexact :
  Double.ceil_truediv (2 ^ 53 + 1) 2 = inl (2 ^ 52) ∧
  Py.ceil_truediv (2 ^ 53 + 1) 2 = Ok (2 ^ 52 + 1) ∧
  Double.ceil_truediv (2 ^ 53 + 1) 1 = inl (2 ^ 53) ∧
  Py.ceil_truediv (2 ^ 53 + 1) 1 = Ok (2 ^ 53 + 1) ∧
  Double.ceil_truediv (1 - 2 ^ 54) (2 ^ 54) = inl (-1) ∧
  Py.ceil_truediv (1 - 2 ^ 54) (2 ^ 54) = Ok 0.
Proof. repeat split; vm_compute; reflexivity. Qed.

Lemma double_ceil_exact_witness :
  ∃ k, Double.ceil_truediv (17 - 4) 4 = inl k ∧
       Py.ceil_truediv (17 - 4) 4 = Ok k ∧
       is_ceil k (17 - 4) 4.
Proof. apply (double_ceil_exact (17 - 4) 4); split; reflexivity. Defined.
